(** * Vibeheim: the UPROPERTY FGuid initialization validator

    A shallow embedding of [Scripts/validate_struct_initialization.py] and
    the properties of its scanner, scope resolver, classifier, directory
    walker, report builder and command line entry point.

    Conventions of the embedding.
    - A Python [str] is a [string]; one [ascii] stands for one code point
      below 256, and the classes [\s] and [\w] are the ones Python uses on
      that range.  The two pictographs of the report banner lie outside that
      range and are written as the three bytes UTF-8 gives them.
    - [Set[str]] is a [gset string]; lists are lists; [lines[i]] is the
      list lookup [lines !! i], with [IndexError] written out.
    - Exceptions are values of [exn]; code that may raise returns a [res];
      code that also prints or writes files returns an [M], a log of
      events together with a [res].
    - The operating system is a read-only record [World]. *)

From Stdlib Require Import Ascii String DecimalString Lia Sorted.
From stdpp Require Import base option list gmap strings sorting.

(** Append on strings computes under [simpl] when its first argument is a
    constructor. *)
Arguments String.append !_ _ / : simpl nomatch.

(* ================================================================== *)
(** * Part I: definitions                                              *)
(* ================================================================== *)

(** ** Characters and the string methods of Python that the script uses *)

Module Py.

Definition code (c : ascii) : nat := nat_of_ascii c.

Definition between (lo hi : nat) (c : ascii) : bool :=
  (lo <=? code c)%nat && (code c <=? hi)%nat.

(** [str.isspace] on one character, which is also [\s] of [re]. *)
Definition is_space (c : ascii) : bool :=
  between 9 13 c || between 28 32 c
  || (code c =? 133)%nat || (code c =? 160)%nat.

(** [\w] of [re] on a [str] pattern: alphanumeric, or the underscore. *)
Definition is_word (c : ascii) : bool :=
  between 48 57 c || between 65 90 c || between 97 122 c
  || (code c =? 95)%nat
  || (code c =? 170)%nat || between 178 179 c || (code c =? 181)%nat
  || between 185 186 c || between 188 190 c
  || between 192 214 c || between 216 246 c || between 248 255 c.

Definition is_nl (c : ascii) : bool := Ascii.eqb c "010".

(** [[^x]]: any character but [x], the line feed included. *)
Definition is_not (x : ascii) (c : ascii) : bool := negb (Ascii.eqb c x).

(** [.] without [re.DOTALL]: any character but the line feed. *)
Definition is_dot (c : ascii) : bool := negb (is_nl c).

(** [s.split('\n')]: never empty, one more piece than line feeds. *)
Fixpoint split_lines (s : string) : list string :=
  match s with
  | EmptyString => [EmptyString]
  | String c s' =>
      if is_nl c then EmptyString :: split_lines s'
      else match split_lines s' with
           | l :: ls => String c l :: ls
           | [] => [String c EmptyString]
           end
  end.

Fixpoint lstrip (s : string) : string :=
  match s with
  | EmptyString => EmptyString
  | String c s' => if is_space c then lstrip s' else s
  end.

Fixpoint rstrip (s : string) : string :=
  match s with
  | EmptyString => EmptyString
  | String c s' =>
      match rstrip s' with
      | EmptyString => if is_space c then EmptyString else String c EmptyString
      | r => String c r
      end
  end.

(** [s.strip()] *)
Definition strip (s : string) : string := rstrip (lstrip s).

(** [c * n] for a one-character string [c]. *)
Fixpoint repeat_char (c : ascii) (n : nat) : string :=
  match n with
  | O => EmptyString
  | S n' => String c (repeat_char c n')
  end.

(** [str(n)] for a natural number, as an f-string prints it. *)
Definition str_of_nat (n : nat) : string :=
  NilEmpty.string_of_uint (Nat.to_uint n).

(** ["\n".join(l)] *)
Fixpoint join_lines (l : list string) : string :=
  match l with
  | [] => EmptyString
  | [x] => x
  | x :: rest => x +:+ String "010" (join_lines rest)
  end.

(** Truth value of an optional string argument: [None] and [""] are
    false. *)
Definition truthy (o : option string) : bool :=
  match o with
  | Some (String _ _) => true
  | _ => false
  end.

End Py.

(** ** The fragment of [re] that the three patterns use

    A backtracking matcher in continuation-passing style: greedy
    quantifiers try the longest repetition first and give characters back
    one at a time, an optional group is tried before it is skipped, and the
    first successful path decides the groups, as in [re].  The state is the
    text still to read and a flag telling whether the position is at the
    start of the text or just after a line feed, which is where [^] holds
    under [re.MULTILINE]. *)

Module Re.

Inductive regex : Type :=
| Bol                               (* ^  under re.MULTILINE *)
| Eol                               (* $  under re.MULTILINE *)
| Lit (s : string)                  (* literal characters *)
| Star (cls : ascii → bool)         (* c*  greedy *)
| Plus (cls : ascii → bool)         (* c+  greedy *)
| Opt (r : regex)                   (* (?:r)?  greedy *)
| Group (n : nat) (r : regex)       (* (r), the group numbered n *)
| Cat (r1 r2 : regex).

Definition seq_of (rs : list regex) : regex := foldr Cat (Lit "") rs.

(** The groups of a match object: [groups !! n] is [group(n)], absent
    when the group took no part in the match. *)
Abbreviation groups := (gmap nat string).

Definition cont : Type := bool → string → groups → option groups.

Fixpoint lit (l : string) (bol : bool) (s : string)
    (k : bool → string → option groups) : option groups :=
  match l with
  | EmptyString => k bol s
  | String c l' =>
      match s with
      | String d s' => if Ascii.eqb c d then lit l' (Py.is_nl d) s' k else None
      | EmptyString => None
      end
  end.

Fixpoint star (cls : ascii → bool) (bol : bool) (s : string)
    (k : bool → string → option groups) : option groups :=
  match s with
  | String c s' =>
      if cls c then
        match star cls (Py.is_nl c) s' k with
        | Some g => Some g
        | None => k bol s
        end
      else k bol s
  | EmptyString => k bol s
  end.

Definition plus (cls : ascii → bool) (bol : bool) (s : string)
    (k : bool → string → option groups) : option groups :=
  match s with
  | String c s' => if cls c then star cls (Py.is_nl c) s' k else None
  | EmptyString => None
  end.

(** The text read between two positions of the same string. *)
Definition consumed (s s' : string) : string :=
  substring 0 (String.length s - String.length s') s.

Fixpoint exec (r : regex) (bol : bool) (s : string) (g : groups)
    (k : cont) : option groups :=
  match r with
  | Bol => if bol then k bol s g else None
  | Eol =>
      match s with
      | EmptyString => k bol s g
      | String c _ => if Py.is_nl c then k bol s g else None
      end
  | Lit l => lit l bol s (λ b s', k b s' g)
  | Star cls => star cls bol s (λ b s', k b s' g)
  | Plus cls => plus cls bol s (λ b s', k b s' g)
  | Opt r' =>
      match exec r' bol s g k with
      | Some g' => Some g'
      | None => k bol s g
      end
  | Group n r' =>
      exec r' bol s g (λ b s' g', k b s' (<[n := consumed s s']> g'))
  | Cat r1 r2 =>
      exec r1 bol s g (λ b s' g', exec r2 b s' g' k)
  end.

Definition accept : cont := λ _ _ g, Some g.

(** [pattern.match] at one position. *)
Definition match_here (r : regex) (bol : bool) (s : string) : option groups :=
  exec r bol s ∅ accept.

(** [pattern.search(s)]: the first position, from the left, where the
    pattern matches. *)
Fixpoint search_from (r : regex) (bol : bool) (s : string) : option groups :=
  match match_here r bol s with
  | Some g => Some g
  | None =>
      match s with
      | EmptyString => None
      | String c s' => search_from r (Py.is_nl c) s'
      end
  end.

Definition search (r : regex) (s : string) : option groups :=
  search_from r true s.

End Re.

Import Re.

(** ** The three compiled patterns of [StructInitializationValidator]

    Each is given with the text of the source pattern, its parts set apart
    by blanks. *)

(** ^ \s* UPROPERTY \s* \( [^)]* \) \s* $ *)
Definition uproperty_pattern : regex :=
  seq_of [Bol; Star Py.is_space; Lit "UPROPERTY"; Star Py.is_space;
          Lit "("; Star (Py.is_not ")"); Lit ")"; Star Py.is_space; Eol].

(** ^ \s* FGuid \s+ (\w+) (?: \s* = \s* ([^;]+) )? \s* ; \s* (?: // .* )? $ *)
Definition fguid_declaration_pattern : regex :=
  seq_of [Bol; Star Py.is_space; Lit "FGuid"; Plus Py.is_space;
          Group 1 (Plus Py.is_word);
          Opt (seq_of [Star Py.is_space; Lit "="; Star Py.is_space;
                       Group 2 (Plus (Py.is_not ";"))]);
          Star Py.is_space; Lit ";"; Star Py.is_space;
          Opt (seq_of [Lit "//"; Star Py.is_dot]); Eol].

(** ^ \s* (?: USTRUCT \s* \( [^)]* \) \s* )? struct \s+ (?: VIBEHEIM_API \s+ )? (\w+) *)
Definition struct_pattern : regex :=
  seq_of [Bol; Star Py.is_space;
          Opt (seq_of [Lit "USTRUCT"; Star Py.is_space; Lit "(";
                       Star (Py.is_not ")"); Lit ")"; Star Py.is_space]);
          Lit "struct"; Plus Py.is_space;
          Opt (seq_of [Lit "VIBEHEIM_API"; Plus Py.is_space]);
          Group 1 (Plus Py.is_word)].

(** ** Exceptions, results and effects *)

Inductive exn_class : Type :=
| IOError | UnicodeDecodeError | JSONDecodeError
| AttributeError | TypeError | IndexError.

Global Instance exn_class_eq_dec : EqDecision exn_class.
Proof. solve_decision. Defined.

Record exn : Type := Exn { exn_class_of : exn_class; exn_msg : string }.

(** The outcome of a call: a value, or an exception on its way up. *)
Inductive res (A : Type) : Type :=
| Ok (a : A)
| Raise (e : exn).
Arguments Ok {A} a.
Arguments Raise {A} e.

Global Instance res_ret : MRet res := λ A a, Ok a.
Global Instance res_bind : MBind res := λ A B f m,
  match m with
  | Ok a => f a
  | Raise e => Raise e
  end.

(** What a run does to the outside: lines printed, files written. *)
Inductive event : Type :=
| Print (s : string)
| WriteFile (path content : string).

(** A computation with effects: the events so far, and the outcome. *)
Definition M (A : Type) : Type := (list event * res A)%type.

Global Instance M_ret : MRet M := λ A a, ([], Ok a).
Global Instance M_bind : MBind M := λ A B f m,
  match m with
  | (log, Ok a) => let '(log', r) := f a in (log ++ log', r)
  | (log, Raise e) => (log, Raise e)
  end.

Definition print (s : string) : M unit := ([Print s], Ok ()).

Definition lift {A : Type} (r : res A) : M A := ([], r).

(** [try: body / except classes as e: handler e] *)
Definition try_except {A : Type} (body : M A) (classes : list exn_class)
    (handler : exn → M A) : M A :=
  match body with
  | (log, Ok a) => (log, Ok a)
  | (log, Raise e) =>
      if bool_decide (exn_class_of e ∈ classes)
      then let '(log', r) := handler e in (log ++ log', r)
      else (log, Raise e)
  end.

(** ** Values that [json.load] returns *)

#[warnings="-register-all"]
Inductive json : Type :=
| JNull
| JBool (b : bool)
| JInt (n : Z)
| JFloat (literal : string)
| JStr (s : string)
| JArr (items : list json)
| JObj (fields : list (string * json)).

(** [d.get(key, default)] on the dict built from the members of a JSON
    object in the order of the file: a later member replaces an earlier one
    of the same name. *)
Fixpoint dict_get (key : string) (fields : list (string * json))
    (default : json) : json :=
  match fields with
  | [] => default
  | (k, v) :: rest => dict_get key rest (if String.eqb k key then v else default)
  end.

(** [data.get(key, default)]: only a dict has the method. *)
Definition json_get (data : json) (key : string) (default : json) : res json :=
  match data with
  | JObj fields => Ok (dict_get key fields default)
  | JArr _ => Raise (Exn AttributeError "'list' object has no attribute 'get'")
  | JStr _ => Raise (Exn AttributeError "'str' object has no attribute 'get'")
  | JInt _ => Raise (Exn AttributeError "'int' object has no attribute 'get'")
  | JFloat _ => Raise (Exn AttributeError "'float' object has no attribute 'get'")
  | JBool _ => Raise (Exn AttributeError "'bool' object has no attribute 'get'")
  | JNull => Raise (Exn AttributeError "'NoneType' object has no attribute 'get'")
  end.

(** The name of the type of a value that cannot be hashed. *)
Definition unhashable (v : json) : option string :=
  match v with
  | JArr _ => Some "list"
  | JObj _ => Some "dict"
  | _ => None
  end.

Definition as_str (v : json) : option string :=
  match v with
  | JStr s => Some s
  | _ => None
  end.

Fixpoint chars (s : string) : list string :=
  match s with
  | EmptyString => []
  | String c s' => String c EmptyString :: chars s'
  end.

Definition not_iterable (type_name : string) : exn :=
  Exn TypeError ("'" +:+ type_name +:+ "' object is not iterable").

(** [set(v)]: the members of a list, the characters of a string, the keys
    of a dict; the first member that cannot be hashed stops it.  The set is
    only ever asked whether it holds a given [str], and a [str] equals no
    number, boolean or [None]: the members that are not strings are left
    out of the [gset string]. *)
Definition py_set (v : json) : res (gset string) :=
  match v with
  | JArr items =>
      match head (omap unhashable items) with
      | Some type_name =>
          Raise (Exn TypeError ("unhashable type: '" +:+ type_name +:+ "'"))
      | None => Ok (list_to_set (omap as_str items))
      end
  | JStr s => Ok (list_to_set (chars s))
  | JObj fields => Ok (list_to_set (fields.*1))
  | JInt _ => Raise (not_iterable "int")
  | JFloat _ => Raise (not_iterable "float")
  | JBool _ => Raise (not_iterable "bool")
  | JNull => Raise (not_iterable "NoneType")
  end.

(** ** The operating system, as the script sees it *)

(** [open(path, 'r', encoding='utf-8')] followed by [read()]. *)
Inductive read_outcome : Type :=
| ReadText (text : string)
| ReadIOError (msg : string)
| ReadUnicodeDecodeError (msg : string).

(** [open(path, 'r')] followed by [json.load]. *)
Inductive load_outcome : Type :=
| LoadValue (data : json)
| LoadIOError (msg : string)
| LoadUnicodeDecodeError (msg : string)
| LoadJSONDecodeError (msg : string).

(** [open(path, 'w')] followed by a write. *)
Inductive write_outcome : Type :=
| WriteDone
| WriteIOError (msg : string).

(** [Path.is_file()]: an answer, or the [OSError] of the underlying [stat]
    that [is_file] lets through, such as the [PermissionError] for a path
    inside a directory that cannot be searched. *)
Inductive is_file_outcome : Type :=
| IsFile (answer : bool)
| IsFileOSError (msg : string).

Global Instance is_file_outcome_eq_dec : EqDecision is_file_outcome.
Proof. solve_decision. Defined.

Record World : Type := {
  isdir : string → bool;                    (* os.path.isdir *)
  path_exists : string → bool;              (* os.path.exists *)
  glob : string → string → list string;     (* Path(dir).glob(pattern), in the order the system yields *)
  is_file : string → is_file_outcome;       (* Path.is_file *)
  read_header : string → read_outcome;
  load_json : string → load_outcome;
  write_text : string → write_outcome
}.

Definition open_read (w : World) (path : string) : res string :=
  match read_header w path with
  | ReadText text => Ok text
  | ReadIOError msg => Raise (Exn IOError msg)
  | ReadUnicodeDecodeError msg => Raise (Exn UnicodeDecodeError msg)
  end.

Definition open_json_load (w : World) (path : string) : res json :=
  match load_json w path with
  | LoadValue data => Ok data
  | LoadIOError msg => Raise (Exn IOError msg)
  | LoadUnicodeDecodeError msg => Raise (Exn UnicodeDecodeError msg)
  | LoadJSONDecodeError msg => Raise (Exn JSONDecodeError msg)
  end.

Definition open_write (w : World) (path content : string) : M unit :=
  match write_text w path with
  | WriteDone => ([WriteFile path content], Ok ())
  | WriteIOError msg => ([], Raise (Exn IOError msg))
  end.

(** [header_file.is_file()].  [IOError] is another name of [OSError], the
    class of what [stat] raises. *)
Definition path_is_file (w : World) (path : string) : res bool :=
  match is_file w path with
  | IsFile answer => Ok answer
  | IsFileOSError msg => Raise (Exn IOError msg)
  end.

(** ** The data model *)

Record FGuidProperty : Type := {
  file_path : string;
  line_number : nat;
  struct_name : string;
  property_name : string;
  uproperty_line : string;
  declaration_line : string;
  has_initializer : bool;
  initializer_value : option string
}.

Global Instance FGuidProperty_eq_dec : EqDecision FGuidProperty.
Proof. solve_decision. Defined.

Record ValidationResult : Type := {
  result_file_path : string;
  properties_found : list FGuidProperty;
  valid_properties : list FGuidProperty;
  invalid_properties : list FGuidProperty;
  suppressed_properties : list FGuidProperty
}.

(** ** [StructInitializationValidator] *)

(** [self.valid_initializers], a set display that names one form twice. *)
Definition valid_initializers : gset string :=
  list_to_set ["FGuid()"; "FGuid::NewGuid()"; "FGuid::NewGuid()"].

(** [load_suppressions]: the value of [self.suppression_patterns] after the
    call; the constructor has set it to the empty set before. *)
Definition load_suppressions (w : World) (suppression_file : option string)
    : M (gset string) :=
  match suppression_file with
  | None => mret ∅
  | Some path =>
      if negb (Py.truthy suppression_file) || negb (path_exists w path)
      then mret ∅
      else
        try_except
          (data ← lift (open_json_load w path);
           entries ← lift (json_get data "suppressions" (JArr []));
           lift (py_set entries))
          [JSONDecodeError; IOError]
          (λ e,
             print ("Warning: Could not load suppression file " +:+ path
                    +:+ ": " +:+ exn_msg e);;
             mret ∅)
  end.

Definition patterns_to_check (file_path struct_name property_name : string)
    : list string :=
  [ file_path +:+ ":" +:+ struct_name +:+ "::" +:+ property_name;
    struct_name +:+ "::" +:+ property_name;
    "*::" +:+ property_name;
    file_path ].

Definition is_suppressed (suppression_patterns : gset string)
    (file_path struct_name property_name : string) : bool :=
  existsb (λ pattern, bool_decide (pattern ∈ suppression_patterns))
          (patterns_to_check file_path struct_name property_name).

(** The loop of [find_struct_name]: [for i in range(n - 1, -1, -1)]. *)
Fixpoint find_struct_name_loop (lines : list string) (n : nat) : res string :=
  match n with
  | O => Ok "UnknownStruct"
  | S i =>
      match lines !! i with
      | None => Raise (Exn IndexError "list index out of range")
      | Some line =>
          match search struct_pattern line with
          | Some m => Ok (default "" (m !! 1))   (* group 1 is in every match *)
          | None => find_struct_name_loop lines i
          end
      end
  end.

Definition find_struct_name (content : string) (line_number : nat) : res string :=
  find_struct_name_loop (Py.split_lines content) line_number.

Definition is_valid_initialization (prop : FGuidProperty) : res bool :=
  if negb (has_initializer prop) then Ok false
  else
    match initializer_value prop with
    | None => Raise (Exn AttributeError "'NoneType' object has no attribute 'strip'")
    | Some v =>
        let normalized := Py.strip v in
        Ok (bool_decide (normalized ∈ valid_initializers))
    end.

(** [range(a, b)] *)
Definition range (a b : nat) : list nat := seq a (b - a).

(** What [validate_file] does once line [j] matched the declaration
    pattern with groups [m].  Group 1 takes part in every match, so that
    [group(1)] is a string (lemma [fguid_search_groups]). *)
Definition make_property (file_path content line : string) (j : nat)
    (next_line : string) (m : groups) : res FGuidProperty :=
  let property_name := default "" (m !! 1) in
  let initializer := m !! 2 in
  struct_name ← find_struct_name content (j + 1);
  let has_initializer := bool_decide (is_Some initializer) in
  let initializer_value :=
    if Py.truthy initializer then Py.strip <$> initializer else None in
  Ok {| file_path := file_path;
        line_number := j + 1;
        struct_name := struct_name;
        property_name := property_name;
        uproperty_line := Py.strip line;
        declaration_line := Py.strip next_line;
        has_initializer := has_initializer;
        initializer_value := initializer_value |}.

(** The inner loop, [for j in range(i + 1, min(i + 5, len(lines)))], over
    the values [js] that [j] still has to take: the property of the first
    line that matches, and then [break]. *)
Fixpoint lookahead (file_path content : string) (lines : list string)
    (line : string) (js : list nat) : res (option FGuidProperty) :=
  match js with
  | [] => Ok None
  | j :: js' =>
      match lines !! j with
      | None => Raise (Exn IndexError "list index out of range")
      | Some next_line =>
          match search fguid_declaration_pattern next_line with
          | Some fguid_match =>
              prop ← make_property file_path content line j next_line fguid_match;
              Ok (Some prop)
          | None => lookahead file_path content lines line js'
          end
      end
  end.

(** The body of the [while] loop at index [i]: what it appends to
    [properties_found]. *)
Definition scan_line (file_path content : string) (lines : list string)
    (i : nat) : res (list FGuidProperty) :=
  match lines !! i with
  | None => Raise (Exn IndexError "list index out of range")
  | Some line =>
      if bool_decide (is_Some (search uproperty_pattern line)) then
        found ← lookahead file_path content lines line
                  (range (i + 1) (min (i + 5) (length lines)));
        Ok (option_list found)
      else Ok []
  end.

(** [i = ...; while i < len(lines): ...; i += 1], by recursion on
    [len(lines) - i], the number of lines still to visit. *)
Fixpoint scan_while (file_path content : string) (lines : list string)
    (remaining i : nat) (properties_found : list FGuidProperty)
    : res (list FGuidProperty) :=
  match remaining with
  | O => Ok properties_found
  | S remaining' =>
      new ← scan_line file_path content lines i;
      scan_while file_path content lines remaining' (i + 1)
                 (properties_found ++ new)
  end.

Definition scan_properties (file_path content : string) : res (list FGuidProperty) :=
  let lines := Py.split_lines content in
  scan_while file_path content lines (length lines - 0) 0 [].

(** [for prop in properties_found: ...], the three lists growing at their
    ends. *)
Fixpoint categorize (suppression_patterns : gset string) (file_path : string)
    (props valid invalid suppressed : list FGuidProperty)
    : res (list FGuidProperty * list FGuidProperty * list FGuidProperty) :=
  match props with
  | [] => Ok (valid, invalid, suppressed)
  | prop :: rest =>
      if is_suppressed suppression_patterns file_path
           (struct_name prop) (property_name prop)
      then categorize suppression_patterns file_path rest
             valid invalid (suppressed ++ [prop])
      else
        ok ← is_valid_initialization prop;
        if ok : bool
        then categorize suppression_patterns file_path rest
               (valid ++ [prop]) invalid suppressed
        else categorize suppression_patterns file_path rest
               valid (invalid ++ [prop]) suppressed
  end.

Definition no_properties (file_path : string) : ValidationResult :=
  {| result_file_path := file_path;
     properties_found := [];
     valid_properties := [];
     invalid_properties := [];
     suppressed_properties := [] |}.

Definition validate_file (w : World) (suppression_patterns : gset string)
    (file_path : string) : M ValidationResult :=
  read ← try_except
            (content ← lift (open_read w file_path); mret (inl content))
            [IOError; UnicodeDecodeError]
            (λ e,
               print ("Warning: Could not read file " +:+ file_path
                      +:+ ": " +:+ exn_msg e);;
               mret (inr (no_properties file_path)));
  match read with
  | inr early => mret early
  | inl content =>
      properties_found ← lift (scan_properties file_path content);
      '(valid, invalid, suppressed) ←
         lift (categorize suppression_patterns file_path properties_found [] [] []);
      mret {| result_file_path := file_path;
              properties_found := properties_found;
              valid_properties := valid;
              invalid_properties := invalid;
              suppressed_properties := suppressed |}
  end.

(** The loop of [scan_directory] over the paths that [glob] yields. *)
Fixpoint scan_files (w : World) (suppression_patterns : gset string)
    (files : list string) (results : list ValidationResult)
    : M (list ValidationResult) :=
  match files with
  | [] => mret results
  | header_file :: rest =>
      regular ← lift (path_is_file w header_file);
      if regular : bool then
        result ← validate_file w suppression_patterns header_file;
        match properties_found result with
        | [] => scan_files w suppression_patterns rest results
        | _ :: _ => scan_files w suppression_patterns rest (results ++ [result])
        end
      else scan_files w suppression_patterns rest results
  end.

Definition scan_directory (w : World) (suppression_patterns : gset string)
    (directory : string) (recursive : bool) : M (list ValidationResult) :=
  let pattern := if recursive then "**/*.h" else "*.h" in
  scan_files w suppression_patterns (glob w directory pattern) [].

(** [sum(len(field(r)) for r in results)] *)
Definition total (field : ValidationResult → list FGuidProperty)
    (results : list ValidationResult) : nat :=
  foldr (λ r acc, length (field r) + acc) 0 results.

(** How an f-string prints an [Optional[str]]. *)
Definition str_of_optional (o : option string) : string :=
  match o with
  | Some s => s
  | None => "None"
  end.

Definition invalid_item (prop : FGuidProperty) : list string :=
  [ "File: " +:+ file_path prop +:+ ":" +:+ Py.str_of_nat (line_number prop);
    "Struct: " +:+ struct_name prop;
    "Property: " +:+ property_name prop;
    "Declaration: " +:+ declaration_line prop ]
  ++ (if has_initializer prop
      then [ "Current initializer: " +:+ str_of_optional (initializer_value prop);
             "Issue: Invalid initializer pattern" ]
      else [ "Issue: Missing in-class initializer" ])
  ++ [ "Expected: FGuid() or FGuid::NewGuid()"; "" ].

Definition suppressed_item (prop : FGuidProperty) : string :=
  file_path prop +:+ ":" +:+ Py.str_of_nat (line_number prop) +:+ " - "
  +:+ struct_name prop +:+ "::" +:+ property_name prop.

Definition valid_item (prop : FGuidProperty) : string :=
  "✅ " +:+ file_path prop +:+ ":" +:+ Py.str_of_nat (line_number prop) +:+ " - "
  +:+ struct_name prop +:+ "::" +:+ property_name prop +:+ " = "
  +:+ str_of_optional (initializer_value prop).

(** The list [report] of [generate_report], before it is joined. *)
Definition report_lines (results : list ValidationResult) : list string :=
  let total_properties := total properties_found results in
  let total_valid := total valid_properties results in
  let total_invalid := total invalid_properties results in
  let total_suppressed := total suppressed_properties results in
  [ Py.repeat_char "=" 80;
    "UPROPERTY FGuid Initialization Validation Report";
    Py.repeat_char "=" 80;
    "";
    "Total files scanned: " +:+ Py.str_of_nat (length results);
    "Total UPROPERTY FGuid properties found: " +:+ Py.str_of_nat total_properties;
    "Valid properties: " +:+ Py.str_of_nat total_valid;
    "Invalid properties: " +:+ Py.str_of_nat total_invalid;
    "Suppressed properties: " +:+ Py.str_of_nat total_suppressed;
    "" ]
  ++ (if (0 <? total_invalid)%nat
      then [ "❌ VALIDATION FAILED"; "";
             "Invalid Properties (require fixes):"; Py.repeat_char "-" 40 ]
           ++ flat_map (λ result, flat_map invalid_item (invalid_properties result))
                       results
      else [ "✅ VALIDATION PASSED"; "" ])
  ++ (if (0 <? total_suppressed)%nat
      then [ "Suppressed Properties:"; Py.repeat_char "-" 20 ]
           ++ flat_map (λ result, map suppressed_item (suppressed_properties result))
                       results
           ++ [ "" ]
      else [])
  ++ (if (0 <? total_valid)%nat
      then [ "Valid Properties:"; Py.repeat_char "-" 15 ]
           ++ flat_map (λ result, map valid_item (valid_properties result))
                       results
           ++ [ "" ]
      else []).

Definition generate_report (results : list ValidationResult) : string :=
  Py.join_lines (report_lines results).

(** ** The command line *)

Definition dq : string := String "034" EmptyString.
Definition bs : string := String "092" EmptyString.
Definition nl : string := String "010" EmptyString.

(** What [json.dump(default_suppressions, f, indent=2)] writes. *)
Definition default_suppressions_text : string :=
  "{" +:+ nl
  +:+ "  " +:+ dq +:+ "suppressions" +:+ dq +:+ ": [" +:+ nl
  +:+ "    " +:+ dq +:+ "# Example suppressions:" +:+ dq +:+ "," +:+ nl
  +:+ "    " +:+ dq +:+ "# " +:+ bs +:+ dq
  +:+ "Source/Vibeheim/WorldGen/Public/Data/LegacyStruct.h:FLegacyStruct::LegacyId"
  +:+ bs +:+ dq +:+ dq +:+ "," +:+ nl
  +:+ "    " +:+ dq +:+ "# " +:+ bs +:+ dq +:+ "FTemporaryStruct::TempId"
  +:+ bs +:+ dq +:+ dq +:+ "," +:+ nl
  +:+ "    " +:+ dq +:+ "# " +:+ bs +:+ dq +:+ "*::DebugId"
  +:+ bs +:+ dq +:+ dq +:+ nl
  +:+ "  ]" +:+ nl
  +:+ "}".

Definition create_default_suppression_file (w : World) (file_path : string)
    : M unit :=
  open_write w file_path default_suppressions_text.

(** The namespace that [parser.parse_args()] returns. *)
Record Args : Type := {
  directory : string;
  recursive : bool;
  suppression_file : option string;
  create_suppression_file : option string;
  output : option string;
  fail_on_invalid : bool
}.

Definition main (w : World) (args : Args) : M nat :=
  if Py.truthy (create_suppression_file args) then
    let path := default "" (create_suppression_file args) in
    create_default_suppression_file w path;;
    print ("Created default suppression file: " +:+ path);;
    mret 0
  else if negb (isdir w (directory args)) then
    print ("Error: Directory '" +:+ directory args +:+ "' does not exist");;
    mret 1
  else
    suppression_patterns ← load_suppressions w (suppression_file args);
    results ← scan_directory w suppression_patterns (directory args) (recursive args);
    let report := generate_report results in
    (if Py.truthy (output args) then
       let path := default "" (output args) in
       open_write w path report;;
       print ("Report written to: " +:+ path)
     else print report);;
    let total_invalid := total invalid_properties results in
    if fail_on_invalid args && (0 <? total_invalid)%nat then mret 1 else mret 0.

(** [sys.exit(main())]: the value returned is the exit status; an
    exception that nothing caught ends the interpreter with status 1. *)
Definition exit_status (r : res nat) : nat :=
  match r with
  | Ok status => status
  | Raise _ => 1
  end.

Definition run (w : World) (args : Args) : list event * nat :=
  let '(log, r) := main w args in (log, exit_status r).

(** ** Notions used to state the properties *)

(** Every character of [s] is in the class. *)
Fixpoint all_of (cls : ascii → bool) (s : string) : bool :=
  match s with
  | EmptyString => true
  | String c s' => cls c && all_of cls s'
  end.

(** A string without line feed, as every piece of [split_lines] is. *)
Definition no_nl (s : string) : bool := all_of Py.is_dot s.

(** What a successful run of the matcher on [r] has read, as a relation
    between the text and groups before and after: the matcher is sound for
    it (lemma [exec_sound]). *)
Fixpoint matches (r : regex) (bol : bool) (s : string) (g : groups)
    (s' : string) (g' : groups) : Prop :=
  match r with
  | Bol => bol = true ∧ s' = s ∧ g' = g
  | Eol => (s = "" ∨ ∃ c t, s = String c t ∧ Py.is_nl c = true) ∧ s' = s ∧ g' = g
  | Lit l => s = l +:+ s' ∧ g' = g
  | Star cls => ∃ u, s = u +:+ s' ∧ all_of cls u = true ∧ g' = g
  | Plus cls => ∃ u, s = u +:+ s' ∧ u ≠ "" ∧ all_of cls u = true ∧ g' = g
  | Opt r' => matches r' bol s g s' g' ∨ (s' = s ∧ g' = g)
  | Group n r' => ∃ g0, matches r' bol s g s' g0 ∧ g' = <[n := consumed s s']> g0
  | Cat r1 r2 =>
      ∃ b1 s1 g1, matches r1 bol s g s1 g1 ∧ matches r2 b1 s1 g1 s' g'
  end.

(** The groups of the declaration pattern on line [j], if it matches. *)
Definition declaration_at (lines : list string) (j : nat) : option groups :=
  lines !! j ≫= search fguid_declaration_pattern.

(** Line [i] is an annotation line. *)
Definition annotation_at (lines : list string) (i : nat) : bool :=
  bool_decide (is_Some (lines !! i ≫= search uproperty_pattern)).

(** The name that the structure pattern captures on line [i], if it
    matches. *)
Definition header_at (lines : list string) (i : nat) : option string :=
  m ← lines !! i ≫= search struct_pattern; Some (default "" (m !! 1)).

(** The three categories and the resolution the classifier implements. *)
Inductive category : Type := Suppressed | Valid | Invalid.

Global Instance category_eq_dec : EqDecision category.
Proof. solve_decision. Defined.

Definition canonical (prop : FGuidProperty) : bool :=
  has_initializer prop
  && match initializer_value prop with
     | Some v => bool_decide (v = "FGuid()" ∨ v = "FGuid::NewGuid()")
     | None => false
     end.

Definition classify (suppression_patterns : gset string) (prop : FGuidProperty)
    : category :=
  if is_suppressed suppression_patterns (file_path prop)
       (struct_name prop) (property_name prop)
  then Suppressed
  else if canonical prop then Valid else Invalid.

(** A property as the scanner builds it: a name, and an initializer text
    whenever the flag says there is one, already trimmed. *)
Definition well_formed (file : string) (prop : FGuidProperty) : Prop :=
  file_path prop = file
  ∧ property_name prop ≠ ""
  ∧ (1 ≤ line_number prop)%nat
  ∧ (has_initializer prop = true →
     ∃ v, initializer_value prop = Some v ∧ Py.strip v = v)
  ∧ (has_initializer prop = false → initializer_value prop = None).

(** The values of [j] in the inner loop for the annotation line [i]. *)
Definition window (lines : list string) (i : nat) : list nat :=
  range (i + 1) (min (i + 5) (length lines)).

(** The first of the lines [js] that matches the declaration pattern. *)
Fixpoint first_declaration (lines : list string) (js : list nat) : option nat :=
  match js with
  | [] => None
  | j :: js' =>
      if bool_decide (is_Some (declaration_at lines j)) then Some j
      else first_declaration lines js'
  end.

(** [prop] is the occurrence that pairs the annotation line [i] with the
    declaration line [j]. *)
Definition occurrence_of (lines : list string) (i j : nat)
    (prop : FGuidProperty) : Prop :=
  line_number prop = j + 1
  ∧ (∃ line, lines !! i = Some line ∧ uproperty_line prop = Py.strip line)
  ∧ (∃ next_line, lines !! j = Some next_line
                  ∧ declaration_line prop = Py.strip next_line)
  ∧ (∃ m, declaration_at lines j = Some m
          ∧ m !! 1 = Some (property_name prop)
          ∧ has_initializer prop = bool_decide (is_Some (m !! 2))
          ∧ initializer_value prop = Py.strip <$> m !! 2).

(** The line that [validate_file] prints when a header cannot be read. *)
Definition read_warning (file msg : string) : event :=
  Print ("Warning: Could not read file " +:+ file +:+ ": " +:+ msg).

(** [is_file] answers that the path is a regular file. *)
Definition regular (w : World) (path : string) : bool :=
  match is_file w path with
  | IsFile answer => answer
  | IsFileOSError _ => false
  end.

(** The error of the first path of an enumeration at which [is_file]
    raises, and the paths before it: the ones that the loop of
    [scan_directory] gets through. *)
Fixpoint stat_error (w : World) (files : list string) : option string :=
  match files with
  | [] => None
  | f :: rest =>
      match is_file w f with
      | IsFile _ => stat_error w rest
      | IsFileOSError msg => Some msg
      end
  end.

Fixpoint before_stat_error (w : World) (files : list string) : list string :=
  match files with
  | [] => []
  | f :: rest =>
      match is_file w f with
      | IsFile _ => f :: before_stat_error w rest
      | IsFileOSError _ => []
      end
  end.

(** What one path of the enumeration adds to the results of
    [scan_directory], and what it prints. *)
Definition file_result (w : World) (supp : gset string) (header_file : string)
    : option ValidationResult :=
  if regular w header_file then
    match validate_file w supp header_file with
    | (_, Ok result) =>
        match properties_found result with
        | [] => None
        | _ :: _ => Some result
        end
    | (_, Raise _) => None
    end
  else None.

Definition file_log (w : World) (supp : gset string) (header_file : string)
    : list event :=
  if regular w header_file then (validate_file w supp header_file).1 else [].

(** The results and the log of the scan that [main] runs with the
    suppression set [supp]. *)
Definition scan_results (w : World) (supp : gset string) (args : Args)
    : list ValidationResult :=
  omap (file_result w supp)
       (glob w (directory args) (if recursive args then "**/*.h" else "*.h")).

Definition scan_log (w : World) (supp : gset string) (args : Args)
    : list event :=
  flat_map (file_log w supp)
       (before_stat_error w
          (glob w (directory args)
                (if recursive args then "**/*.h" else "*.h"))).

(** The error that ends the scan of [main], if [is_file] raises at an
    enumerated path. *)
Definition scan_error (w : World) (args : Args) : option string :=
  stat_error w
    (glob w (directory args) (if recursive args then "**/*.h" else "*.h")).

(** The value that [main] returns after a scan with these results. *)
Definition exit_code_for (args : Args) (results : list ValidationResult) : nat :=
  if fail_on_invalid args && (0 <? total invalid_properties results)
  then 1 else 0.

(** The number of invalid occurrences of the scan that a run makes, when
    the run gets as far as completing one. *)
Definition scan_invalid_count (w : World) (args : Args) : option nat :=
  match load_suppressions w (suppression_file args) with
  | (_, Ok supp) =>
      match scan_directory w supp (directory args) (recursive args) with
      | (_, Ok results) => Some (total invalid_properties results)
      | (_, Raise _) => None
      end
  | (_, Raise _) => None
  end.

(** The rule of the exit code as the specification words it: 1 exactly
    when the root is no directory, or the scan found invalid occurrences
    and [--fail-on-invalid] is set. *)
Definition exit_one_rule (w : World) (args : Args) : Prop :=
  (run w args).2 = 1
  ↔ (isdir w (directory args) = false
     ∨ (fail_on_invalid args = true
        ∧ ∃ n, scan_invalid_count w args = Some n ∧ 0 < n)).

(** Two worlds with the same directories, the same files with the same
    contents and the same suppression file; the walker may enumerate the
    files in different orders. *)
Definition same_contents (w1 w2 : World) : Prop :=
  (∀ p, isdir w1 p = isdir w2 p)
  ∧ (∀ p, path_exists w1 p = path_exists w2 p)
  ∧ (∀ p, is_file w1 p = is_file w2 p)
  ∧ (∀ p, read_header w1 p = read_header w2 p)
  ∧ (∀ p, load_json w1 p = load_json w2 p)
  ∧ (∀ p, write_text w1 p = write_text w2 p)
  ∧ (∀ d pattern, glob w1 d pattern ≡ₚ glob w2 d pattern).

(** Determinism as the specification words it: same contents, same report
    and same exit code. *)
Definition report_deterministic (w1 w2 : World) (args : Args) : Prop :=
  same_contents w1 w2 → run w1 args = run w2 args.

(** The lines of the report of a run, when it gets as far as a report. *)
Definition report_lines_of (w : World) (args : Args) : option (list string) :=
  match load_suppressions w (suppression_file args) with
  | (_, Ok supp) =>
      match scan_directory w supp (directory args) (recursive args) with
      | (_, Ok results) => Some (report_lines results)
      | (_, Raise _) => None
      end
  | (_, Raise _) => None
  end.

(** ** Sample headers and worlds *)

(** The annotation on line 2, the declaration four lines later. *)
Definition header_fourth_line : string :=
  Py.join_lines ["struct FFoo"; "    UPROPERTY()"; ""; ""; ""; "    FGuid Id;"].

(** The annotation on line 2, the declaration five lines later. *)
Definition header_fifth_line : string :=
  Py.join_lines ["struct FFoo"; "    UPROPERTY()"; ""; ""; ""; "";
                 "    FGuid Id;"].

(** Two declarations in the window of one annotation. *)
Definition header_two_declarations : string :=
  Py.join_lines ["struct FFoo"; "    UPROPERTY()"; "    FGuid First;";
                 "    FGuid Second;"].

(** Two annotations above one declaration. *)
Definition header_two_annotations : string :=
  Py.join_lines ["USTRUCT()"; "struct VIBEHEIM_API FFoo"; "{";
                 "    UPROPERTY()"; "    UPROPERTY(EditAnywhere)";
                 "    FGuid Id;"; "};"].

(** Initializers of every kind, under two structures. *)
Definition header_initializers : string :=
  Py.join_lines ["struct FFoo"; "{";
                 "    UPROPERTY()"; "    FGuid A = FGuid();";
                 "    UPROPERTY()"; "    FGuid B = FGuid::NewGuid() ; // fresh";
                 "    UPROPERTY()"; "    FGuid C = FGuid(42);";
                 "    UPROPERTY()"; "    FGuid D;";
                 "    UPROPERTY()"; "    FGuid E =  ;";
                 "};";
                 "struct FBar"; "{";
                 "    UPROPERTY()"; "    FGuid A = FGuid();";
                 "};"].

(** A world with a directory "Source" holding two headers, enumerated in
    the order [files], and a suppression file whose loading gives
    [suppressions]. *)
Definition sample_world_with (files : list string) (suppressions : load_outcome)
    : World :=
  {| isdir := λ d, bool_decide (d = "Source");
     path_exists := λ p, bool_decide (p = "suppressions.json");
     glob := λ d pattern, if bool_decide (d = "Source") then files else [];
     is_file := λ _, IsFile true;
     read_header := λ p,
       if bool_decide (p = "Source/a.h") then ReadText header_initializers
       else if bool_decide (p = "Source/b.h") then ReadText header_two_annotations
       else ReadIOError "No such file or directory";
     load_json := λ p,
       if bool_decide (p = "suppressions.json") then suppressions
       else LoadIOError "No such file or directory";
     write_text := λ _, WriteDone |}.

Definition sample_suppressions : json :=
  JObj [("suppressions", JArr [JStr "# a note"; JStr "FBar::A"])].

Definition sample_world : World :=
  sample_world_with ["Source/a.h"; "Source/b.h"] (LoadValue sample_suppressions).

(** The same files and the same suppression file, enumerated the other way
    round. *)
Definition sample_world_reversed : World :=
  sample_world_with ["Source/b.h"; "Source/a.h"] (LoadValue sample_suppressions).

(** The sample world with the second header in a directory that cannot be
    searched: [is_file] raises there. *)
Definition world_with_unsearchable_directory : World :=
  {| isdir := isdir sample_world;
     path_exists := path_exists sample_world;
     glob := glob sample_world;
     is_file := λ p,
       if bool_decide (p = "Source/b.h")
       then IsFileOSError "[Errno 13] Permission denied: 'Source/b.h'"
       else IsFile true;
     read_header := read_header sample_world;
     load_json := load_json sample_world;
     write_text := write_text sample_world |}.

Definition sample_property (line : nat) (struct name declaration : string)
    (initializer : option string) : FGuidProperty :=
  {| file_path := "Source/a.h"; line_number := line; struct_name := struct;
     property_name := name; uproperty_line := "UPROPERTY()";
     declaration_line := declaration;
     has_initializer := bool_decide (is_Some initializer);
     initializer_value := initializer |}.

(** Worlds whose suppression file exists and is well-formed JSON of the
    wrong shape, or is no text at all. *)
Definition world_with_json_array : World :=
  sample_world_with ["Source/a.h"; "Source/b.h"] (LoadValue (JArr [])).

Definition world_with_null_entry : World :=
  sample_world_with ["Source/a.h"; "Source/b.h"]
    (LoadValue (JObj [("suppressions", JNull)])).

Definition world_with_undecodable_file : World :=
  sample_world_with ["Source/a.h"; "Source/b.h"]
    (LoadUnicodeDecodeError
       "'utf-8' codec can't decode byte 0xff in position 0: invalid start byte").

Definition world_with_malformed_json : World :=
  sample_world_with ["Source/a.h"; "Source/b.h"]
    (LoadJSONDecodeError "Expecting value: line 1 column 1 (char 0)").

Definition sample_args : Args :=
  {| directory := "Source"; recursive := true;
     suppression_file := Some "suppressions.json";
     create_suppression_file := None; output := None;
     fail_on_invalid := true |}.

Definition create_args : Args :=
  {| directory := "Missing"; recursive := true;
     suppression_file := None;
     create_suppression_file := Some "suppressions.json"; output := None;
     fail_on_invalid := true |}.

(** The line that [load_suppressions] prints when it recovers. *)
Definition load_warning (path msg : string) : event :=
  Print ("Warning: Could not load suppression file " +:+ path +:+ ": " +:+ msg).

(** ** Notions used to state further properties *)

(** The header [header_file] can be read and the scan finds an occurrence
    in it. *)
Definition has_occurrences (w : World) (header_file : string) : bool :=
  match read_header w header_file with
  | ReadText content =>
      match scan_properties header_file content with
      | Ok (_ :: _) => true
      | _ => false
      end
  | _ => false
  end.

(** The warning that an enumerated path gives rise to, if any. *)
Definition file_warning (w : World) (header_file : string) : option event :=
  if regular w header_file then
    match read_header w header_file with
    | ReadText _ => None
    | ReadIOError msg | ReadUnicodeDecodeError msg =>
        Some (read_warning header_file msg)
    end
  else None.

(** The last character of a string is a word character. *)
Fixpoint ends_with_word (s : string) : bool :=
  match s with
  | EmptyString => false
  | String c EmptyString => Py.is_word c
  | String _ s' => ends_with_word s'
  end.

(** The entries of [default_suppressions] in
    [create_default_suppression_file]. *)
Definition default_suppression_entries : list string :=
  [ "# Example suppressions:";
    "# " +:+ dq
    +:+ "Source/Vibeheim/WorldGen/Public/Data/LegacyStruct.h:FLegacyStruct::LegacyId"
    +:+ dq;
    "# " +:+ dq +:+ "FTemporaryStruct::TempId" +:+ dq;
    "# " +:+ dq +:+ "*::DebugId" +:+ dq ].

(** A JSON value that Python can hash: anything but a list or a dict. *)
Definition scalar (v : json) : Prop := unhashable v = None.

(** An event that writes a file. *)
Definition is_write (e : event) : bool :=
  match e with
  | WriteFile _ _ => true
  | Print _ => false
  end.

(** The report of a scan that found nothing. *)
Definition empty_report_lines : list string :=
  [ Py.repeat_char "=" 80;
    "UPROPERTY FGuid Initialization Validation Report";
    Py.repeat_char "=" 80;
    "";
    "Total files scanned: 0";
    "Total UPROPERTY FGuid properties found: 0";
    "Valid properties: 0";
    "Invalid properties: 0";
    "Suppressed properties: 0";
    "";
    "✅ VALIDATION PASSED";
    "" ].

(** The result of [validate_file] on the first sample header, with no
    suppressions, and its third occurrence. *)
Definition sample_result : ValidationResult :=
  Eval vm_compute in
    match validate_file sample_world ∅ "Source/a.h" with
    | (_, Ok r) => r
    | (_, Raise _) => no_properties "Source/a.h"
    end.

Definition sample_occurrence : FGuidProperty :=
  sample_property 8 "FFoo" "C" "FGuid C = FGuid(42);" (Some "FGuid(42)").

(** Occurrences in the order of the lines of their declarations. *)
Definition by_line (a b : FGuidProperty) : Prop :=
  line_number a ≤ line_number b.

(* ================================================================== *)
(** * Part II: properties                                              *)
(* ================================================================== *)

(** ** Strings *)

Lemma length_append (a b : string) :
  String.length (a +:+ b) = String.length a + String.length b.
Proof. induction a as [|x a IH]; simpl; [done | by rewrite IH]. Qed.

Lemma substring_prefix (u t : string) :
  substring 0 (String.length u) (u +:+ t) = u.
Proof. induction u as [|x u IH]; simpl; [by destruct t | by rewrite IH]. Qed.

Lemma consumed_append (u t : string) : consumed (u +:+ t) t = u.
Proof.
  unfold consumed. rewrite length_append.
  replace (String.length u + String.length t - String.length t)
    with (String.length u) by lia.
  apply substring_prefix.
Qed.

(** ** The matcher reads what the relation says *)

Lemma lit_sound l bol s k out :
  lit l bol s k = Some out → ∃ b' s', s = l +:+ s' ∧ k b' s' = Some out.
Proof.
  revert bol s. induction l as [|c l IH]; intros bol s H; simpl in *.
  - eauto.
  - destruct s as [|d s]; [done|].
    destruct (Ascii.eqb c d) eqn:E; [|done].
    apply Ascii.eqb_eq in E as ->.
    destruct (IH _ _ H) as (b' & s' & -> & Hk). eauto.
Qed.

Lemma star_sound cls bol s k out :
  star cls bol s k = Some out →
  ∃ b' u s', s = u +:+ s' ∧ all_of cls u = true ∧ k b' s' = Some out.
Proof.
  revert bol. induction s as [|c s IH]; intros bol H; simpl in *.
  - exists bol, "", "". done.
  - destruct (cls c) eqn:Hc.
    + destruct (star cls (Py.is_nl c) s k) eqn:Hs.
      * injection H as <-.
        destruct (IH _ Hs) as (b' & u & s' & -> & Hu & Hk).
        exists b', (String c u), s'. simpl. by rewrite Hc, Hu.
      * exists bol, "", (String c s). done.
    + exists bol, "", (String c s). done.
Qed.

Lemma plus_sound cls bol s k out :
  plus cls bol s k = Some out →
  ∃ b' u s', s = u +:+ s' ∧ u ≠ "" ∧ all_of cls u = true ∧ k b' s' = Some out.
Proof.
  unfold plus. destruct s as [|c s]; [done|].
  destruct (cls c) eqn:Hc; [|done]. intros H.
  destruct (star_sound _ _ _ _ _ H) as (b' & u & s' & -> & Hu & Hk).
  exists b', (String c u), s'. simpl. by rewrite Hc, Hu.
Qed.

Lemma exec_sound r bol s g k out :
  exec r bol s g k = Some out →
  ∃ b' s' g', matches r bol s g s' g' ∧ k b' s' g' = Some out.
Proof.
  revert bol s g k. induction r as [| |l|cls|cls|r IH|n r IH|r1 IH1 r2 IH2];
    intros bol s g k H; simpl in *.
  - destruct bol; [|done]. by exists true, s, g.
  - destruct s as [|c t].
    + exists bol, "", g. naive_solver.
    + destruct (Py.is_nl c) eqn:E; [|done]. exists bol, (String c t), g.
      naive_solver.
  - destruct (lit_sound _ _ _ _ _ H) as (b' & s' & -> & Hk). by exists b', s', g.
  - destruct (star_sound _ _ _ _ _ H) as (b' & u & s' & -> & Hu & Hk).
    exists b', s', g. eauto.
  - destruct (plus_sound _ _ _ _ _ H) as (b' & u & s' & -> & Hne & Hu & Hk).
    exists b', s', g. split; [|done]. by exists u.
  - destruct (exec r bol s g k) eqn:E.
    + injection H as <-. destruct (IH _ _ _ _ E) as (b' & s' & g' & Hm & Hk).
      exists b', s', g'. auto.
    + exists bol, s, g. auto.
  - destruct (IH _ _ _ _ H) as (b' & s' & g' & Hm & Hk).
    exists b', s', (<[n := consumed s s']> g'). eauto.
  - destruct (IH1 _ _ _ _ H) as (b1 & s1 & g1 & Hm1 & Hk1).
    destruct (IH2 _ _ _ _ Hk1) as (b' & s' & g' & Hm2 & Hk).
    exists b', s', g'. split; [|done]. by exists b1, s1, g1.
Qed.

Lemma match_here_sound r bol s m :
  match_here r bol s = Some m → ∃ s', matches r bol s ∅ s' m.
Proof.
  intros H. destruct (exec_sound _ _ _ _ _ _ H) as (b' & s' & g' & Hm & Hk).
  injection Hk as <-. eauto.
Qed.

Lemma search_from_here r bol s m :
  search_from r bol s = Some m → ∃ b t, match_here r b t = Some m.
Proof.
  revert bol. induction s as [|c s IH]; intros bol; simpl.
  - destruct (match_here r bol "") eqn:E; [|done]. intros [= <-]. eauto.
  - destruct (match_here r bol (String c s)) eqn:E.
    + intros [= <-]. eauto.
    + apply IH.
Qed.

(** ** What the three patterns accept *)

Ltac break_match_hyps :=
  repeat match goal with
         | H : ∃ _, _ |- _ => destruct H
         | H : _ ∧ _ |- _ => destruct H
         | H : _ ∨ _ |- _ => destruct H
         end.

Lemma fguid_match_shape bol s m :
  match_here fguid_declaration_pattern bol s = Some m →
  (∃ u rest, s = u +:+ "FGuid" +:+ rest ∧ all_of Py.is_space u = true)
  ∧ (∃ name, m !! 1 = Some name ∧ name ≠ "")
  ∧ (∀ v, m !! 2 = Some v → v ≠ "").
Proof.
  intros H. apply match_here_sound in H as [s' H].
  unfold fguid_declaration_pattern, seq_of in H. simpl in H.
  break_match_hyps; subst; rewrite ?consumed_append.
  all: split_and!;
    [ by eexists _, _
    | eexists; split; [by simplify_map_eq | done]
    | intros v Hv; by simplify_map_eq ].
Qed.

Lemma struct_match_shape bol s m :
  match_here struct_pattern bol s = Some m →
  (∃ u c rest, s = u +:+ String c rest ∧ all_of Py.is_space u = true
               ∧ (c = "U" ∨ c = "s")%char)
  ∧ (∃ name, m !! 1 = Some name ∧ name ≠ "").
Proof.
  intros H. apply match_here_sound in H as [s' H].
  unfold struct_pattern, seq_of in H. simpl in H.
  break_match_hyps; subst; rewrite ?consumed_append.
  all: split;
    [ eexists _, _, _; split_and!; [reflexivity | done | by auto]
    | eexists; split; [by simplify_map_eq | done] ].
Qed.

Lemma uproperty_match_shape bol s m :
  match_here uproperty_pattern bol s = Some m →
  ∃ u rest, s = u +:+ "UPROPERTY" +:+ rest ∧ all_of Py.is_space u = true.
Proof.
  intros H. apply match_here_sound in H as [s' H].
  unfold uproperty_pattern, seq_of in H. simpl in H.
  break_match_hyps; subst; by eexists _, _.
Qed.

(** The first character that is not white space is the same however the
    leading white space is split off. *)
Lemma first_visible (u u' : string) (c c' : ascii) (t t' : string) :
  u +:+ String c t = u' +:+ String c' t' →
  all_of Py.is_space u = true → all_of Py.is_space u' = true →
  Py.is_space c = false → Py.is_space c' = false → c = c'.
Proof.
  revert u'. induction u as [|x u IH]; intros [|x' u'] E Hu Hu' Hc Hc';
    simpl in *; simplify_eq.
  - done.
  - apply andb_true_iff in Hu' as [Hx _]. congruence.
  - apply andb_true_iff in Hu as [Hx _]. congruence.
  - apply andb_true_iff in Hu as [_ Hu]. apply andb_true_iff in Hu' as [_ Hu'].
    eauto.
Qed.

(** ** [search] on a line *)

Lemma search_from_inner r (s : string) :
  no_nl s = true → search_from (Cat Bol r) false s = None.
Proof.
  induction s as [|c s IH]; intros Hs; simpl in *; [done|].
  apply andb_true_iff in Hs as [Hc Hs].
  unfold Py.is_dot in Hc. apply negb_true_iff in Hc. rewrite Hc. auto.
Qed.

Lemma search_anchored r (s : string) :
  no_nl s = true → search (Cat Bol r) s = match_here (Cat Bol r) true s.
Proof.
  intros Hs. unfold search. destruct s as [|c s]; simpl.
  - by destruct (match_here _ _ _).
  - destruct (match_here _ _ _); [done|].
    simpl in Hs. apply andb_true_iff in Hs as [Hc Hs].
    unfold Py.is_dot in Hc. apply negb_true_iff in Hc. rewrite Hc.
    by apply search_from_inner.
Qed.

Lemma split_lines_no_nl (s : string) :
  Forall (λ line, no_nl line = true) (Py.split_lines s).
Proof.
  induction s as [|c s IH]; simpl.
  - by repeat constructor.
  - destruct (Py.is_nl c) eqn:Hc.
    + by constructor.
    + assert (Py.is_dot c = true) as Hd by (unfold Py.is_dot; by rewrite Hc).
      destruct (Py.split_lines s) as [|l ls].
      * constructor; [|constructor].
        unfold no_nl. cbn [all_of]. by rewrite Hd.
      * inversion IH as [|? ? Hl Hls]; subst. constructor; [|done].
        unfold no_nl in *. cbn [all_of]. by rewrite Hd.
Qed.

(** A declaration line is never a structure header, and an annotation line
    is never a declaration line: their first visible characters differ. *)
Lemma declaration_not_header (line : string) :
  no_nl line = true →
  is_Some (search fguid_declaration_pattern line) →
  search struct_pattern line = None.
Proof.
  intros Hnl [m Hm].
  unfold fguid_declaration_pattern, seq_of in Hm. simpl foldr in Hm.
  rewrite search_anchored in Hm by done.
  apply fguid_match_shape in Hm as [(u & rest & -> & Hu) _].
  destruct (search struct_pattern _) as [m'|] eqn:E; [exfalso|done].
  unfold struct_pattern, seq_of in E. simpl foldr in E.
  rewrite search_anchored in E by done.
  apply struct_match_shape in E as [(u' & c & rest' & E & Hu' & Hc) _].
  simpl in E. apply first_visible in E; [|done..|by destruct Hc as [-> | ->]].
  destruct Hc; congruence.
Qed.

Lemma annotation_not_declaration (line : string) :
  no_nl line = true →
  is_Some (search uproperty_pattern line) →
  search fguid_declaration_pattern line = None.
Proof.
  intros Hnl [m Hm].
  unfold uproperty_pattern, seq_of in Hm. simpl foldr in Hm.
  rewrite search_anchored in Hm by done.
  apply uproperty_match_shape in Hm as (u & rest & -> & Hu).
  destruct (search fguid_declaration_pattern _) as [m'|] eqn:E; [exfalso|done].
  unfold fguid_declaration_pattern, seq_of in E. simpl foldr in E.
  rewrite search_anchored in E by done.
  apply fguid_match_shape in E as [(u' & rest' & E & Hu') _].
  simpl in E. by apply first_visible in E.
Qed.

(** The groups of a declaration match, wherever [search] found it. *)
Lemma fguid_search_groups (line : string) m :
  search fguid_declaration_pattern line = Some m →
  (∃ name, m !! 1 = Some name ∧ name ≠ "")
  ∧ (∀ v, m !! 2 = Some v → v ≠ "").
Proof.
  intros H. apply search_from_here in H as (b & t & H).
  by apply fguid_match_shape in H as [_ H].
Qed.

Lemma struct_search_groups (line : string) m :
  search struct_pattern line = Some m → ∃ name, m !! 1 = Some name ∧ name ≠ "".
Proof.
  intros H. apply search_from_here in H as (b & t & H).
  by apply struct_match_shape in H as [_ H].
Qed.

(** ** The scope resolver *)

Lemma header_at_lookup (lines : list string) i line :
  lines !! i = Some line →
  header_at lines i = (m ← search struct_pattern line; Some (default "" (m !! 1))).
Proof. intros H. unfold header_at. by rewrite H. Qed.

Lemma find_struct_name_loop_spec (lines : list string) n :
  n ≤ length lines →
  ∃ name, find_struct_name_loop lines n = Ok name
    ∧ ((∃ i, i < n ∧ header_at lines i = Some name
             ∧ ∀ k, i < k < n → header_at lines k = None)
       ∨ (name = "UnknownStruct" ∧ ∀ i, i < n → header_at lines i = None)).
Proof.
  induction n as [|n IH]; intros Hn; simpl.
  - exists "UnknownStruct". split; [done|]. right. split; [done|]. lia.
  - destruct (lookup_lt_is_Some_2 lines n) as [line Hline]; [lia|].
    rewrite Hline. pose proof (header_at_lookup _ _ _ Hline) as Hh.
    destruct (search struct_pattern line) as [m|] eqn:Hs; simpl in Hh.
    + eexists. split; [done|]. left. exists n. split_and!; [lia | done | lia].
    + destruct IH as (name & -> & Hname); [lia|].
      exists name. split; [done|].
      destruct Hname as [(i & Hi & Hhi & Hk) | [-> Hnone]].
      * left. exists i. split_and!; [lia | done |].
        intros k Hik. destruct (decide (k = n)) as [-> | ?]; [done|].
        apply Hk. lia.
      * right. split; [done|]. intros i Hi.
        destruct (decide (i = n)) as [-> | ?]; [done|]. apply Hnone. lia.
Qed.

Lemma declaration_at_lookup (lines : list string) j m :
  declaration_at lines j = Some m →
  ∃ line, lines !! j = Some line ∧ search fguid_declaration_pattern line = Some m.
Proof.
  unfold declaration_at. destruct (lines !! j) as [line|]; [|done]. eauto.
Qed.

Lemma declaration_no_header content j :
  is_Some (declaration_at (Py.split_lines content) j) →
  header_at (Py.split_lines content) j = None.
Proof.
  intros [m Hm]. apply declaration_at_lookup in Hm as (line & Hline & Hm).
  rewrite (header_at_lookup _ _ _ Hline).
  rewrite declaration_not_header; [done | | by eauto].
  pose proof (split_lines_no_nl content) as Hall.
  rewrite Forall_forall in Hall. apply Hall. by eapply list_elem_of_lookup_2.
Qed.

(** ** [strip] *)

Lemma lstrip_head (s : string) :
  Py.lstrip s = "" ∨ ∃ c t, Py.lstrip s = String c t ∧ Py.is_space c = false.
Proof.
  induction s as [|c s IH]; simpl; [by left|].
  destruct (Py.is_space c) eqn:Hc; [done|]. right. eauto.
Qed.

Lemma rstrip_head c (t : string) :
  Py.is_space c = false → ∃ t', Py.rstrip (String c t) = String c t'.
Proof. intros Hc. simpl. rewrite Hc. destruct (Py.rstrip t); eauto. Qed.

Lemma rstrip_idemp (s : string) : Py.rstrip (Py.rstrip s) = Py.rstrip s.
Proof.
  induction s as [|c s IH]; [done|]. simpl.
  destruct (Py.rstrip s) as [|d r] eqn:E.
  - destruct (Py.is_space c) eqn:Hc; [done|]. simpl. by rewrite Hc.
  - change (Py.rstrip (String c (String d r))) with
      (match Py.rstrip (String d r) with
       | "" => if Py.is_space c then "" else String c ""
       | String _ _ as r' => String c r'
       end).
    by rewrite IH.
Qed.

Lemma strip_idemp (s : string) : Py.strip (Py.strip s) = Py.strip s.
Proof.
  unfold Py.strip. destruct (lstrip_head s) as [-> | (c & t & -> & Hc)]; [done|].
  destruct (rstrip_head c t Hc) as [t' E].
  assert (Py.lstrip (Py.rstrip (String c t)) = Py.rstrip (String c t)) as ->.
  { rewrite E. simpl. by rewrite Hc. }
  apply rstrip_idemp.
Qed.

(** ** The scanner *)

Lemma first_declaration_seq (lines : list string) a n :
  match first_declaration lines (seq a n) with
  | Some j => a ≤ j < a + n ∧ is_Some (declaration_at lines j)
              ∧ ∀ k, a ≤ k < j → declaration_at lines k = None
  | None => ∀ k, a ≤ k < a + n → declaration_at lines k = None
  end.
Proof.
  revert a. induction n as [|n IH]; intros a; simpl; [lia|].
  case_bool_decide as Ha.
  - split; [lia|]. split; [done|]. lia.
  - apply eq_None_not_Some in Ha. specialize (IH (S a)).
    destruct (first_declaration lines (seq (S a) n)) as [j|].
    + destruct IH as (Hj & Hd & Hk). split; [lia|]. split; [done|].
      intros k Hak. destruct (decide (k = a)) as [-> | ?]; [done|]. apply Hk. lia.
    + intros k Hak. destruct (decide (k = a)) as [-> | ?]; [done|]. apply IH. lia.
Qed.

Lemma first_declaration_window (lines : list string) i :
  match first_declaration lines (window lines i) with
  | Some j => i + 1 ≤ j ≤ i + 4 ∧ is_Some (declaration_at lines j)
              ∧ ∀ k, i < k < j → declaration_at lines k = None
  | None => ∀ k, i + 1 ≤ k ≤ i + 4 → declaration_at lines k = None
  end.
Proof.
  unfold window, range.
  pose proof (first_declaration_seq lines (i + 1)
                (min (i + 5) (length lines) - (i + 1))) as H.
  destruct (first_declaration _ _) as [j|].
  - destruct H as (Hj & Hd & Hk). split; [lia|]. split; [done|].
    intros k Hik. apply Hk. lia.
  - intros k Hk. destruct (decide (k < length lines)) as [Hlt | Hge].
    + apply H. lia.
    + unfold declaration_at. rewrite lookup_ge_None_2; [done | lia].
Qed.

Lemma make_property_spec file content line i j next_line m :
  Py.split_lines content !! i = Some line →
  Py.split_lines content !! j = Some next_line →
  search fguid_declaration_pattern next_line = Some m →
  ∃ prop, make_property file content line j next_line m = Ok prop
          ∧ occurrence_of (Py.split_lines content) i j prop
          ∧ well_formed file prop.
Proof.
  intros Hi Hj Hm. unfold make_property, find_struct_name.
  destruct (find_struct_name_loop_spec (Py.split_lines content) (j + 1))
    as (name & -> & _).
  { apply lookup_lt_Some in Hj. lia. }
  destruct (fguid_search_groups _ _ Hm) as [(pname & H1 & Hne) H2].
  simpl. eexists. split; [done|].
  assert ((if Py.truthy (m !! 2) then Py.strip <$> m !! 2 else None)
          = Py.strip <$> m !! 2) as Hinit.
  { destruct (m !! 2) as [v|] eqn:E; [|done].
    specialize (H2 v eq_refl). by destruct v. }
  split.
  - unfold occurrence_of. simpl. split_and!; [done | by eauto | by eauto |].
    exists m. unfold declaration_at. rewrite Hj, H1. simpl. by rewrite Hinit.
  - unfold well_formed. simpl. rewrite H1, Hinit. simpl.
    split_and!; [done | done | lia | |].
    + intros Hhas. apply bool_decide_eq_true in Hhas as [v Hv]. rewrite Hv.
      simpl. eexists. split; [done|]. apply strip_idemp.
    + intros Hhas. apply bool_decide_eq_false in Hhas.
      apply eq_None_not_Some in Hhas. by rewrite Hhas.
Qed.

Lemma lookahead_spec file content i line js :
  Py.split_lines content !! i = Some line →
  Forall (λ j, j < length (Py.split_lines content)) js →
  match first_declaration (Py.split_lines content) js with
  | Some j =>
      ∃ prop, lookahead file content (Py.split_lines content) line js
                = Ok (Some prop)
              ∧ occurrence_of (Py.split_lines content) i j prop
              ∧ well_formed file prop
  | None => lookahead file content (Py.split_lines content) line js = Ok None
  end.
Proof.
  intros Hi. induction js as [|j js IH]; intros Hjs; simpl; [done|].
  inversion Hjs as [|? ? Hj Hjs']; subst.
  destruct (lookup_lt_is_Some_2 _ _ Hj) as [next_line Hnext]. rewrite Hnext.
  assert (declaration_at (Py.split_lines content) j
          = search fguid_declaration_pattern next_line) as Hd.
  { unfold declaration_at. by rewrite Hnext. }
  destruct (search fguid_declaration_pattern next_line) as [m|] eqn:Hm.
  - rewrite bool_decide_eq_true_2 by (rewrite Hd; eauto).
    destruct (make_property_spec file content line i j next_line m)
      as (prop & -> & Hocc & Hwf); [done..|].
    simpl. eauto.
  - rewrite bool_decide_eq_false_2 by (rewrite Hd; by intros [? ?]).
    by apply IH.
Qed.

Lemma window_in_range (lines : list string) i :
  Forall (λ j, j < length lines) (window lines i).
Proof.
  unfold window, range. apply Forall_forall. intros j Hj.
  apply elem_of_seq in Hj. lia.
Qed.

Lemma scan_line_spec file content i :
  i < length (Py.split_lines content) →
  match (if annotation_at (Py.split_lines content) i
         then first_declaration (Py.split_lines content)
                (window (Py.split_lines content) i)
         else None) with
  | Some j =>
      ∃ prop, scan_line file content (Py.split_lines content) i = Ok [prop]
              ∧ occurrence_of (Py.split_lines content) i j prop
              ∧ well_formed file prop
  | None => scan_line file content (Py.split_lines content) i = Ok []
  end.
Proof.
  intros Hi. destruct (lookup_lt_is_Some_2 _ _ Hi) as [line Hline].
  unfold scan_line, annotation_at. rewrite Hline. simpl.
  case_bool_decide; [|done].
  pose proof (lookahead_spec file content i line
                (window (Py.split_lines content) i) Hline
                (window_in_range _ _)) as H'.
  fold (window (Py.split_lines content) i).
  destruct (first_declaration _ _) as [j|].
  - destruct H' as (prop & -> & ? & ?). simpl. eauto.
  - by rewrite H'.
Qed.

Lemma scan_line_total file content i :
  i < length (Py.split_lines content) →
  ∃ ps, scan_line file content (Py.split_lines content) i = Ok ps
        ∧ length ps ≤ 1 ∧ Forall (well_formed file) ps.
Proof.
  intros Hi. pose proof (scan_line_spec file content i Hi) as H.
  destruct (if annotation_at _ _ then _ else _).
  - destruct H as (prop & -> & _ & Hwf). exists [prop]. simpl.
    split_and!; [done | lia | constructor; [done | constructor]].
  - exists []. simpl. split_and!; [done | lia | constructor].
Qed.

Lemma scan_while_spec file content remaining i acc :
  i + remaining ≤ length (Py.split_lines content) →
  ∃ per_line,
    scan_while file content (Py.split_lines content) remaining i acc
      = Ok (acc ++ concat per_line)
    ∧ Forall2 (λ k ps, scan_line file content (Py.split_lines content) k = Ok ps)
              (seq i remaining) per_line.
Proof.
  revert i acc. induction remaining as [|n IH]; intros i acc Hi; simpl.
  - exists []. simpl. rewrite app_nil_r. split; [done | constructor].
  - destruct (scan_line_total file content i) as (ps & Hps & _); [lia|].
    rewrite Hps. simpl.
    destruct (IH (i + 1) (acc ++ ps)) as (per_line & -> & Hall); [lia|].
    exists (ps :: per_line). simpl. rewrite <- app_assoc. split; [done|].
    constructor; [done|]. by replace (S i) with (i + 1) by lia.
Qed.

Lemma scan_properties_spec file content :
  ∃ per_line,
    scan_properties file content = Ok (concat per_line)
    ∧ Forall2 (λ k ps, scan_line file content (Py.split_lines content) k = Ok ps)
              (seq 0 (length (Py.split_lines content))) per_line.
Proof.
  unfold scan_properties.
  destruct (scan_while_spec file content
              (length (Py.split_lines content) - 0) 0 []) as (pl & H & Hall);
    [lia|].
  exists pl. rewrite Nat.sub_0_r in *. by split.
Qed.

Lemma per_line_lookup file content (per_line : list (list FGuidProperty)) n ps :
  Forall2 (λ k ps, scan_line file content (Py.split_lines content) k = Ok ps)
          (seq 0 (length (Py.split_lines content))) per_line →
  per_line !! n = Some ps →
  n < length (Py.split_lines content)
  ∧ scan_line file content (Py.split_lines content) n = Ok ps.
Proof.
  intros Hall Hn.
  destruct (Forall2_lookup_r _ _ _ _ _ Hall Hn) as (k & Hk & Hps).
  apply lookup_seq in Hk as [-> Hlt]. by split.
Qed.

Lemma scan_properties_well_formed file content :
  ∃ found, scan_properties file content = Ok found
           ∧ Forall (well_formed file) found.
Proof.
  destruct (scan_properties_spec file content) as (pl & -> & Hall).
  eexists. split; [done|]. apply Forall_concat, Forall_forall.
  intros ps Hps. apply list_elem_of_lookup in Hps as [n Hn].
  destruct (per_line_lookup _ _ _ _ _ Hall Hn) as [Hlt Hscan].
  destruct (scan_line_total file content n Hlt) as (ps' & Hps' & _ & Hwf).
  congruence.
Qed.

Lemma annotation_at_lookup (lines : list string) i :
  annotation_at lines i = true →
  i < length lines
  ∧ ∃ line, lines !! i = Some line ∧ is_Some (search uproperty_pattern line).
Proof.
  unfold annotation_at. intros H. apply bool_decide_eq_true in H.
  destruct (lines !! i) as [line|] eqn:E; [|by destruct H].
  split; [by eapply lookup_lt_Some | eauto].
Qed.

Lemma first_declaration_window_eq (lines : list string) i j :
  i + 1 ≤ j ≤ i + 4 →
  is_Some (declaration_at lines j) →
  (∀ k, i < k < j → declaration_at lines k = None) →
  first_declaration lines (window lines i) = Some j.
Proof.
  intros Hj Hd Hbefore. pose proof (first_declaration_window lines i) as H.
  destruct (first_declaration lines (window lines i)) as [j'|].
  - destruct H as (Hj' & Hd' & Hk). f_equal.
    destruct (decide (j' < j)) as [Hlt|?].
    { rewrite Hbefore in Hd' by lia. by destruct Hd'. }
    destruct (decide (j < j')) as [Hgt|?]; [|lia].
    rewrite Hk in Hd by lia. by destruct Hd.
  - rewrite H in Hd by lia. by destruct Hd.
Qed.

Lemma scan_line_not_annotation file content i :
  i < length (Py.split_lines content) →
  annotation_at (Py.split_lines content) i = false →
  scan_line file content (Py.split_lines content) i = Ok [].
Proof.
  intros Hi Ha. pose proof (scan_line_spec file content i Hi) as H.
  by rewrite Ha in H.
Qed.

Lemma scan_line_window file content i :
  annotation_at (Py.split_lines content) i = true →
  match first_declaration (Py.split_lines content)
          (window (Py.split_lines content) i) with
  | Some j =>
      ∃ prop, scan_line file content (Py.split_lines content) i = Ok [prop]
              ∧ occurrence_of (Py.split_lines content) i j prop
              ∧ well_formed file prop
  | None => scan_line file content (Py.split_lines content) i = Ok []
  end.
Proof.
  intros Ha. destruct (annotation_at_lookup _ _ Ha) as [Hi _].
  pose proof (scan_line_spec file content i Hi) as H. by rewrite Ha in H.
Qed.

(** The found sequence, line by line: what [scan_properties] returns is
    the concatenation of one sequence per line of the text, the occurrence
    for the first declaration of its window for an annotation line that has
    one, and nothing for every other line. *)
Lemma scan_properties_per_line file content :
  ∃ per_line : list (list FGuidProperty),
    scan_properties file content = Ok (concat per_line)
    ∧ length per_line = length (Py.split_lines content)
    ∧ ∀ i, i < length (Py.split_lines content) →
        match (if annotation_at (Py.split_lines content) i
               then first_declaration (Py.split_lines content)
                      (window (Py.split_lines content) i)
               else None) with
        | Some j =>
            ∃ prop, per_line !! i = Some [prop]
                    ∧ occurrence_of (Py.split_lines content) i j prop
                    ∧ well_formed file prop
        | None => per_line !! i = Some []
        end.
Proof.
  destruct (scan_properties_spec file content) as (per_line & Hfound & Hall).
  exists per_line. split; [done|]. split.
  { apply Forall2_length in Hall. by rewrite length_seq in Hall. }
  intros i Hi.
  destruct (Forall2_lookup_l _ _ _ i i Hall) as (ps & Hps & Hscan).
  { apply lookup_seq. lia. }
  pose proof (scan_line_spec file content i Hi) as Hline.
  destruct (if annotation_at _ _ then _ else _) as [j|].
  - destruct Hline as (prop & Hprop & Hocc & Hwf). exists prop.
    split; [congruence | done].
  - congruence.
Qed.

(** ** The claims about the scope resolver and the scanner *)

(** C7.  For a declaration on line [j] of any text, [find_struct_name],
    called as [validate_file] calls it, returns a name: the one captured on
    the nearest line above [j] that matches the structure pattern, going
    up from line [j - 1] to line 0, and the sentinel "UnknownStruct" when
    no line above matches.  (The loop begins on the declaration line
    itself, which never matches the structure pattern.) *)
Theorem find_struct_name_nearest_header content j :
  is_Some (declaration_at (Py.split_lines content) j) →
  ∃ name,
    find_struct_name content (j + 1) = Ok name
    ∧ ((∃ i, i < j
             ∧ header_at (Py.split_lines content) i = Some name
             ∧ ∀ k, i < k < j → header_at (Py.split_lines content) k = None)
       ∨ (name = "UnknownStruct"
          ∧ ∀ i, i < j → header_at (Py.split_lines content) i = None)).
Proof.
  intros Hd. pose proof (declaration_no_header content j Hd) as Hj.
  assert (j < length (Py.split_lines content)) as Hlt.
  { destruct Hd as [m Hm]. apply declaration_at_lookup in Hm as (l & Hl & _).
    by eapply lookup_lt_Some. }
  destruct (find_struct_name_loop_spec (Py.split_lines content) (j + 1))
    as (name & Hname & Hcases); [lia|].
  exists name. split; [done|].
  destruct Hcases as [(i & Hi & Hh & Hk) | [-> Hnone]].
  - left. exists i. destruct (decide (i = j)) as [-> | ?]; [congruence|].
    split; [lia|]. split; [done|]. intros k Hik. apply Hk. lia.
  - right. split; [done|]. intros i Hi. apply Hnone. lia.
Qed.

Lemma find_struct_name_nearest_header_witness :
  is_Some (declaration_at (Py.split_lines header_initializers) 16)
  ∧ ∃ name,
      find_struct_name header_initializers (16 + 1) = Ok name
      ∧ ((∃ i, i < 16
               ∧ header_at (Py.split_lines header_initializers) i = Some name
               ∧ ∀ k, i < k < 16 →
                      header_at (Py.split_lines header_initializers) k = None)
         ∨ (name = "UnknownStruct"
            ∧ ∀ i, i < 16 →
                   header_at (Py.split_lines header_initializers) i = None)).
Proof.
  split.
  - vm_compute. eexists. reflexivity.
  - apply (find_struct_name_nearest_header header_initializers 16).
    vm_compute. eexists. reflexivity.
Defined.

Example find_struct_name_nearest :
  find_struct_name header_initializers 17 = Ok "FBar"
  ∧ find_struct_name header_initializers 4 = Ok "FFoo"
  ∧ find_struct_name (Py.join_lines ["    UPROPERTY()"; "    FGuid Id;"]) 2
    = Ok "UnknownStruct".
Proof. by vm_compute. Qed.

(** C3.  The found sequence of a text is the concatenation of one
    sequence per line, and for an annotation line at index [i] the scanner
    looks for the declaration on the four lines [i+1] to [i+4] and on no
    other: whatever is recorded for a line [k] pairs it with one of the
    lines [k+1] to [k+4]; a declaration on line [i+4] is detected, that
    is, exactly one occurrence is recorded for line [i] (the one for line
    [i+4] itself when lines [i+1] to [i+3] do not match); and when none
    of the four lines matches nothing is recorded for line [i], whatever
    line [i+5] holds. *)
Theorem lookahead_four_lines file content i :
  annotation_at (Py.split_lines content) i = true →
  ∃ per_line : list (list FGuidProperty),
    scan_properties file content = Ok (concat per_line)
    ∧ length per_line = length (Py.split_lines content)
    ∧ (∀ k ps prop,
         per_line !! k = Some ps → prop ∈ ps →
         ∃ j, k + 1 ≤ j ≤ k + 4
              ∧ occurrence_of (Py.split_lines content) k j prop)
    ∧ (is_Some (declaration_at (Py.split_lines content) (i + 4)) →
       ∃ prop j,
         per_line !! i = Some [prop]
         ∧ i + 1 ≤ j ≤ i + 4
         ∧ occurrence_of (Py.split_lines content) i j prop
         ∧ ((∀ k, i < k < i + 4 →
                  declaration_at (Py.split_lines content) k = None) →
            j = i + 4))
    ∧ ((∀ j, i + 1 ≤ j ≤ i + 4 →
             declaration_at (Py.split_lines content) j = None) →
       per_line !! i = Some []).
Proof.
  intros Ha.
  destruct (scan_properties_per_line file content)
    as (per_line & Hfound & Hlen & Hlines).
  exists per_line. split; [done|]. split; [done|].
  destruct (annotation_at_lookup _ _ Ha) as [Hi _].
  pose proof (Hlines i Hi) as Hscan. rewrite Ha in Hscan.
  pose proof (first_declaration_window (Py.split_lines content) i) as Hfirst.
  split; [|split].
  - intros k ps prop Hps Hin.
    assert (k < length (Py.split_lines content)) as Hk.
    { rewrite <- Hlen. by eapply lookup_lt_Some. }
    pose proof (Hlines k Hk) as Hline.
    pose proof (first_declaration_window (Py.split_lines content) k) as Hwin.
    destruct (annotation_at (Py.split_lines content) k).
    + destruct (first_declaration _ (window _ k)) as [j|].
      * destruct Hline as (prop' & Hprop' & Hocc & _).
        assert (ps = [prop']) as -> by congruence.
        apply list_elem_of_singleton in Hin as ->.
        exists j. by destruct Hwin as (? & _).
      * assert (ps = []) as -> by congruence. by apply elem_of_nil in Hin.
    + assert (ps = []) as -> by congruence. by apply elem_of_nil in Hin.
  - intros Hd4. destruct (first_declaration _ (window _ i)) as [j|].
    + destruct Hscan as (prop & Hprop & Hocc & _).
      destruct Hfirst as (Hj & Hd & Hbefore).
      exists prop, j. split; [done|]. split; [done|]. split; [done|].
      intros Hnone. destruct (decide (j = i + 4)) as [|Hne]; [done|].
      rewrite Hnone in Hd by lia. by destruct Hd.
    + rewrite Hfirst in Hd4 by lia. by destruct Hd4.
  - intros Hnone. destruct (first_declaration _ (window _ i)) as [j|]; [|done].
    destruct Hfirst as (Hj & Hd & _). rewrite Hnone in Hd by lia.
    by destruct Hd.
Qed.

Lemma lookahead_four_lines_witness :
  annotation_at (Py.split_lines header_fourth_line) 1 = true
  ∧ is_Some (declaration_at (Py.split_lines header_fourth_line) (1 + 4))
  ∧ (∃ per_line prop,
       scan_properties "a.h" header_fourth_line = Ok (concat per_line)
       ∧ per_line !! 1 = Some [prop]
       ∧ line_number prop = 6)
  ∧ annotation_at (Py.split_lines header_fifth_line) 1 = true
  ∧ is_Some (declaration_at (Py.split_lines header_fifth_line) (1 + 5))
  ∧ (∃ per_line,
       scan_properties "a.h" header_fifth_line = Ok (concat per_line)
       ∧ per_line !! 1 = Some []
       ∧ concat per_line = []).
Proof.
  split; [reflexivity|]. split; [vm_compute; eexists; reflexivity|]. split.
  - destruct (lookahead_four_lines "a.h" header_fourth_line 1 eq_refl)
      as (per_line & Hfound & _ & _ & Hfourth & _).
    destruct Hfourth as (prop & j & Hprop & _ & Hocc & Hlast).
    { vm_compute. eexists. reflexivity. }
    exists per_line, prop. split; [exact Hfound|]. split; [exact Hprop|].
    destruct Hocc as (Hline & _). rewrite Hline, Hlast; [reflexivity|].
    intros k Hk. assert (k = 2 ∨ k = 3 ∨ k = 4) as [-> | [-> | ->]] by lia;
      reflexivity.
  - split; [reflexivity|]. split; [vm_compute; eexists; reflexivity|].
    destruct (lookahead_four_lines "a.h" header_fifth_line 1 eq_refl)
      as (per_line & Hfound & _ & _ & _ & Hnone).
    exists per_line. split; [exact Hfound|]. split.
    + apply Hnone. intros j Hj.
      assert (j = 2 ∨ j = 3 ∨ j = 4 ∨ j = 5) as [-> | [-> | [-> | ->]]] by lia;
        reflexivity.
    + assert (scan_properties "a.h" header_fifth_line = Ok []) as Hrun
        by (by vm_compute).
      rewrite Hrun in Hfound. by injection Hfound.
Defined.

Example fifth_line_not_scanned :
  scan_properties "a.h" header_fourth_line
  = Ok [ {| file_path := "a.h"; line_number := 6; struct_name := "FFoo";
            property_name := "Id"; uproperty_line := "UPROPERTY()";
            declaration_line := "FGuid Id;"; has_initializer := false;
            initializer_value := None |} ]
  ∧ scan_properties "a.h" header_fifth_line = Ok [].
Proof. by vm_compute. Qed.

Lemma scan_line_first file content i ps :
  i < length (Py.split_lines content) →
  scan_line file content (Py.split_lines content) i = Ok ps →
  length ps ≤ 1
  ∧ (annotation_at (Py.split_lines content) i = false → ps = [])
  ∧ ∀ prop, prop ∈ ps →
      well_formed file prop
      ∧ ∃ j, i + 1 ≤ j ≤ i + 4
             ∧ occurrence_of (Py.split_lines content) i j prop
             ∧ ∀ k, i < k < j →
                    declaration_at (Py.split_lines content) k = None.
Proof.
  intros Hlt Hscan.
  destruct (scan_line_total file content i Hlt) as (ps' & Hps' & Hlen & _).
  assert (ps' = ps) as -> by congruence.
  split; [done|]. split.
  - intros Hna. rewrite scan_line_not_annotation in Hscan by done. congruence.
  - intros prop Hin.
    destruct (annotation_at (Py.split_lines content) i) eqn:Ha.
    + pose proof (scan_line_window file content i Ha) as Hw.
      pose proof (first_declaration_window (Py.split_lines content) i) as Hf.
      destruct (first_declaration _ _) as [j|].
      * destruct Hw as (prop' & Hscan' & Hocc & Hwf).
        destruct Hf as (Hj & _ & Hk).
        assert (ps = [prop']) as -> by congruence.
        apply list_elem_of_singleton in Hin as ->. eauto.
      * assert (ps = []) as -> by congruence. by apply elem_of_nil in Hin.
    + rewrite scan_line_not_annotation in Hscan by done.
      assert (ps = []) as -> by congruence. by apply elem_of_nil in Hin.
Qed.

Lemma scan_properties_occurrences file content found prop :
  scan_properties file content = Ok found →
  prop ∈ found →
  well_formed file prop
  ∧ ∃ i j, i + 1 ≤ j ≤ i + 4
           ∧ occurrence_of (Py.split_lines content) i j prop.
Proof.
  intros Hfound Hin.
  destruct (scan_properties_spec file content) as (per_line & Hpl & Hall).
  assert (found = concat per_line) as -> by congruence.
  apply list_elem_of_In, in_concat in Hin as (ps & Hps & Hin).
  apply list_elem_of_In, list_elem_of_lookup in Hps as [i Hi].
  destruct (per_line_lookup _ _ _ _ _ Hall Hi) as [Hlt Hscan].
  destruct (scan_line_first file content i ps Hlt Hscan) as (_ & _ & Hocc).
  destruct (Hocc prop) as (Hwf & j & Hj & Ho & _); [by apply list_elem_of_In|].
  eauto.
Qed.

(** C4.  The occurrences found in a file are, in order, what each line
    [i = 0, 1, 2, ...] contributes, every line being visited in turn as a
    possible annotation line whatever the windows before it matched.  A
    line that is no annotation line contributes nothing, and neither does
    an annotation line with no declaration on lines [i+1] to [i+4]; an
    annotation line with a declaration there contributes exactly one
    occurrence, the one for the first line of [i+1 .. i+4] that matches
    the declaration pattern, whatever matches after it. *)
Theorem first_match_wins file content :
  ∃ per_line : list (list FGuidProperty),
    scan_properties file content = Ok (concat per_line)
    ∧ length per_line = length (Py.split_lines content)
    ∧ ∀ i, i < length (Py.split_lines content) →
        (annotation_at (Py.split_lines content) i = false →
         per_line !! i = Some [])
        ∧ (annotation_at (Py.split_lines content) i = true →
           (∀ j, i + 1 ≤ j ≤ i + 4 →
                 declaration_at (Py.split_lines content) j = None) →
           per_line !! i = Some [])
        ∧ (∀ j, annotation_at (Py.split_lines content) i = true →
                i + 1 ≤ j ≤ i + 4 →
                is_Some (declaration_at (Py.split_lines content) j) →
                (∀ k, i < k < j →
                      declaration_at (Py.split_lines content) k = None) →
                ∃ prop, per_line !! i = Some [prop]
                        ∧ occurrence_of (Py.split_lines content) i j prop
                        ∧ well_formed file prop).
Proof.
  destruct (scan_properties_per_line file content)
    as (per_line & Hfound & Hlen & Hlines).
  exists per_line. split; [done|]. split; [done|].
  intros i Hi. pose proof (Hlines i Hi) as Hscan.
  pose proof (first_declaration_window (Py.split_lines content) i) as Hfirst.
  split; [|split].
  - intros Ha. by rewrite Ha in Hscan.
  - intros Ha Hnone. rewrite Ha in Hscan.
    destruct (first_declaration _ _) as [j|]; [|done].
    destruct Hfirst as (Hj & Hd & _). rewrite Hnone in Hd by lia.
    by destruct Hd.
  - intros j Ha Hj Hd Hbefore. rewrite Ha in Hscan.
    by rewrite (first_declaration_window_eq _ i j Hj Hd Hbefore) in Hscan.
Qed.

Lemma first_match_wins_witness :
  annotation_at (Py.split_lines header_two_declarations) 1 = true
  ∧ is_Some (declaration_at (Py.split_lines header_two_declarations) 2)
  ∧ is_Some (declaration_at (Py.split_lines header_two_declarations) 3)
  ∧ ∃ prop,
      scan_properties "a.h" header_two_declarations = Ok [prop]
      ∧ line_number prop = 3
      ∧ property_name prop = "First".
Proof.
  split; [reflexivity|]. split; [vm_compute; eexists; reflexivity|].
  split; [vm_compute; eexists; reflexivity|].
  destruct (first_match_wins "a.h" header_two_declarations)
    as (per_line & Hfound & Hlen & Hlines).
  destruct (Hlines 0) as (H0 & _); [vm_compute; lia|].
  destruct (Hlines 1) as (_ & _ & H1); [vm_compute; lia|].
  destruct (Hlines 2) as (H2 & _); [vm_compute; lia|].
  destruct (Hlines 3) as (H3 & _); [vm_compute; lia|].
  specialize (H0 eq_refl). specialize (H2 eq_refl). specialize (H3 eq_refl).
  destruct (H1 2) as (prop & Hprop & Hocc & _);
    [reflexivity | lia | vm_compute; eexists; reflexivity | intros k Hk; lia |].
  exists prop.
  destruct per_line as [|p0 [|p1 [|p2 [|p3 [|p4 rest]]]]]; try discriminate Hlen.
  simpl in H0, Hprop, H2, H3.
  injection H0 as ->. injection Hprop as ->.
  injection H2 as ->. injection H3 as ->.
  split; [exact Hfound|].
  vm_compute in Hfound. injection Hfound as <-. split; reflexivity.
Defined.

Example first_of_two_declarations :
  scan_properties "a.h" header_two_declarations
  = Ok [ {| file_path := "a.h"; line_number := 3; struct_name := "FFoo";
            property_name := "First"; uproperty_line := "UPROPERTY()";
            declaration_line := "FGuid First;"; has_initializer := false;
            initializer_value := None |} ].
Proof. by vm_compute. Qed.

(** C10.  When lines [i] and [i+1] are annotation lines and line [i+2] is a
    declaration, the found sequence holds two occurrences next to each
    other, one for each annotation line, both for the declaration on line
    [i+2]: same line number, same property name. *)
Theorem declaration_counted_per_annotation file content i :
  annotation_at (Py.split_lines content) i = true →
  annotation_at (Py.split_lines content) (i + 1) = true →
  is_Some (declaration_at (Py.split_lines content) (i + 2)) →
  ∃ before first second after,
    scan_properties file content = Ok (before ++ [first; second] ++ after)
    ∧ occurrence_of (Py.split_lines content) i (i + 2) first
    ∧ occurrence_of (Py.split_lines content) (i + 1) (i + 2) second
    ∧ line_number first = i + 3 ∧ line_number second = i + 3
    ∧ property_name first = property_name second.
Proof.
  intros Ha Ha' Hd.
  assert (declaration_at (Py.split_lines content) (i + 1) = None) as Hnot.
  { destruct (annotation_at_lookup _ _ Ha') as (_ & line & Hline & Hm).
    unfold declaration_at. rewrite Hline. simpl.
    apply annotation_not_declaration; [|done].
    pose proof (split_lines_no_nl content) as Hall.
    rewrite Forall_forall in Hall. apply Hall.
    by eapply list_elem_of_lookup_2. }
  pose proof (scan_line_window file content i Ha) as H1.
  rewrite (first_declaration_window_eq _ i (i + 2)) in H1; [|lia|done|].
  2:{ intros k Hk. by replace k with (i + 1) by lia. }
  pose proof (scan_line_window file content (i + 1) Ha') as H2.
  rewrite (first_declaration_window_eq _ (i + 1) (i + 2)) in H2;
    [|lia|done|intros; lia].
  destruct H1 as (p1 & Hs1 & Ho1 & _). destruct H2 as (p2 & Hs2 & Ho2 & _).
  destruct (scan_properties_spec file content) as (per_line & Hfound & Hall).
  destruct (annotation_at_lookup _ _ Ha') as (Hlt & _).
  destruct (Forall2_lookup_l _ _ _ i i Hall) as (ps1 & Hp1 & Hps1).
  { apply lookup_seq. lia. }
  destruct (Forall2_lookup_l _ _ _ (i + 1) (i + 1) Hall) as (ps2 & Hp2 & Hps2).
  { apply lookup_seq. lia. }
  assert (ps1 = [p1]) as -> by congruence.
  assert (ps2 = [p2]) as -> by congruence.
  exists (concat (take i per_line)), p1, p2, (concat (drop (S (S i)) per_line)).
  split.
  - rewrite Hfound. f_equal.
    rewrite <- (take_drop_middle per_line i [p1] Hp1) at 1.
    rewrite concat_app. f_equal. simpl. f_equal.
    assert (drop (S i) per_line !! 0 = Some [p2]) as Hd0.
    { rewrite lookup_drop. by replace (S i + 0) with (i + 1) by lia. }
    rewrite <- (take_drop_middle (drop (S i) per_line) 0 [p2] Hd0) at 1.
    simpl. rewrite drop_drop. by replace (S i + 1) with (S (S i)) by lia.
  - split; [done|]. split; [done|].
    destruct Ho1 as (Hl1 & _ & _ & m1 & Hm1 & Hn1 & _).
    destruct Ho2 as (Hl2 & _ & _ & m2 & Hm2 & Hn2 & _).
    split; [lia|]. split; [lia|]. congruence.
Qed.

Lemma declaration_counted_per_annotation_witness :
  annotation_at (Py.split_lines header_two_annotations) 3 = true
  ∧ annotation_at (Py.split_lines header_two_annotations) (3 + 1) = true
  ∧ is_Some (declaration_at (Py.split_lines header_two_annotations) (3 + 2))
  ∧ ∃ before first second after,
      scan_properties "a.h" header_two_annotations
      = Ok (before ++ [first; second] ++ after)
      ∧ first ≠ second
      ∧ line_number first = 3 + 3 ∧ line_number second = 3 + 3
      ∧ property_name first = property_name second.
Proof.
  split; [reflexivity|]. split; [reflexivity|].
  split; [vm_compute; eexists; reflexivity|].
  destruct (declaration_counted_per_annotation "a.h" header_two_annotations 3)
    as (before & p1 & p2 & after & Hfound & Ho1 & Ho2 & Hl1 & Hl2 & Hname);
    [reflexivity | reflexivity | vm_compute; eexists; reflexivity |].
  exists before, p1, p2, after. split; [exact Hfound|].
  split; [|by split_and!].
  destruct Ho1 as (_ & (l1 & Hl1' & Hu1) & _).
  destruct Ho2 as (_ & (l2 & Hl2' & Hu2) & _).
  vm_compute in Hl1'. vm_compute in Hl2'.
  injection Hl1' as <-. injection Hl2' as <-.
  intros ->. rewrite Hu1 in Hu2. vm_compute in Hu2. discriminate.
Defined.

Example two_annotations_two_occurrences :
  scan_properties "a.h" header_two_annotations
  = Ok [ {| file_path := "a.h"; line_number := 6; struct_name := "FFoo";
            property_name := "Id"; uproperty_line := "UPROPERTY()";
            declaration_line := "FGuid Id;"; has_initializer := false;
            initializer_value := None |};
         {| file_path := "a.h"; line_number := 6; struct_name := "FFoo";
            property_name := "Id"; uproperty_line := "UPROPERTY(EditAnywhere)";
            declaration_line := "FGuid Id;"; has_initializer := false;
            initializer_value := None |} ].
Proof. by vm_compute. Qed.

Example two_annotations_counted_twice :
  take 9 <$> report_lines_of (sample_world_with ["Source/b.h"] (LoadValue (JObj [])))
                             sample_args
  = Some [ Py.repeat_char "=" 80;
           "UPROPERTY FGuid Initialization Validation Report";
           Py.repeat_char "=" 80; "";
           "Total files scanned: 1";
           "Total UPROPERTY FGuid properties found: 2";
           "Valid properties: 0"; "Invalid properties: 2";
           "Suppressed properties: 0" ].
Proof. by vm_compute. Qed.

(** ** The classifier *)

Lemma valid_initializers_spec (v : string) :
  v ∈ valid_initializers ↔ v = "FGuid()" ∨ v = "FGuid::NewGuid()".
Proof.
  unfold valid_initializers. rewrite elem_of_list_to_set.
  rewrite !elem_of_cons, elem_of_nil. tauto.
Qed.

(** C5.  An occurrence is suppressed exactly when one of the four keys
    "file:struct::property", "struct::property", "*::property" and the
    file path itself is a member of the suppression set; membership is
    equality of strings, so nothing else suppresses. *)
Theorem is_suppressed_four_keys (suppression_patterns : gset string)
    (file struct property : string) :
  is_suppressed suppression_patterns file struct property = true
  ↔ (file +:+ ":" +:+ struct +:+ "::" +:+ property) ∈ suppression_patterns
    ∨ (struct +:+ "::" +:+ property) ∈ suppression_patterns
    ∨ ("*::" +:+ property) ∈ suppression_patterns
    ∨ file ∈ suppression_patterns.
Proof.
  unfold is_suppressed, patterns_to_check. cbn [existsb].
  rewrite orb_false_r, !orb_true_iff, !bool_decide_eq_true. tauto.
Qed.

Example is_suppressed_literal_keys :
  let keys : gset string := list_to_set ["FFoo::Id"; "*::DebugId"; "F*::Id2"] in
  is_suppressed keys "a.h" "FFoo" "Id" = true
  ∧ is_suppressed keys "a.h" "FBar" "DebugId" = true
  ∧ is_suppressed keys "a.h" "FFoo" "Id2" = false
  ∧ is_suppressed keys "a.h" "FFoo" "Id3" = false
  ∧ is_suppressed keys "a.h" "FBar" "Id" = false
  ∧ is_suppressed (list_to_set ["a.h"]) "a.h" "FBar" "Id" = true
  ∧ is_suppressed (list_to_set ["a.h"]) "Source/a.h" "FBar" "Id" = false
  ∧ is_suppressed (list_to_set ["Source/a.h:FBar::Id"]) "Source/a.h" "FBar" "Id"
    = true.
Proof. by vm_compute. Qed.

Lemma is_valid_initialization_spec (prop : FGuidProperty) :
  is_valid_initialization prop
  = if has_initializer prop then
      match initializer_value prop with
      | Some v => Ok (bool_decide (Py.strip v = "FGuid()"
                                   ∨ Py.strip v = "FGuid::NewGuid()"))
      | None => Raise (Exn AttributeError
                         "'NoneType' object has no attribute 'strip'")
      end
    else Ok false.
Proof.
  unfold is_valid_initialization. destruct (has_initializer prop); [|done].
  simpl. destruct (initializer_value prop) as [v|]; [|done]. f_equal.
  apply bool_decide_ext, valid_initializers_spec.
Qed.

Lemma is_valid_initialization_canonical file (prop : FGuidProperty) :
  well_formed file prop → is_valid_initialization prop = Ok (canonical prop).
Proof.
  intros (_ & _ & _ & Hsome & Hnone). rewrite is_valid_initialization_spec.
  unfold canonical. destruct (has_initializer prop); [|done].
  destruct Hsome as (v & -> & Hv); [done|]. by rewrite Hv.
Qed.

Lemma categorize_spec supp file props valid invalid suppressed :
  Forall (well_formed file) props →
  categorize supp file props valid invalid suppressed
  = Ok (valid ++ filter (λ p, classify supp p = Valid) props,
        invalid ++ filter (λ p, classify supp p = Invalid) props,
        suppressed ++ filter (λ p, classify supp p = Suppressed) props).
Proof.
  intros Hwf. revert valid invalid suppressed.
  induction Hwf as [|prop props Hprop Hprops IH]; intros valid invalid suppressed.
  - simpl. by rewrite !app_nil_r.
  - cbn [categorize].
    assert (file_path prop = file) as Hfile by apply Hprop.
    assert (classify supp prop
            = if is_suppressed supp file (struct_name prop) (property_name prop)
              then Suppressed
              else if canonical prop then Valid else Invalid) as Hc.
    { unfold classify. by rewrite Hfile. }
    rewrite (is_valid_initialization_canonical file prop Hprop).
    destruct (is_suppressed supp file _ _).
    + rewrite IH, !filter_cons. cbn beta. rewrite Hc. simpl.
      by rewrite <- app_assoc.
    + simpl. destruct (canonical prop).
      * rewrite IH, !filter_cons. cbn beta. rewrite Hc. simpl.
        by rewrite <- app_assoc.
      * rewrite IH, !filter_cons. cbn beta. rewrite Hc. simpl.
        by rewrite <- app_assoc.
Qed.

Lemma validate_file_spec w supp file :
  match read_header w file with
  | ReadText content =>
      ∃ found,
        scan_properties file content = Ok found
        ∧ validate_file w supp file
          = ([], Ok {| result_file_path := file;
                       properties_found := found;
                       valid_properties :=
                         filter (λ p, classify supp p = Valid) found;
                       invalid_properties :=
                         filter (λ p, classify supp p = Invalid) found;
                       suppressed_properties :=
                         filter (λ p, classify supp p = Suppressed) found |})
  | ReadIOError msg | ReadUnicodeDecodeError msg =>
      validate_file w supp file
      = ([read_warning file msg], Ok (no_properties file))
  end.
Proof.
  unfold validate_file, open_read.
  destruct (read_header w file) as [content|msg|msg]; [|done..].
  destruct (scan_properties_well_formed file content) as (found & Hf & Hwf).
  exists found. split; [done|]. simpl. rewrite Hf. simpl.
  rewrite (categorize_spec supp file found [] [] [] Hwf). done.
Qed.

Lemma classify_partition supp (l : list FGuidProperty) :
  l ≡ₚ filter (λ p, classify supp p = Valid) l
       ++ filter (λ p, classify supp p = Invalid) l
       ++ filter (λ p, classify supp p = Suppressed) l.
Proof.
  induction l as [|x l IH]; [done|].
  rewrite !filter_cons. cbn beta. destruct (classify supp x); simpl.
  - rewrite app_assoc, <- Permutation_middle, <- app_assoc. by constructor.
  - by constructor.
  - rewrite <- Permutation_middle. by constructor.
Qed.

Lemma validate_file_filters w supp file :
  ∃ log r,
    validate_file w supp file = (log, Ok r)
    ∧ Forall (well_formed file) (properties_found r)
    ∧ valid_properties r
      = filter (λ p, classify supp p = Valid) (properties_found r)
    ∧ invalid_properties r
      = filter (λ p, classify supp p = Invalid) (properties_found r)
    ∧ suppressed_properties r
      = filter (λ p, classify supp p = Suppressed) (properties_found r)
    ∧ ∀ prop, prop ∈ properties_found r →
        ∃ content i j,
          read_header w file = ReadText content
          ∧ i + 1 ≤ j ≤ i + 4
          ∧ occurrence_of (Py.split_lines content) i j prop.
Proof.
  pose proof (validate_file_spec w supp file) as H.
  destruct (read_header w file) as [content|msg|msg].
  - destruct H as (found & Hfound & ->). eexists _, _. split; [done|]. simpl.
    destruct (scan_properties_well_formed file content) as (f' & Hf' & Hwf).
    assert (f' = found) as -> by congruence.
    split_and!; [done..|]. intros prop Hin.
    destruct (scan_properties_occurrences _ _ _ _ Hfound Hin)
      as (_ & i & j & Hj & Ho).
    by exists content, i, j.
  - rewrite H. eexists _, _. split; [done|]. simpl.
    split_and!; [constructor | done..|]. intros prop Hin.
    by apply elem_of_nil in Hin.
  - rewrite H. eexists _, _. split; [done|]. simpl.
    split_and!; [constructor | done..|]. intros prop Hin.
    by apply elem_of_nil in Hin.
Qed.

Lemma classify_suppressed supp file (prop : FGuidProperty) :
  well_formed file prop →
  classify supp prop = Suppressed
  ↔ is_suppressed supp file (struct_name prop) (property_name prop) = true.
Proof.
  intros (<- & _). unfold classify.
  destruct (is_suppressed _ _ _ _); [done|]. by destruct (canonical prop).
Qed.

Lemma classify_valid supp file (prop : FGuidProperty) :
  well_formed file prop →
  is_suppressed supp file (struct_name prop) (property_name prop) = false →
  classify supp prop = Valid
  ↔ has_initializer prop = true
    ∧ (initializer_value prop = Some "FGuid()"
       ∨ initializer_value prop = Some "FGuid::NewGuid()").
Proof.
  intros (<- & _) Hs. unfold classify, canonical. rewrite Hs.
  destruct (has_initializer prop); simpl; [|by intuition].
  destruct (initializer_value prop) as [v|]; [|by intuition].
  case_bool_decide as Hv.
  - split; [|done]. intros _. split; [done|]. by destruct Hv as [-> | ->]; auto.
  - split; [done|]. intros [_ [[= ->] | [= ->]]]; tauto.
Qed.

Lemma classify_invalid supp (prop : FGuidProperty) :
  classify supp prop = Invalid
  ↔ classify supp prop ≠ Suppressed ∧ classify supp prop ≠ Valid.
Proof. destruct (classify supp prop); intuition congruence. Qed.

(** C1.  Every file gets a result, and in it the valid, invalid and
    suppressed lists are the occurrences of the found sequence of the
    category in question, in the order of the found sequence: together a
    rearrangement of the found sequence, no occurrence in two of them; an
    occurrence that matches a suppression key is in the suppressed list and
    in no other, whatever its initializer. *)
Theorem classification_partition w supp file :
  ∃ log r,
    validate_file w supp file = (log, Ok r)
    ∧ valid_properties r
      = filter (λ p, classify supp p = Valid) (properties_found r)
    ∧ invalid_properties r
      = filter (λ p, classify supp p = Invalid) (properties_found r)
    ∧ suppressed_properties r
      = filter (λ p, classify supp p = Suppressed) (properties_found r)
    ∧ properties_found r
      ≡ₚ (valid_properties r ++ invalid_properties r
          ++ suppressed_properties r)
    ∧ sublist (valid_properties r) (properties_found r)
    ∧ sublist (invalid_properties r) (properties_found r)
    ∧ sublist (suppressed_properties r) (properties_found r)
    ∧ (∀ prop, ¬ (prop ∈ valid_properties r ∧ prop ∈ invalid_properties r))
    ∧ (∀ prop, ¬ (prop ∈ valid_properties r ∧ prop ∈ suppressed_properties r))
    ∧ (∀ prop, ¬ (prop ∈ invalid_properties r ∧ prop ∈ suppressed_properties r))
    ∧ (∀ prop, prop ∈ properties_found r →
         is_suppressed supp file (struct_name prop) (property_name prop) = true →
         prop ∈ suppressed_properties r
         ∧ ¬ prop ∈ valid_properties r ∧ ¬ prop ∈ invalid_properties r).
Proof.
  destruct (validate_file_filters w supp file)
    as (log & r & Hrun & Hwf & Hv & Hi & Hs & _).
  exists log, r. split; [done|]. rewrite Hv, Hi, Hs.
  split_and!; try done.
  - apply classify_partition.
  - apply sublist_filter.
  - apply sublist_filter.
  - apply sublist_filter.
  - intros prop [[E1 _]%list_elem_of_filter [E2 _]%list_elem_of_filter].
    congruence.
  - intros prop [[E1 _]%list_elem_of_filter [E2 _]%list_elem_of_filter].
    congruence.
  - intros prop [[E1 _]%list_elem_of_filter [E2 _]%list_elem_of_filter].
    congruence.
  - intros prop Hin Hsup.
    assert (classify supp prop = Suppressed) as Hc.
    { eapply classify_suppressed; [|done]. by eapply Forall_forall in Hwf. }
    rewrite !list_elem_of_filter. split; [done|].
    split; intros [E _]; congruence.
Qed.

Example classification_of_sample :
  ∃ r,
    validate_file sample_world (list_to_set ["FBar::A"]) "Source/a.h" = ([], Ok r)
    ∧ property_name <$> properties_found r = ["A"; "B"; "C"; "D"; "E"; "A"]
    ∧ valid_properties r
      = [ sample_property 4 "FFoo" "A" "FGuid A = FGuid();" (Some "FGuid()");
          sample_property 6 "FFoo" "B" "FGuid B = FGuid::NewGuid() ; // fresh"
            (Some "FGuid::NewGuid()") ]
    ∧ invalid_properties r
      = [ sample_property 8 "FFoo" "C" "FGuid C = FGuid(42);" (Some "FGuid(42)");
          sample_property 10 "FFoo" "D" "FGuid D;" None;
          sample_property 12 "FFoo" "E" "FGuid E =  ;" (Some "") ]
    ∧ suppressed_properties r
      = [ sample_property 17 "FBar" "A" "FGuid A = FGuid();" (Some "FGuid()") ].
Proof. eexists. vm_compute. split_and!; reflexivity. Qed.

(** C2.  An occurrence of a file's result that no suppression key matches
    is in the valid list exactly when it has an initializer and its
    initializer text is "FGuid()" or "FGuid::NewGuid()", the whole text
    and nothing else, and in the invalid list exactly when that fails; the
    initializer text of an occurrence is the trimmed text of group 2 of the
    match of its declaration line, and it has an initializer exactly when
    group 2 took part in the match. *)
Theorem valid_iff_canonical_initializer w supp file log r prop :
  validate_file w supp file = (log, Ok r) →
  prop ∈ properties_found r →
  is_suppressed supp file (struct_name prop) (property_name prop) = false →
  (prop ∈ valid_properties r
   ↔ has_initializer prop = true
     ∧ (initializer_value prop = Some "FGuid()"
        ∨ initializer_value prop = Some "FGuid::NewGuid()"))
  ∧ (prop ∈ invalid_properties r
     ↔ ¬ (has_initializer prop = true
          ∧ (initializer_value prop = Some "FGuid()"
             ∨ initializer_value prop = Some "FGuid::NewGuid()")))
  ∧ (has_initializer prop = false → prop ∈ invalid_properties r)
  ∧ ∃ content j m,
      read_header w file = ReadText content
      ∧ declaration_at (Py.split_lines content) j = Some m
      ∧ line_number prop = j + 1
      ∧ has_initializer prop = bool_decide (is_Some (m !! 2))
      ∧ initializer_value prop = Py.strip <$> m !! 2.
Proof.
  intros Hrun Hin Hns.
  destruct (validate_file_filters w supp file)
    as (log' & r' & Hrun' & Hwf & Hv & Hi & Hs & Hocc).
  assert (r' = r) as -> by congruence.
  assert (well_formed file prop) as Hp by (by eapply Forall_forall in Hwf).
  pose proof (classify_valid supp file prop Hp Hns) as Hvalid.
  assert (classify supp prop ≠ Suppressed) as Hnot.
  { rewrite (classify_suppressed supp file prop Hp). congruence. }
  assert (prop ∈ invalid_properties r
          ↔ ¬ (has_initializer prop = true
               ∧ (initializer_value prop = Some "FGuid()"
                  ∨ initializer_value prop = Some "FGuid::NewGuid()")))
    as Hinvalid.
  { rewrite Hi, list_elem_of_filter, classify_invalid, <- Hvalid. tauto. }
  split_and!.
  - rewrite Hv, list_elem_of_filter, Hvalid. tauto.
  - done.
  - intros Hno. apply Hinvalid. intros [Hyes _]. congruence.
  - destruct (Hocc prop Hin) as (content & i & j & Hread & _ & Ho).
    destruct Ho as (Hline & _ & _ & m & Hm & _ & Hhas & Hinit).
    by exists content, j, m.
Qed.

Lemma valid_iff_canonical_initializer_witness :
  ∃ r,
    validate_file sample_world ∅ "Source/a.h" = ([], Ok r)
    ∧ sample_property 8 "FFoo" "C" "FGuid C = FGuid(42);" (Some "FGuid(42)")
      ∈ properties_found r
    ∧ is_suppressed ∅ "Source/a.h" "FFoo" "C" = false
    ∧ sample_property 8 "FFoo" "C" "FGuid C = FGuid(42);" (Some "FGuid(42)")
      ∈ invalid_properties r
    ∧ ¬ sample_property 8 "FFoo" "C" "FGuid C = FGuid(42);" (Some "FGuid(42)")
        ∈ valid_properties r.
Proof.
  destruct (validate_file_filters sample_world ∅ "Source/a.h")
    as (log & r & Hrun & _).
  assert (log = [] ∧
          sample_property 8 "FFoo" "C" "FGuid C = FGuid(42);" (Some "FGuid(42)")
          ∈ properties_found r) as [-> Hin].
  { vm_compute in Hrun. injection Hrun as <- <-. split; [reflexivity|].
    do 2 apply list_elem_of_further. apply list_elem_of_here. }
  exists r. split; [exact Hrun|]. split; [exact Hin|]. split; [reflexivity|].
  destruct (valid_iff_canonical_initializer sample_world ∅ "Source/a.h" [] r
              _ Hrun Hin eq_refl) as (Hvalid & Hinvalid & _).
  split.
  - apply Hinvalid. intros [_ [H | H]]; discriminate H.
  - intros H. apply Hvalid in H as [_ [H | H]]; discriminate H.
Defined.

(** ** Loading the suppression file *)

Lemma json_get_raises data key default e :
  json_get data key default = Raise e → exn_class_of e = AttributeError.
Proof. destruct data; simpl; intros [= <-]; done. Qed.

Lemma py_set_raises v e : py_set v = Raise e → exn_class_of e = TypeError.
Proof.
  destruct v as [| | | | |items|]; simpl; try (intros [= <-]; done).
  destruct (head (omap unhashable items)); intros [= <-]; done.
Qed.

(** Where [load_suppressions] recovers: no path, an empty path, a path that
    does not exist, a file that cannot be opened, a file that is no JSON;
    and where it does not. *)
Lemma load_suppressions_recovers w (suppression_file : option string) :
  match suppression_file with
  | None => load_suppressions w suppression_file = ([], Ok ∅)
  | Some path =>
      if negb (Py.truthy (Some path)) || negb (path_exists w path)
      then load_suppressions w suppression_file = ([], Ok ∅)
      else
        match load_json w path with
        | LoadIOError msg | LoadJSONDecodeError msg =>
            load_suppressions w suppression_file
            = ([load_warning path msg], Ok ∅)
        | LoadUnicodeDecodeError msg =>
            load_suppressions w suppression_file
            = ([], Raise (Exn UnicodeDecodeError msg))
        | LoadValue data =>
            load_suppressions w suppression_file
            = ([], json_get data "suppressions" (JArr []) ≫= py_set)
        end
  end.
Proof.
  destruct suppression_file as [path|]; [|done]. unfold load_suppressions.
  destruct (negb (Py.truthy (Some path)) || negb (path_exists w path)); [done|].
  unfold open_json_load.
  destruct (load_json w path) as [data|msg|msg|msg]; try done.
  simpl. destruct (json_get data "suppressions" (JArr [])) as [entries|e] eqn:Hg;
    simpl.
  - destruct (py_set entries) as [keys|e] eqn:Hs; simpl; [done|].
    by rewrite (py_set_raises _ _ Hs).
  - by rewrite (json_get_raises _ _ _ _ Hg).
Qed.

Lemma load_suppressions_strings w path (keys : list string) fields :
  Py.truthy (Some path) = true → path_exists w path = true →
  load_json w path = LoadValue (JObj fields) →
  dict_get "suppressions" fields (JArr []) = JArr (JStr <$> keys) →
  load_suppressions w (Some path) = ([], Ok (list_to_set keys)).
Proof.
  intros Ht He Hload Hget.
  pose proof (load_suppressions_recovers w (Some path)) as H.
  cbv beta iota in H. rewrite Ht, He in H. cbn [negb orb] in H.
  rewrite Hload in H. rewrite H. cbn [json_get mbind res_bind].
  rewrite Hget. cbn [py_set].
  assert (omap unhashable (JStr <$> keys) = []) as ->.
  { clear. induction keys as [|k keys IH]; [done|]. rewrite fmap_cons.
    simpl. exact IH. }
  cbn [head].
  do 3 f_equal. clear. induction keys as [|k keys IH]; [done|].
  rewrite fmap_cons. simpl. f_equal. exact IH.
Qed.

(** C6.  A suppression file that exists and holds well-formed JSON that is
    no object (here the array written "[]"), or an object whose
    "suppressions" member is null, or bytes that are no text, makes
    [load_suppressions] raise an exception that its [except] clause does not
    name: the exception leaves [main], nothing is scanned, no report is
    written, and the interpreter ends with status 1.  A file that is no
    JSON is recovered from, with a warning and an empty set. *)
Theorem load_suppressions_uncaught :
  load_suppressions world_with_json_array (Some "suppressions.json")
  = ([], Raise (Exn AttributeError "'list' object has no attribute 'get'"))
  ∧ run world_with_json_array sample_args = ([], 1)
  ∧ load_suppressions world_with_null_entry (Some "suppressions.json")
    = ([], Raise (Exn TypeError "'NoneType' object is not iterable"))
  ∧ run world_with_null_entry sample_args = ([], 1)
  ∧ load_suppressions world_with_undecodable_file (Some "suppressions.json")
    = ([], Raise (Exn UnicodeDecodeError
         "'utf-8' codec can't decode byte 0xff in position 0: invalid start byte"))
  ∧ run world_with_undecodable_file sample_args = ([], 1)
  ∧ load_suppressions world_with_malformed_json (Some "suppressions.json")
    = ([load_warning "suppressions.json"
          "Expecting value: line 1 column 1 (char 0)"], Ok ∅).
Proof. by vm_compute. Qed.

Example missing_suppression_file :
  load_suppressions sample_world (Some "nowhere.json") = ([], Ok ∅)
  ∧ load_suppressions sample_world None = ([], Ok ∅)
  ∧ load_suppressions sample_world (Some "suppressions.json")
    = ([], Ok (list_to_set ["# a note"; "FBar::A"]))
  ∧ (run sample_world
       {| directory := "Source"; recursive := true;
          suppression_file := Some "nowhere.json";
          create_suppression_file := None; output := Some "report.txt";
          fail_on_invalid := false |}).2 = 0.
Proof. by vm_compute. Qed.

(** ** The directory walker *)

Lemma validate_file_total w supp file :
  ∃ r, validate_file w supp file = ((validate_file w supp file).1, Ok r).
Proof.
  destruct (validate_file_filters w supp file) as (log & r & -> & _). eauto.
Qed.

Lemma scan_files_spec w supp files results :
  scan_files w supp files results
  = (flat_map (file_log w supp) (before_stat_error w files),
     match stat_error w files with
     | Some msg => Raise (Exn IOError msg)
     | None => Ok (results ++ omap (file_result w supp) files)
     end).
Proof.
  revert results. induction files as [|f files IH]; intros results.
  - simpl. by rewrite app_nil_r.
  - change (omap (file_result w supp) (f :: files))
      with (match file_result w supp f with
            | Some r => r :: omap (file_result w supp) files
            | None => omap (file_result w supp) files
            end).
    cbn [scan_files stat_error before_stat_error].
    unfold path_is_file, file_result, regular.
    destruct (is_file w f) as [[|]|msg] eqn:Hf; [| |done].
    + cbn [flat_map]. unfold file_log at 1, regular. rewrite Hf.
      destruct (validate_file_total w supp f) as [r ->].
      cbn [lift mbind M_bind fst app].
      destruct (properties_found r) as [|p ps]; rewrite IH;
        destruct (stat_error w files); try done.
      by rewrite <- app_assoc.
    + cbn [flat_map]. unfold file_log at 1, regular. rewrite Hf.
      cbn [lift mbind M_bind fst app]. by rewrite IH.
Qed.

Lemma scan_directory_spec w supp dir rec :
  scan_directory w supp dir rec
  = (flat_map (file_log w supp)
       (before_stat_error w (glob w dir (if rec then "**/*.h" else "*.h"))),
     match stat_error w (glob w dir (if rec then "**/*.h" else "*.h")) with
     | Some msg => Raise (Exn IOError msg)
     | None =>
         Ok (omap (file_result w supp)
                  (glob w dir (if rec then "**/*.h" else "*.h")))
     end).
Proof. unfold scan_directory. by rewrite scan_files_spec. Qed.

(** ** The command line *)

Lemma main_spec w args :
  main w args
  = if Py.truthy (create_suppression_file args) then
      match write_text w (default "" (create_suppression_file args)) with
      | WriteDone =>
          ([WriteFile (default "" (create_suppression_file args))
              default_suppressions_text;
            Print ("Created default suppression file: "
                   +:+ default "" (create_suppression_file args))], Ok 0)
      | WriteIOError msg => ([], Raise (Exn IOError msg))
      end
    else if negb (isdir w (directory args)) then
      ([Print ("Error: Directory '" +:+ directory args +:+ "' does not exist")],
       Ok 1)
    else
      match load_suppressions w (suppression_file args) with
      | (log, Raise e) => (log, Raise e)
      | (log, Ok supp) =>
          match scan_error w args with
          | Some msg => (log ++ scan_log w supp args, Raise (Exn IOError msg))
          | None =>
              let results := scan_results w supp args in
              if Py.truthy (output args) then
                match write_text w (default "" (output args)) with
                | WriteDone =>
                    (log ++ scan_log w supp args
                     ++ [WriteFile (default "" (output args))
                           (generate_report results);
                         Print ("Report written to: "
                                +:+ default "" (output args))],
                     Ok (exit_code_for args results))
                | WriteIOError msg =>
                    (log ++ scan_log w supp args ++ [],
                     Raise (Exn IOError msg))
                end
              else
                (log ++ scan_log w supp args
                 ++ [Print (generate_report results)],
                 Ok (exit_code_for args results))
          end
      end.
Proof.
  unfold main, create_default_suppression_file, open_write.
  destruct (Py.truthy (create_suppression_file args)).
  { by destruct (write_text w _). }
  destruct (negb (isdir w (directory args))); [done|].
  destruct (load_suppressions w (suppression_file args)) as [log [supp|e]];
    [|done].
  cbn [mbind M_bind]. rewrite scan_directory_spec.
  fold (scan_results w supp args). fold (scan_log w supp args).
  fold (scan_error w args).
  destruct (scan_error w args) as [msg|]; [done|].
  unfold exit_code_for. cbn [mbind M_bind].
  generalize (fail_on_invalid args
              && (0 <? total invalid_properties (scan_results w supp args))).
  intros code.
  destruct (Py.truthy (output args)).
  - destruct (write_text w _); destruct code; simpl; by rewrite ?app_nil_r.
  - destruct code; simpl; by rewrite ?app_nil_r.
Qed.

Lemma run_status w args : (run w args).2 = exit_status (main w args).2.
Proof. unfold run. by destruct (main w args). Qed.

Lemma scan_invalid_count_spec w args :
  scan_invalid_count w args
  = match load_suppressions w (suppression_file args) with
    | (_, Ok supp) =>
        match scan_error w args with
        | Some _ => None
        | None => Some (total invalid_properties (scan_results w supp args))
        end
    | (_, Raise _) => None
    end.
Proof.
  unfold scan_invalid_count.
  destruct (load_suppressions w (suppression_file args)) as [log [supp|e]];
    [|done].
  rewrite scan_directory_spec. fold (scan_error w args).
  by destruct (scan_error w args).
Qed.

(** When [main] returns: the files it writes can be written, the
    suppression file loads and [is_file] answers for every enumerated
    path. *)
Lemma main_returns w args :
  (Py.truthy (create_suppression_file args) = true →
   write_text w (default "" (create_suppression_file args)) = WriteDone) →
  (Py.truthy (create_suppression_file args) = false →
   isdir w (directory args) = true →
   (∃ supp, (load_suppressions w (suppression_file args)).2 = Ok supp)
   ∧ scan_error w args = None
   ∧ (Py.truthy (output args) = true →
      write_text w (default "" (output args)) = WriteDone)) →
  ∃ status, (main w args).2 = Ok status.
Proof.
  intros Hcreate Hscan. rewrite main_spec.
  destruct (Py.truthy (create_suppression_file args)).
  { rewrite Hcreate by done. eauto. }
  destruct (isdir w (directory args)); simpl; [|eauto].
  destruct Hscan as ([supp Hload] & Hstat & Hwrite); [done..|].
  destruct (load_suppressions w (suppression_file args)) as [log [supp'|e]];
    [|done].
  rewrite Hstat. cbv zeta. destruct (Py.truthy (output args)); [|eauto].
  rewrite Hwrite by done. eauto.
Qed.

(** C8, as stated, fails: with [--create-suppression-file] the run writes
    the template and returns 0 although the root is no directory. *)
Lemma exit_zero_with_create_flag : ¬ exit_one_rule sample_world create_args.
Proof.
  unfold exit_one_rule. intros [_ H].
  assert ((run sample_world create_args).2 = 1) as Hone.
  { apply H. left. reflexivity. }
  vm_compute in Hone. discriminate Hone.
Qed.

(** C8, amended.  For a run that no exception ends: with
    [--create-suppression-file] the run writes the template to the named
    path, prints the confirmation and exits with code 0, whatever the
    directory; without it the exit code is 1 exactly when the root is no
    directory or the scan found invalid occurrences and
    [--fail-on-invalid] is set, and 0 otherwise; and when the root is no
    directory the run prints the error message and nothing else: no scan,
    no report. *)
Theorem exit_code_rule w args :
  (∀ e, (main w args).2 ≠ Raise e) →
  if Py.truthy (create_suppression_file args)
  then run w args
       = ([WriteFile (default "" (create_suppression_file args))
             default_suppressions_text;
           Print ("Created default suppression file: "
                  +:+ default "" (create_suppression_file args))], 0)
  else exit_one_rule w args
       ∧ ((run w args).2 = 0 ∨ (run w args).2 = 1)
       ∧ (isdir w (directory args) = false →
          run w args
          = ([Print ("Error: Directory '" +:+ directory args
                     +:+ "' does not exist")], 1)).
Proof.
  intros Hreturns. unfold exit_one_rule.
  rewrite run_status, scan_invalid_count_spec. unfold run.
  rewrite main_spec in *.
  destruct (Py.truthy (create_suppression_file args)).
  { destruct (write_text w _); [done|]. by destruct (Hreturns _ eq_refl). }
  destruct (isdir w (directory args)); cbn [negb exit_status snd] in *.
  2:{ split; [|by auto]. split; [by left | done]. }
  destruct (load_suppressions w (suppression_file args)) as [log [supp|e]].
  2:{ by destruct (Hreturns _ eq_refl). }
  destruct (scan_error w args) as [msg|].
  { by destruct (Hreturns _ eq_refl). }
  cbv zeta in *.
  assert (exit_code_for args (scan_results w supp args) = 1
          ↔ true = false
            ∨ fail_on_invalid args = true
              ∧ ∃ n, Some (total invalid_properties (scan_results w supp args))
                     = Some n ∧ 0 < n) as Hrule.
  { unfold exit_code_for. destruct (fail_on_invalid args); simpl.
    - destruct (0 <? total invalid_properties _) eqn:Hn.
      + apply Nat.ltb_lt in Hn. split; [|done]. intros _. right. eauto.
      + apply Nat.ltb_ge in Hn. split; [done|].
        intros [? | [_ (n & [= <-] & Hpos)]]; [done | lia].
    - split; [done|]. intros [? | [? _]]; done. }
  assert (exit_code_for args (scan_results w supp args) = 0
          ∨ exit_code_for args (scan_results w supp args) = 1) as Hrange.
  { unfold exit_code_for. destruct (_ && _); auto. }
  destruct (Py.truthy (output args)).
  - destruct (write_text w _); cbn [exit_status snd] in *.
    + by split; [|split].
    + by destruct (Hreturns _ eq_refl).
  - cbn [exit_status snd] in *. by split; [|split].
Qed.

Lemma exit_code_rule_witness :
  (∀ e, (main sample_world sample_args).2 ≠ Raise e)
  ∧ exit_one_rule sample_world sample_args
  ∧ (run sample_world sample_args).2 = 1
  ∧ (∀ e, (main sample_world create_args).2 ≠ Raise e)
  ∧ isdir sample_world (directory create_args) = false
  ∧ run sample_world create_args
    = ([WriteFile "suppressions.json" default_suppressions_text;
        Print "Created default suppression file: suppressions.json"], 0).
Proof.
  assert (∀ e, (main sample_world sample_args).2 ≠ Raise e) as H1.
  { intros e. vm_compute. discriminate. }
  assert (∀ e, (main sample_world create_args).2 ≠ Raise e) as H2.
  { intros e. vm_compute. discriminate. }
  split; [exact H1|].
  split; [exact (proj1 (exit_code_rule sample_world sample_args H1))|].
  split; [reflexivity|].
  split; [exact H2|].
  split; [reflexivity|].
  exact (exit_code_rule sample_world create_args H2).
Defined.

(** Scenarios A, B and D of the specification. *)
Example scenario_missing_initializer :
  let w := sample_world_with ["Source/b.h"] (LoadValue (JObj [])) in
  let header := Py.join_lines ["struct FFoo"; "{"; "    UPROPERTY()";
                               "    FGuid Id;"; "};"] in
  let w := {| isdir := isdir w; path_exists := path_exists w; glob := glob w;
              is_file := is_file w; read_header := λ _, ReadText header;
              load_json := λ _, LoadValue (JObj [("suppressions",
                                                  JArr [JStr "FFoo::Id"])]);
              write_text := write_text w |} in
  let args s := {| directory := "Source"; recursive := true;
                   suppression_file := s; create_suppression_file := None;
                   output := Some "report.txt"; fail_on_invalid := true |} in
  (run w (args None)).2 = 1
  ∧ take 11 <$> (report_lines <$> (match scan_directory w ∅ "Source" true with
                                   | (_, Ok rs) => Some rs
                                   | _ => None
                                   end))
    = Some [ Py.repeat_char "=" 80;
             "UPROPERTY FGuid Initialization Validation Report";
             Py.repeat_char "=" 80; "";
             "Total files scanned: 1";
             "Total UPROPERTY FGuid properties found: 1";
             "Valid properties: 0"; "Invalid properties: 1";
             "Suppressed properties: 0"; ""; "❌ VALIDATION FAILED" ]
  ∧ (run w (args (Some "suppressions.json"))).2 = 0
  ∧ run w {| directory := "Missing"; recursive := true;
             suppression_file := None; create_suppression_file := None;
             output := Some "report.txt"; fail_on_invalid := true |}
    = ([Print "Error: Directory 'Missing' does not exist"], 1).
Proof. by vm_compute. Qed.

(** ** Two runs over the same contents *)

Lemma validate_file_ext w1 w2 supp file :
  (∀ p, read_header w1 p = read_header w2 p) →
  validate_file w1 supp file = validate_file w2 supp file.
Proof. intros H. unfold validate_file, open_read. by rewrite H. Qed.

Lemma load_suppressions_ext w1 w2 suppression_file :
  (∀ p, path_exists w1 p = path_exists w2 p) →
  (∀ p, load_json w1 p = load_json w2 p) →
  load_suppressions w1 suppression_file = load_suppressions w2 suppression_file.
Proof.
  intros He Hl. unfold load_suppressions, open_json_load.
  destruct suppression_file as [path|]; [|done]. by rewrite He, Hl.
Qed.

Lemma file_result_ext w1 w2 supp file :
  same_contents w1 w2 → file_result w1 supp file = file_result w2 supp file.
Proof.
  intros (_ & _ & Hf & Hr & _). unfold file_result, regular.
  by rewrite Hf, (validate_file_ext w1 w2 supp file Hr).
Qed.

Lemma file_log_ext w1 w2 supp file :
  same_contents w1 w2 → file_log w1 supp file = file_log w2 supp file.
Proof.
  intros (_ & _ & Hf & Hr & _). unfold file_log, regular.
  by rewrite Hf, (validate_file_ext w1 w2 supp file Hr).
Qed.

(** [is_file] raises at no path of the enumeration exactly when it answers
    at each of them. *)
Lemma stat_error_None w files :
  stat_error w files = None
  ↔ Forall (λ f, ∃ answer, is_file w f = IsFile answer) files.
Proof.
  induction files as [|f files IH]; simpl; [by split|].
  rewrite Forall_cons, <- IH.
  destruct (is_file w f) as [answer|msg]; split.
  - eauto.
  - by intros [_ ?].
  - done.
  - by intros [[? ?] _].
Qed.

Lemma stat_error_None_Permutation w1 w2 files1 files2 :
  (∀ p, is_file w1 p = is_file w2 p) →
  files1 ≡ₚ files2 →
  stat_error w1 files1 = None ↔ stat_error w2 files2 = None.
Proof.
  intros Hf Hperm. rewrite !stat_error_None, Hperm.
  apply Forall_iff. intros f. by rewrite Hf.
Qed.

Lemma stat_error_ext w1 w2 files :
  (∀ p, is_file w1 p = is_file w2 p) →
  stat_error w1 files = stat_error w2 files
  ∧ before_stat_error w1 files = before_stat_error w2 files.
Proof.
  intros Hf. induction files as [|f files [IH1 IH2]]; simpl; [done|].
  rewrite Hf. destruct (is_file w2 f); [|done]. by rewrite IH1, IH2.
Qed.

Lemma before_stat_error_None w files :
  stat_error w files = None → before_stat_error w files = files.
Proof.
  induction files as [|f files IH]; simpl; [done|].
  destruct (is_file w f); [|done]. intros H. by rewrite IH.
Qed.

Lemma scan_error_same w1 w2 args :
  same_contents w1 w2 →
  scan_error w1 args = None ↔ scan_error w2 args = None.
Proof.
  intros (_ & _ & Hf & _ & _ & _ & Hglob). unfold scan_error.
  by apply stat_error_None_Permutation.
Qed.

Lemma scan_results_Permutation w1 w2 supp args :
  same_contents w1 w2 →
  scan_results w1 supp args ≡ₚ scan_results w2 supp args.
Proof.
  intros Hsame. unfold scan_results.
  destruct Hsame as (H1 & H2 & H3 & H4 & H5 & H6 & Hglob).
  rewrite (Hglob (directory args) _).
  assert (same_contents w1 w2) as Hsame by done.
  induction (glob w2 (directory args) _) as [|f files IH]; [done|].
  csimpl. rewrite (file_result_ext w1 w2 supp f Hsame).
  destruct (file_result w2 supp f); by rewrite IH.
Qed.

Lemma scan_results_ext w1 w2 supp args :
  same_contents w1 w2 →
  (∀ d pattern, glob w1 d pattern = glob w2 d pattern) →
  scan_results w1 supp args = scan_results w2 supp args
  ∧ scan_log w1 supp args = scan_log w2 supp args.
Proof.
  intros Hsame Hglob. unfold scan_results, scan_log. rewrite Hglob.
  rewrite (proj2 (stat_error_ext w1 w2 _ (proj1 (proj2 (proj2 Hsame))))).
  split.
  - induction (glob w2 (directory args) _) as [|f files IH]; [done|].
    csimpl. rewrite (file_result_ext w1 w2 supp f Hsame).
    destruct (file_result w2 supp f); by rewrite IH.
  - induction (before_stat_error w2 _) as [|f files IH]; [done|].
    simpl. by rewrite (file_log_ext w1 w2 supp f Hsame), IH.
Qed.

Lemma total_Permutation field (rs1 rs2 : list ValidationResult) :
  rs1 ≡ₚ rs2 → total field rs1 = total field rs2.
Proof.
  unfold total. induction 1 as [|r l l' _ IH|r r' l|l l' l'' _ IH1 _ IH2];
    simpl; [done | by rewrite IH | lia | congruence].
Qed.

Lemma report_head_Permutation (rs1 rs2 : list ValidationResult) :
  rs1 ≡ₚ rs2 → take 11 (report_lines rs1) = take 11 (report_lines rs2).
Proof.
  intros Hperm. unfold report_lines.
  rewrite (total_Permutation properties_found _ _ Hperm),
    (total_Permutation valid_properties _ _ Hperm),
    (total_Permutation invalid_properties _ _ Hperm),
    (total_Permutation suppressed_properties _ _ Hperm),
    (Permutation_length Hperm).
  cbv zeta. by destruct (0 <? total invalid_properties rs2).
Qed.

Lemma main_status w args :
  (main w args).2
  = if Py.truthy (create_suppression_file args) then
      match write_text w (default "" (create_suppression_file args)) with
      | WriteDone => Ok 0
      | WriteIOError msg => Raise (Exn IOError msg)
      end
    else if negb (isdir w (directory args)) then Ok 1
    else
      match (load_suppressions w (suppression_file args)).2 with
      | Raise e => Raise e
      | Ok supp =>
          match scan_error w args with
          | Some msg => Raise (Exn IOError msg)
          | None =>
              if Py.truthy (output args) then
                match write_text w (default "" (output args)) with
                | WriteDone =>
                    Ok (exit_code_for args (scan_results w supp args))
                | WriteIOError msg => Raise (Exn IOError msg)
                end
              else Ok (exit_code_for args (scan_results w supp args))
          end
      end.
Proof.
  rewrite main_spec.
  destruct (Py.truthy (create_suppression_file args)).
  { by destruct (write_text w _). }
  destruct (negb (isdir w (directory args))); [done|].
  destruct (load_suppressions w (suppression_file args)) as [log [supp|e]];
    [|done].
  destruct (scan_error w args); [done|].
  cbv zeta. destruct (Py.truthy (output args)); [|done].
  by destruct (write_text w _).
Qed.

(** C9, as stated, fails: the same two headers enumerated in the two
    possible orders give two different report texts. *)
Lemma report_follows_enumeration :
  ¬ report_deterministic sample_world sample_world_reversed sample_args.
Proof.
  unfold report_deterministic. intros H.
  assert (same_contents sample_world sample_world_reversed) as Hsame.
  { unfold same_contents. split_and!; try done.
    intros d pattern. simpl. case_bool_decide; [apply Permutation_swap | done]. }
  specialize (H Hsame). vm_compute in H. discriminate H.
Qed.

(** C9, amended.  Two runs over the same directories, the same files with
    the same texts and the same suppression file end with the same exit
    code, and their reports begin with the same eleven lines: the banner,
    the five totals and the verdict.  When the walker moreover enumerates
    the files in the same order in both runs, everything printed and
    written, the report text included, is the same. *)
Theorem report_determined_up_to_order w1 w2 args :
  same_contents w1 w2 →
  (run w1 args).2 = (run w2 args).2
  ∧ (∀ lines1 lines2,
       report_lines_of w1 args = Some lines1 →
       report_lines_of w2 args = Some lines2 →
       take 11 lines1 = take 11 lines2)
  ∧ ((∀ d pattern, glob w1 d pattern = glob w2 d pattern) →
     run w1 args = run w2 args).
Proof.
  intros Hsame.
  pose proof Hsame as (Hdir & Hex & Hfile & Hread & Hload & Hwrite & Hglob).
  pose proof (load_suppressions_ext w1 w2 (suppression_file args) Hex Hload)
    as Hsupp.
  split; [|split].
  - rewrite !run_status, !main_status, Hdir, Hsupp, !Hwrite.
    destruct (load_suppressions w2 (suppression_file args)) as [log [supp|e]];
      [|done].
    cbn [snd]. pose proof (scan_error_same w1 w2 args Hsame) as Herr.
    destruct (Py.truthy (create_suppression_file args)); [done|].
    destruct (negb (isdir w2 (directory args))); [done|].
    destruct (scan_error w1 args) as [msg1|],
      (scan_error w2 args) as [msg2|]; [done| | |].
    { by destruct Herr as [_ Herr]; specialize (Herr eq_refl). }
    { by destruct Herr as [Herr _]; specialize (Herr eq_refl). }
    unfold exit_code_for.
    by rewrite (total_Permutation invalid_properties _ _
                  (scan_results_Permutation w1 w2 supp args Hsame)).
  - intros lines1 lines2. unfold report_lines_of. rewrite Hsupp.
    destruct (load_suppressions w2 (suppression_file args)) as [log [supp|e]];
      [|done].
    rewrite !scan_directory_spec.
    destruct (stat_error w1 _); [done|]. destruct (stat_error w2 _); [done|].
    intros [= <-] [= <-].
    apply report_head_Permutation.
    apply (scan_results_Permutation w1 w2 supp args Hsame).
  - intros Hsameorder. unfold run. rewrite !main_spec, Hdir, Hsupp, !Hwrite.
    destruct (load_suppressions w2 (suppression_file args)) as [log [supp|e]];
      [|done].
    destruct (scan_results_ext w1 w2 supp args Hsame Hsameorder) as [-> ->].
    unfold scan_error. rewrite Hsameorder.
    by rewrite (proj1 (stat_error_ext w1 w2 _ Hfile)).
Qed.

Lemma report_determined_up_to_order_witness :
  same_contents sample_world sample_world_reversed
  ∧ (run sample_world sample_args).2 = (run sample_world_reversed sample_args).2
  ∧ (take 11 <$> report_lines_of sample_world sample_args)
    = (take 11 <$> report_lines_of sample_world_reversed sample_args)
  ∧ report_lines_of sample_world sample_args
    ≠ report_lines_of sample_world_reversed sample_args.
Proof.
  assert (same_contents sample_world sample_world_reversed) as Hsame.
  { unfold same_contents. split; [reflexivity|]. split; [reflexivity|].
    split; [reflexivity|]. split; [reflexivity|]. split; [reflexivity|].
    split; [reflexivity|].
    intros d pattern. simpl. case_bool_decide; [apply Permutation_swap | done]. }
  split; [exact Hsame|].
  destruct (report_determined_up_to_order sample_world sample_world_reversed
              sample_args Hsame) as (Hstatus & Hhead & _).
  split; [exact Hstatus|]. split.
  - destruct (report_lines_of sample_world sample_args) as [l1|] eqn:E1;
      [|discriminate E1].
    destruct (report_lines_of sample_world_reversed sample_args) as [l2|] eqn:E2;
      [|discriminate E2].
    simpl. f_equal. exact (Hhead l1 l2 eq_refl eq_refl).
  - vm_compute. discriminate.
Defined.

(* ================================================================== *)
(** * Part III: further properties of the validator                    *)
(* ================================================================== *)

(** ** What the scanner builds *)

Lemma fguid_match_classes bol s m :
  match_here fguid_declaration_pattern bol s = Some m →
  (∀ name, m !! 1 = Some name → all_of Py.is_word name = true)
  ∧ (∀ v, m !! 2 = Some v → all_of (Py.is_not ";") v = true).
Proof.
  intros H. apply match_here_sound in H as [s' H].
  unfold fguid_declaration_pattern, seq_of in H. simpl in H.
  break_match_hyps; subst; rewrite ?consumed_append.
  all: split; intros text Htext; by simplify_map_eq.
Qed.

Lemma fguid_search_classes (line : string) m :
  search fguid_declaration_pattern line = Some m →
  (∀ name, m !! 1 = Some name → all_of Py.is_word name = true)
  ∧ (∀ v, m !! 2 = Some v → all_of (Py.is_not ";") v = true).
Proof.
  intros H. apply search_from_here in H as (b & t & H).
  by apply fguid_match_classes in H.
Qed.

Lemma struct_search_classes (line : string) m :
  search struct_pattern line = Some m →
  ∀ name, m !! 1 = Some name → all_of Py.is_word name = true.
Proof.
  intros H. apply search_from_here in H as (b & t & H).
  apply match_here_sound in H as [s' H].
  unfold struct_pattern, seq_of in H. simpl in H.
  break_match_hyps; subst; rewrite ?consumed_append.
  all: intros text Htext; by simplify_map_eq.
Qed.

Lemma all_of_lstrip cls (s : string) :
  all_of cls s = true → all_of cls (Py.lstrip s) = true.
Proof.
  induction s as [|c s IH]; [done|]. intros H. simpl.
  destruct (Py.is_space c); [|done].
  simpl in H. apply andb_true_iff in H as [_ H]. auto.
Qed.

Lemma all_of_rstrip cls (s : string) :
  all_of cls s = true → all_of cls (Py.rstrip s) = true.
Proof.
  induction s as [|c s IH]; [done|]. intros H. simpl in *.
  apply andb_true_iff in H as [Hc H]. specialize (IH H).
  destruct (Py.rstrip s) as [|d r].
  - destruct (Py.is_space c); [done|]. simpl. by rewrite Hc.
  - simpl in *. by rewrite Hc, IH.
Qed.

Lemma all_of_strip cls (s : string) :
  all_of cls s = true → all_of cls (Py.strip s) = true.
Proof. intros H. by apply all_of_rstrip, all_of_lstrip. Qed.

Lemma make_property_inv file content line j next_line m prop :
  make_property file content line j next_line m = Ok prop →
  find_struct_name content (j + 1) = Ok (struct_name prop)
  ∧ file_path prop = file
  ∧ line_number prop = j + 1
  ∧ property_name prop = default "" (m !! 1)
  ∧ uproperty_line prop = Py.strip line
  ∧ declaration_line prop = Py.strip next_line
  ∧ has_initializer prop = bool_decide (is_Some (m !! 2))
  ∧ initializer_value prop
    = (if Py.truthy (m !! 2) then Py.strip <$> m !! 2 else None).
Proof.
  unfold make_property.
  destruct (find_struct_name content (j + 1)) as [name|e]; [|done].
  simpl. by intros [= <-].
Qed.

(** Whatever holds of every property that [make_property] builds for an
    annotation line and a declaration line of its window holds of every
    occurrence that the scan finds. *)
Section scan_induction.
Variables (file content : string) (P : FGuidProperty → Prop).

Hypothesis built :
  ∀ i j line next_line m prop,
    Py.split_lines content !! i = Some line →
    is_Some (search uproperty_pattern line) →
    i + 1 ≤ j ≤ i + 4 →
    Py.split_lines content !! j = Some next_line →
    search fguid_declaration_pattern next_line = Some m →
    make_property file content line j next_line m = Ok prop →
    P prop.

Lemma lookahead_Forall i line js found :
  Py.split_lines content !! i = Some line →
  is_Some (search uproperty_pattern line) →
  Forall (λ j, i + 1 ≤ j ≤ i + 4) js →
  lookahead file content (Py.split_lines content) line js = Ok (Some found) →
  P found.
Proof.
  intros Hi Ha. induction js as [|j js IH]; intros Hjs; simpl; [done|].
  inversion Hjs as [|? ? Hj Hjs']; subst.
  destruct (Py.split_lines content !! j) as [next_line|] eqn:Hnext; [|done].
  destruct (search fguid_declaration_pattern next_line) as [m|] eqn:Hm;
    [|by apply IH].
  destruct (make_property file content line j next_line m) as [prop|e] eqn:Hp;
    [|done].
  intros H. change (Ok (Some prop) = Ok (Some found)) in H.
  injection H as <-.
  exact (built i j line next_line m prop Hi Ha Hj Hnext Hm Hp).
Qed.

Lemma scan_line_Forall i ps :
  scan_line file content (Py.split_lines content) i = Ok ps → Forall P ps.
Proof.
  unfold scan_line.
  destruct (Py.split_lines content !! i) as [line|] eqn:Hi; [|done].
  case_bool_decide as Ha; [|by intros [= <-]].
  destruct (lookahead file content (Py.split_lines content) line _)
    as [[found|]|e] eqn:Hl; simpl; [| by intros [= <-] | done].
  intros [= <-]. constructor; [|constructor].
  eapply lookahead_Forall; [done | done | | done].
  apply Forall_forall. intros j Hj. apply elem_of_seq in Hj. lia.
Qed.

Lemma scan_while_Forall remaining i acc found :
  Forall P acc →
  scan_while file content (Py.split_lines content) remaining i acc = Ok found →
  Forall P found.
Proof.
  revert i acc. induction remaining as [|n IH]; intros i acc Hacc; simpl.
  - by intros [= <-].
  - destruct (scan_line file content (Py.split_lines content) i)
      as [ps|e] eqn:Hps; [|done].
    simpl. apply IH. apply Forall_app. split; [done|].
    by eapply scan_line_Forall.
Qed.

Lemma scan_properties_Forall found :
  scan_properties file content = Ok found → Forall P found.
Proof. unfold scan_properties. by apply scan_while_Forall. Qed.
End scan_induction.

Lemma validate_file_found w supp file log r prop :
  validate_file w supp file = (log, Ok r) →
  prop ∈ properties_found r →
  ∃ content,
    read_header w file = ReadText content
    ∧ scan_properties file content = Ok (properties_found r).
Proof.
  intros Hrun Hin. pose proof (validate_file_spec w supp file) as H.
  destruct (read_header w file) as [content|msg|msg].
  - destruct H as (found & Hfound & Hv). rewrite Hv in Hrun.
    injection Hrun as <- <-. by exists content.
  - rewrite H in Hrun. injection Hrun as <- <-. by apply elem_of_nil in Hin.
  - rewrite H in Hrun. injection Hrun as <- <-. by apply elem_of_nil in Hin.
Qed.

Lemma find_struct_name_loop_word (lines : list string) n name :
  find_struct_name_loop lines n = Ok name →
  name ≠ "" ∧ all_of Py.is_word name = true.
Proof.
  induction n as [|n IH]; simpl.
  - intros [= <-]. by split.
  - destruct (lines !! n) as [line|]; [|done].
    destruct (search struct_pattern line) as [m|] eqn:Hm; [|done].
    intros [= <-].
    destruct (struct_search_groups _ _ Hm) as (nm & Hnm & Hne).
    rewrite Hnm. simpl. split; [done|].
    by eapply struct_search_classes.
Qed.

Lemma sample_occurrence_found :
  validate_file sample_world ∅ "Source/a.h" = ([], Ok sample_result)
  ∧ sample_occurrence ∈ properties_found sample_result.
Proof.
  split; [by vm_compute|].
  do 2 apply list_elem_of_further. apply list_elem_of_here.
Qed.

(** X1.  [validate_file] never raises.  When the header can be read it
    prints nothing and its result carries the path and the occurrences of
    the scan; when opening or decoding fails it prints one warning naming
    the path and the error, and returns the path with four empty lists. *)
Theorem validate_file_recovers w supp file :
  ∃ log r,
    validate_file w supp file = (log, Ok r)
    ∧ result_file_path r = file
    ∧ match read_header w file with
      | ReadText content =>
          log = [] ∧ scan_properties file content = Ok (properties_found r)
      | ReadIOError msg | ReadUnicodeDecodeError msg =>
          log = [Print ("Warning: Could not read file " +:+ file +:+ ": "
                        +:+ msg)]
          ∧ properties_found r = [] ∧ valid_properties r = []
          ∧ invalid_properties r = [] ∧ suppressed_properties r = []
      end.
Proof.
  pose proof (validate_file_spec w supp file) as H.
  destruct (read_header w file) as [content|msg|msg].
  - destruct H as (found & Hfound & ->). by eexists _, _.
  - rewrite H. by eexists _, _.
  - rewrite H. by eexists _, _.
Qed.

(** X2.  Every occurrence in the result of [validate_file] is well formed:
    it carries the path of the file; its line number is that of a line of
    the file, whose trimmed text is its declaration text; its annotation
    text is the trimmed text of an annotation line one to four lines
    above; its property name and structure name are non-empty and made of
    word characters; it has an initializer value exactly when the flag
    says so, and that value is trimmed and holds no semicolon. *)
Theorem occurrence_fields w supp file log r prop :
  validate_file w supp file = (log, Ok r) →
  prop ∈ properties_found r →
  ∃ content,
    read_header w file = ReadText content
    ∧ file_path prop = file
    ∧ 1 ≤ line_number prop ≤ length (Py.split_lines content)
    ∧ (∃ next_line,
         Py.split_lines content !! (line_number prop - 1) = Some next_line
         ∧ declaration_line prop = Py.strip next_line)
    ∧ (∃ i line,
         i + 2 ≤ line_number prop ≤ i + 5
         ∧ Py.split_lines content !! i = Some line
         ∧ is_Some (search uproperty_pattern line)
         ∧ uproperty_line prop = Py.strip line)
    ∧ property_name prop ≠ ""
    ∧ all_of Py.is_word (property_name prop) = true
    ∧ struct_name prop ≠ ""
    ∧ all_of Py.is_word (struct_name prop) = true
    ∧ (has_initializer prop = true ↔ is_Some (initializer_value prop))
    ∧ (∀ v, initializer_value prop = Some v →
         Py.strip v = v ∧ all_of (Py.is_not ";") v = true).
Proof.
  intros Hrun Hin.
  destruct (validate_file_found _ _ _ _ _ _ Hrun Hin) as (content & Hread & Hscan).
  exists content. split; [done|].
  revert prop Hin. rewrite <- Forall_forall.
  eapply scan_properties_Forall; [|exact Hscan]. clear.
  intros i j line next_line m prop Hi Ha Hj Hnext Hm Hp.
  apply make_property_inv in Hp
    as (Hstruct & Hfile & Hline & Hname & Hup & Hdecl & Hhas & Hinit).
  destruct (fguid_search_groups _ _ Hm) as [(name & H1 & Hne) H2].
  destruct (fguid_search_classes _ _ Hm) as [Hw Hs].
  destruct (find_struct_name_loop_word _ _ _ Hstruct) as [Hsne Hsw].
  rewrite Hline, Hname, H1, Hhas, Hinit. simpl.
  replace (j + 1 - 1) with j by lia.
  split; [done|]. split; [apply lookup_lt_Some in Hnext; lia|].
  split; [by eauto|]. split; [exists i, line; split; [lia | done]|].
  split; [done|]. split; [by apply Hw|]. split; [done|]. split; [done|].
  destruct (m !! 2) as [v0|] eqn:E; simpl.
  - assert (v0 ≠ "") as Hv0 by (by apply H2).
    destruct v0 as [|c v0]; [done|]. simpl. split.
    + split; eauto.
    + intros v [= <-]. split; [apply strip_idemp|].
      by apply all_of_strip, Hs.
  - split; [|done]. split; [done|]. intros [? ?]; done.
Qed.

Lemma occurrence_fields_witness :
  validate_file sample_world ∅ "Source/a.h" = ([], Ok sample_result)
  ∧ sample_occurrence ∈ properties_found sample_result
  ∧ ∃ content,
      read_header sample_world "Source/a.h" = ReadText content
      ∧ file_path sample_occurrence = "Source/a.h"
      ∧ 1 ≤ line_number sample_occurrence ≤ length (Py.split_lines content).
Proof.
  destruct sample_occurrence_found as [Hrun Hin].
  split; [exact Hrun|]. split; [exact Hin|].
  destruct (occurrence_fields sample_world ∅ "Source/a.h" [] sample_result
              sample_occurrence Hrun Hin)
    as (content & Hread & Hfile & Hline & _).
  exists content. split; [exact Hread|]. split; [exact Hfile | exact Hline].
Defined.

(** X3.  The structure name of every occurrence in the result of
    [validate_file] is what [find_struct_name] returns for its line number:
    the name captured on the nearest line above the declaration that
    matches the structure pattern, and "UnknownStruct" when no line above
    matches. *)
Theorem occurrence_struct_is_nearest_header w supp file log r prop :
  validate_file w supp file = (log, Ok r) →
  prop ∈ properties_found r →
  ∃ content,
    read_header w file = ReadText content
    ∧ find_struct_name content (line_number prop) = Ok (struct_name prop)
    ∧ ((∃ i, i + 1 < line_number prop
             ∧ header_at (Py.split_lines content) i = Some (struct_name prop)
             ∧ ∀ k, i < k → k + 1 < line_number prop →
                    header_at (Py.split_lines content) k = None)
       ∨ (struct_name prop = "UnknownStruct"
          ∧ ∀ i, i + 1 < line_number prop →
                 header_at (Py.split_lines content) i = None)).
Proof.
  intros Hrun Hin.
  destruct (validate_file_found _ _ _ _ _ _ Hrun Hin) as (content & Hread & Hscan).
  exists content. split; [done|].
  revert prop Hin. rewrite <- Forall_forall.
  eapply scan_properties_Forall; [|exact Hscan]. clear.
  intros i j line next_line m prop Hi Ha Hj Hnext Hm Hp.
  apply make_property_inv in Hp as (Hstruct & _ & Hline & _).
  rewrite Hline. split; [done|].
  assert (header_at (Py.split_lines content) j = None) as Hnot.
  { apply declaration_no_header. unfold declaration_at. rewrite Hnext.
    simpl. eauto. }
  destruct (find_struct_name_loop_spec (Py.split_lines content) (j + 1))
    as (name & Hname & Hcases).
  { apply lookup_lt_Some in Hnext. lia. }
  unfold find_struct_name in Hstruct.
  assert (name = struct_name prop) as -> by congruence.
  destruct Hcases as [(h & Hh & Hhead & Hk) | [Hunknown Hnone]].
  - left. exists h. destruct (decide (h = j)) as [-> | ?]; [congruence|].
    split; [lia|]. split; [done|]. intros k ? ?. apply Hk. lia.
  - right. split; [done|]. intros h ?. apply Hnone. lia.
Qed.

Lemma occurrence_struct_is_nearest_header_witness :
  validate_file sample_world ∅ "Source/a.h" = ([], Ok sample_result)
  ∧ sample_occurrence ∈ properties_found sample_result
  ∧ ∃ content,
      read_header sample_world "Source/a.h" = ReadText content
      ∧ find_struct_name content (line_number sample_occurrence)
        = Ok (struct_name sample_occurrence).
Proof.
  destruct sample_occurrence_found as [Hrun Hin].
  split; [exact Hrun|]. split; [exact Hin|].
  destruct (occurrence_struct_is_nearest_header sample_world ∅ "Source/a.h" []
              sample_result sample_occurrence Hrun Hin)
    as (content & Hread & Hfind & _).
  exists content. split; [exact Hread | exact Hfind].
Defined.

(** ** The order and the presence of occurrences *)

Lemma concat_sorted {A} (R : A → A → Prop) (pl : list (list A)) :
  (∀ i ps, pl !! i = Some ps → length ps ≤ 1) →
  (∀ i i' ps qs p q,
     i < i' → pl !! i = Some ps → pl !! i' = Some qs → p ∈ ps → q ∈ qs →
     R p q) →
  StronglySorted R (concat pl).
Proof.
  induction pl as [|ps pl IH]; intros Hlen Hord; simpl; [constructor|].
  assert (StronglySorted R (concat pl)) as Hrest.
  { apply IH.
    - intros i qs Hi. by apply (Hlen (S i)).
    - intros i i' qs qs' p q Hlt Hi Hi'. apply (Hord (S i) (S i')); [lia|done..]. }
  specialize (Hlen 0 ps eq_refl).
  destruct ps as [|p [|p' ps]]; simpl in *; [done | | lia].
  apply StronglySorted_cons. split; [|done].
  apply Forall_forall. intros q Hq.
  apply list_elem_of_In, in_concat in Hq as (qs & Hqs & Hq).
  apply list_elem_of_In, list_elem_of_lookup in Hqs as [i' Hi'].
  apply (Hord 0 (S i') [p] qs); [lia | done | done | | by apply list_elem_of_In].
  apply list_elem_of_here.
Qed.

Lemma filter_sorted {A} (R : A → A → Prop) (P : A → Prop)
    `{!∀ x, Decision (P x)} (l : list A) :
  StronglySorted R l → StronglySorted R (filter P l).
Proof.
  induction 1 as [|x l Hl IH Hx]; [constructor|].
  rewrite filter_cons. destruct (decide (P x)); [|done].
  apply StronglySorted_cons. split; [|done].
  rewrite Forall_forall in *. intros y [_ Hy]%list_elem_of_filter. auto.
Qed.

Lemma scan_properties_sorted file content found :
  scan_properties file content = Ok found → StronglySorted by_line found.
Proof.
  intros Hfound.
  destruct (scan_properties_spec file content) as (per_line & Hpl & Hall).
  assert (found = concat per_line) as -> by congruence.
  apply concat_sorted.
  - intros i ps Hi. destruct (per_line_lookup _ _ _ _ _ Hall Hi) as [Hlt Hs].
    by destruct (scan_line_first file content i ps Hlt Hs).
  - intros i i' ps qs p q Hlt Hi Hi' Hp Hq.
    destruct (per_line_lookup _ _ _ _ _ Hall Hi) as [Hl Hs].
    destruct (per_line_lookup _ _ _ _ _ Hall Hi') as [Hl' Hs'].
    destruct (scan_line_first file content i ps Hl Hs) as (_ & _ & Hocc).
    destruct (scan_line_first file content i' qs Hl' Hs') as (_ & _ & Hocc').
    destruct (Hocc p Hp) as (_ & j & Hj & (Hline & _) & Hnone).
    destruct (Hocc' q Hq) as (_ & j' & Hj' & (Hline' & _ & _ & m & Hm & _) & _).
    unfold by_line. rewrite Hline, Hline'.
    destruct (decide (j ≤ j')) as [|Hgt]; [lia|].
    rewrite Hnone in Hm by lia. done.
Qed.

(** X4.  In every result of [validate_file] the found sequence is in the
    order of the lines of the declarations, line numbers never decreasing,
    and so are the valid, the invalid and the suppressed lists. *)
Theorem occurrences_in_line_order w supp file :
  ∃ log r,
    validate_file w supp file = (log, Ok r)
    ∧ StronglySorted by_line (properties_found r)
    ∧ StronglySorted by_line (valid_properties r)
    ∧ StronglySorted by_line (invalid_properties r)
    ∧ StronglySorted by_line (suppressed_properties r).
Proof.
  destruct (validate_file_filters w supp file)
    as (log & r & Hrun & _ & Hv & Hi & Hs & _).
  exists log, r. split; [done|].
  assert (StronglySorted by_line (properties_found r)) as Hsorted.
  { pose proof (validate_file_spec w supp file) as H.
    destruct (read_header w file) as [content|msg|msg].
    - destruct H as (found & Hfound & Hv'). rewrite Hv' in Hrun.
      injection Hrun as <- <-. by eapply scan_properties_sorted.
    - rewrite H in Hrun. injection Hrun as <- <-. constructor.
    - rewrite H in Hrun. injection Hrun as <- <-. constructor. }
  rewrite Hv, Hi, Hs. split_and!; [done|by apply filter_sorted..].
Qed.

(** X5.  A header that can be read gives no occurrence exactly when no
    annotation line has a line matching the declaration pattern among the
    four lines below it; such a header is the kind that [scan_directory]
    leaves out of its results. *)
Theorem no_occurrence_iff w supp file log r content :
  validate_file w supp file = (log, Ok r) →
  read_header w file = ReadText content →
  properties_found r = []
  ↔ ∀ i j, annotation_at (Py.split_lines content) i = true →
           i + 1 ≤ j ≤ i + 4 →
           declaration_at (Py.split_lines content) j = None.
Proof.
  intros Hrun Hread. pose proof (validate_file_spec w supp file) as H.
  rewrite Hread in H. destruct H as (found & Hfound & Hv).
  rewrite Hv in Hrun. injection Hrun as <- <-. simpl.
  destruct (scan_properties_spec file content) as (per_line & Hpl & Hall).
  assert (found = concat per_line) as -> by congruence.
  split.
  - intros Hempty i j Ha Hj.
    destruct (annotation_at_lookup _ _ Ha) as [Hlt _].
    pose proof (scan_line_window file content i Ha) as Hw.
    pose proof (first_declaration_window (Py.split_lines content) i) as Hf.
    destruct (first_declaration _ _) as [j0|]; [|by apply Hf].
    destruct Hw as (prop & Hscan & _). exfalso.
    destruct (Forall2_lookup_l _ _ _ i i Hall) as (ps & Hps & Hps').
    { apply lookup_seq. lia. }
    assert (ps = [prop]) as -> by congruence.
    assert (prop ∈ concat per_line) as Hin.
    { apply list_elem_of_In, in_concat. exists [prop].
      split; apply list_elem_of_In; [by eapply list_elem_of_lookup_2|].
      apply list_elem_of_here. }
    rewrite Hempty in Hin. by apply elem_of_nil in Hin.
  - intros Hnone. destruct (concat per_line) as [|prop rest] eqn:E; [done|].
    exfalso. assert (prop ∈ concat per_line) as Hin.
    { rewrite E. apply list_elem_of_here. }
    apply list_elem_of_In, in_concat in Hin as (ps & Hps & Hin).
    apply list_elem_of_In, list_elem_of_lookup in Hps as [i Hi].
    destruct (per_line_lookup _ _ _ _ _ Hall Hi) as [Hlt Hscan].
    destruct (scan_line_first file content i ps Hlt Hscan) as (_ & Hna & Hocc).
    destruct (Hocc prop) as (_ & j & Hj & (_ & _ & _ & m & Hm & _) & _);
      [by apply list_elem_of_In|].
    destruct (annotation_at (Py.split_lines content) i) eqn:Ha.
    + rewrite (Hnone i j Ha Hj) in Hm. done.
    + rewrite (Hna eq_refl) in Hin. by apply in_nil in Hin.
Qed.

Lemma no_occurrence_iff_witness :
  validate_file sample_world ∅ "Source/a.h" = ([], Ok sample_result)
  ∧ read_header sample_world "Source/a.h" = ReadText header_initializers
  ∧ properties_found sample_result ≠ []
  ∧ ¬ ∀ i j, annotation_at (Py.split_lines header_initializers) i = true →
             i + 1 ≤ j ≤ i + 4 →
             declaration_at (Py.split_lines header_initializers) j = None.
Proof.
  split; [by vm_compute|]. split; [reflexivity|]. split; [discriminate|].
  intros Hnone.
  assert (properties_found sample_result = []) as Hempty.
  { apply (no_occurrence_iff sample_world ∅ "Source/a.h" [] sample_result
             header_initializers); [by vm_compute | reflexivity | exact Hnone]. }
  discriminate Hempty.
Defined.

(** ** Bounds of [find_struct_name] *)

(** X6.  [find_struct_name] returns a name for every line number up to
    the number of lines of the text, "UnknownStruct" for line number 0,
    and raises [IndexError] for every line number beyond the last line. *)
Theorem find_struct_name_bounds content n :
  (n ≤ length (Py.split_lines content) →
   ∃ name, find_struct_name content n = Ok name)
  ∧ (length (Py.split_lines content) < n →
     find_struct_name content n
     = Raise (Exn IndexError "list index out of range"))
  ∧ find_struct_name content 0 = Ok "UnknownStruct".
Proof.
  unfold find_struct_name. split; [|split; [|done]].
  - intros Hn.
    destruct (find_struct_name_loop_spec (Py.split_lines content) n Hn)
      as (name & Hname & _). eauto.
  - intros Hn. destruct n as [|n]; [lia|]. simpl.
    rewrite lookup_ge_None_2; [done | lia].
Qed.

Lemma find_struct_name_bounds_witness :
  7 ≤ length (Py.split_lines header_two_annotations)
  ∧ (∃ name, find_struct_name header_two_annotations 7 = Ok name)
  ∧ length (Py.split_lines header_two_annotations) < 8
  ∧ find_struct_name header_two_annotations 8
    = Raise (Exn IndexError "list index out of range").
Proof.
  assert (7 ≤ length (Py.split_lines header_two_annotations)) as Hle
    by (vm_compute; lia).
  assert (length (Py.split_lines header_two_annotations) < 8) as Hlt
    by (vm_compute; lia).
  split; [exact Hle|].
  split; [exact (proj1 (find_struct_name_bounds header_two_annotations 7) Hle)|].
  split; [exact Hlt|].
  exact (proj1 (proj2 (find_struct_name_bounds header_two_annotations 8)) Hlt).
Defined.

(** ** The roles of a line *)

Lemma first_visible_split (u u' : string) (c c' : ascii) (t t' : string) :
  u +:+ String c t = u' +:+ String c' t' →
  all_of Py.is_space u = true → all_of Py.is_space u' = true →
  Py.is_space c = false → Py.is_space c' = false →
  String c t = String c' t'.
Proof.
  revert u'. induction u as [|x u IH]; intros [|x' u'] E Hu Hu' Hc Hc';
    simpl in *; simplify_eq.
  - done.
  - apply andb_true_iff in Hu' as [Hx _]. congruence.
  - apply andb_true_iff in Hu as [Hx _]. congruence.
  - apply andb_true_iff in Hu as [_ Hu]. apply andb_true_iff in Hu' as [_ Hu'].
    eauto.
Qed.

Lemma struct_match_prefix bol s m :
  match_here struct_pattern bol s = Some m →
  ∃ u rest, all_of Py.is_space u = true
            ∧ (s = u +:+ "USTRUCT" +:+ rest ∨ s = u +:+ "struct" +:+ rest).
Proof.
  intros H. apply match_here_sound in H as [s' H].
  unfold struct_pattern, seq_of in H. simpl in H.
  break_match_hyps; subst; eexists _, _;
    (split; [|first [left; reflexivity | right; reflexivity]]); done.
Qed.

Lemma annotation_not_header (line : string) :
  no_nl line = true →
  is_Some (search uproperty_pattern line) →
  search struct_pattern line = None.
Proof.
  intros Hnl [m Hm].
  unfold uproperty_pattern, seq_of in Hm. simpl foldr in Hm.
  rewrite search_anchored in Hm by done.
  apply uproperty_match_shape in Hm as (u & rest & -> & Hu).
  destruct (search struct_pattern _) as [m'|] eqn:E; [exfalso|done].
  unfold struct_pattern, seq_of in E. simpl foldr in E.
  rewrite search_anchored in E by done.
  apply struct_match_prefix in E as (u' & rest' & Hu' & [E | E]);
    simpl in E; apply first_visible_split in E; try done; discriminate E.
Qed.

(** X7.  No line of a text plays two roles: an annotation line matches
    neither the declaration pattern nor the structure pattern, and a line
    that matches the declaration pattern does not match the structure
    pattern. *)
Theorem line_roles_exclusive content i :
  (annotation_at (Py.split_lines content) i = true →
   declaration_at (Py.split_lines content) i = None
   ∧ header_at (Py.split_lines content) i = None)
  ∧ (is_Some (declaration_at (Py.split_lines content) i) →
     header_at (Py.split_lines content) i = None).
Proof.
  split; [|apply declaration_no_header].
  intros Ha. destruct (annotation_at_lookup _ _ Ha) as (_ & line & Hline & Hm).
  assert (no_nl line = true) as Hnl.
  { pose proof (split_lines_no_nl content) as Hall.
    rewrite Forall_forall in Hall. apply Hall.
    by eapply list_elem_of_lookup_2. }
  unfold declaration_at. rewrite (header_at_lookup _ _ _ Hline), Hline. simpl.
  rewrite annotation_not_declaration, annotation_not_header by done. done.
Qed.

Lemma line_roles_exclusive_witness :
  annotation_at (Py.split_lines header_two_annotations) 4 = true
  ∧ declaration_at (Py.split_lines header_two_annotations) 4 = None
  ∧ header_at (Py.split_lines header_two_annotations) 4 = None
  ∧ is_Some (declaration_at (Py.split_lines header_two_annotations) 5)
  ∧ header_at (Py.split_lines header_two_annotations) 5 = None.
Proof.
  assert (is_Some (declaration_at (Py.split_lines header_two_annotations) 5))
    as Hd by (vm_compute; eexists; reflexivity).
  destruct (line_roles_exclusive header_two_annotations 4) as [Ha _].
  destruct (line_roles_exclusive header_two_annotations 5) as [_ Hh].
  destruct (Ha eq_refl) as [Hnd Hnh].
  split; [reflexivity|]. split; [exact Hnd|]. split; [exact Hnh|].
  split; [exact Hd | exact (Hh Hd)].
Defined.

(** ** Suppression keys and the lists of a result *)

Lemma is_suppressed_elim supp file struct property :
  is_suppressed supp file struct property = true →
  ∃ key, key ∈ patterns_to_check file struct property ∧ key ∈ supp.
Proof.
  unfold is_suppressed. intros H. apply existsb_exists in H as (key & Hin & Hk).
  exists key. split; [by apply list_elem_of_In|]. by apply bool_decide_eq_true in Hk.
Qed.

Lemma is_suppressed_intro supp file struct property key :
  key ∈ patterns_to_check file struct property → key ∈ supp →
  is_suppressed supp file struct property = true.
Proof.
  intros Hin Hk. unfold is_suppressed. apply existsb_exists. exists key.
  split; [by apply list_elem_of_In | by apply bool_decide_eq_true].
Qed.

Lemma filter_all {A} (P : A → Prop) `{!∀ x, Decision (P x)} (l : list A) :
  Forall P l → filter P l = l.
Proof.
  induction 1 as [|x l Hx _ IH]; [done|].
  by rewrite filter_cons_True, IH.
Qed.

Lemma filter_none {A} (P : A → Prop) `{!∀ x, Decision (P x)} (l : list A) :
  Forall (λ x, ¬ P x) l → filter P l = [].
Proof.
  induction 1 as [|x l Hx _ IH]; [done|].
  by rewrite filter_cons_False, IH.
Qed.

Lemma sublist_filter_impl {A} (P Q : A → Prop)
    `{!∀ x, Decision (P x)} `{!∀ x, Decision (Q x)} (l : list A) :
  Forall (λ x, P x → Q x) l → sublist (filter P l) (filter Q l).
Proof.
  induction 1 as [|x l Hx _ IH]; [constructor|].
  rewrite !filter_cons. destruct (decide (P x)) as [HP|HP].
  - rewrite decide_True by auto. by constructor.
  - destruct (decide (Q x)); [by constructor | done].
Qed.

(** X8.  When the path of a file is itself an entry of the suppression
    set, every occurrence found in the file is suppressed: the suppressed
    list is the found sequence and the valid and invalid lists are
    empty. *)
Theorem whole_file_suppression w supp file log r :
  file ∈ supp →
  validate_file w supp file = (log, Ok r) →
  suppressed_properties r = properties_found r
  ∧ valid_properties r = []
  ∧ invalid_properties r = [].
Proof.
  intros Hfile Hrun.
  destruct (validate_file_filters w supp file)
    as (log' & r' & Hrun' & Hwf & Hv & Hi & Hs & _).
  assert (r' = r) as -> by congruence.
  assert (Forall (λ p, classify supp p = Suppressed) (properties_found r))
    as Hall.
  { eapply Forall_impl; [exact Hwf|]. intros prop Hprop. simpl.
    apply (classify_suppressed supp file prop Hprop).
    apply (is_suppressed_intro _ _ _ _ file); [|done].
    unfold patterns_to_check. do 3 apply list_elem_of_further.
    apply list_elem_of_here. }
  rewrite Hv, Hi, Hs. split; [by apply filter_all|].
  split; apply filter_none; (eapply Forall_impl; [exact Hall|]);
    intros prop Hc; simpl in *; congruence.
Qed.

Lemma whole_file_suppression_witness :
  "Source/a.h" ∈ (list_to_set ["Source/a.h"] : gset string)
  ∧ ∃ r,
      validate_file sample_world (list_to_set ["Source/a.h"]) "Source/a.h"
      = ([], Ok r)
      ∧ (property_name <$> suppressed_properties r)
        = ["A"; "B"; "C"; "D"; "E"; "A"]
      ∧ valid_properties r = []
      ∧ invalid_properties r = [].
Proof.
  assert ("Source/a.h" ∈ (list_to_set ["Source/a.h"] : gset string)) as Hin.
  { apply elem_of_list_to_set, list_elem_of_here. }
  split; [exact Hin|].
  destruct (validate_file_total sample_world (list_to_set ["Source/a.h"])
              "Source/a.h") as [r Hrun].
  assert ((validate_file sample_world (list_to_set ["Source/a.h"])
             "Source/a.h").1 = []) as Hlog by (by vm_compute).
  rewrite Hlog in Hrun. exists r. split; [exact Hrun|].
  destruct (whole_file_suppression sample_world _ "Source/a.h" [] r Hin Hrun)
    as (Hs & Hv & Hi).
  split; [|by split]. rewrite Hs.
  vm_compute in Hrun. by injection Hrun as <-.
Defined.

(** X9.  Adding entries to the suppression set changes neither what is
    printed nor the found sequence of a file; it can only move occurrences
    into the suppressed list: the suppressed list grows, the valid and the
    invalid lists shrink. *)
Theorem suppression_monotone w (supp supp' : gset string) file log r log' r' :
  supp ⊆ supp' →
  validate_file w supp file = (log, Ok r) →
  validate_file w supp' file = (log', Ok r') →
  log' = log
  ∧ properties_found r' = properties_found r
  ∧ sublist (suppressed_properties r) (suppressed_properties r')
  ∧ sublist (valid_properties r') (valid_properties r)
  ∧ sublist (invalid_properties r') (invalid_properties r)
  ∧ length (invalid_properties r') ≤ length (invalid_properties r).
Proof.
  intros Hsub Hrun Hrun'.
  destruct (validate_file_filters w supp file)
    as (l1 & r1 & Hrun1 & Hwf & Hv & Hi & Hs & _).
  assert (r1 = r) as -> by congruence.
  destruct (validate_file_filters w supp' file)
    as (l2 & r2 & Hrun2 & _ & Hv' & Hi' & Hs' & _).
  assert (r2 = r') as -> by congruence.
  assert (log' = log ∧ properties_found r' = properties_found r) as [-> Hf].
  { pose proof (validate_file_spec w supp file) as H.
    pose proof (validate_file_spec w supp' file) as H'.
    destruct (read_header w file) as [content|msg|msg].
    - destruct H as (found & Hfound & E), H' as (found' & Hfound' & E').
      rewrite E in Hrun. rewrite E' in Hrun'.
      injection Hrun as <- <-. injection Hrun' as <- <-. simpl.
      split; [done | congruence].
    - rewrite H in Hrun. rewrite H' in Hrun'.
      injection Hrun as <- <-. by injection Hrun' as <- <-.
    - rewrite H in Hrun. rewrite H' in Hrun'.
      injection Hrun as <- <-. by injection Hrun' as <- <-. }
  split; [done|]. split; [done|].
  assert (Forall (λ p, classify supp p = Suppressed →
                       classify supp' p = Suppressed) (properties_found r))
    as Hmono.
  { eapply Forall_impl; [exact Hwf|]. intros prop Hprop. simpl.
    rewrite !(classify_suppressed _ file prop Hprop). intros Hyes.
    apply is_suppressed_elim in Hyes as (key & Hkey & Hin).
    apply (is_suppressed_intro _ _ _ _ key); [done|]. by apply Hsub. }
  assert (Forall (λ p, classify supp' p = Valid → classify supp p = Valid)
                 (properties_found r)) as Hvalid.
  { eapply Forall_impl; [exact Hmono|]. intros prop Himp. simpl in *.
    unfold classify in *.
    destruct (is_suppressed supp (file_path prop) _ _).
    - rewrite Himp by done. done.
    - by destruct (is_suppressed supp' (file_path prop) _ _). }
  assert (Forall (λ p, classify supp' p = Invalid → classify supp p = Invalid)
                 (properties_found r)) as Hinvalid.
  { eapply Forall_impl; [exact Hmono|]. intros prop Himp. simpl in *.
    unfold classify in *.
    destruct (is_suppressed supp (file_path prop) _ _).
    - rewrite Himp by done. done.
    - by destruct (is_suppressed supp' (file_path prop) _ _). }
  rewrite Hv, Hi, Hs, Hv', Hi', Hs', Hf.
  split; [by apply sublist_filter_impl|].
  split; [by apply sublist_filter_impl|].
  split; [by apply sublist_filter_impl|].
  by apply sublist_length, sublist_filter_impl.
Qed.

Lemma suppression_monotone_witness :
  (∅ : gset string) ⊆ list_to_set ["*::C"]
  ∧ validate_file sample_world ∅ "Source/a.h" = ([], Ok sample_result)
  ∧ ∃ r',
      validate_file sample_world (list_to_set ["*::C"]) "Source/a.h"
      = ([], Ok r')
      ∧ properties_found r' = properties_found sample_result
      ∧ length (invalid_properties r') ≤ length (invalid_properties sample_result)
      ∧ property_name <$> suppressed_properties r' = ["C"].
Proof.
  assert ((∅ : gset string) ⊆ list_to_set ["*::C"]) as Hsub.
  { intros k Hk. by apply not_elem_of_empty in Hk. }
  destruct sample_occurrence_found as [Hrun _].
  destruct (validate_file_total sample_world (list_to_set ["*::C"])
              "Source/a.h") as [r' Hrun'].
  assert ((validate_file sample_world (list_to_set ["*::C"])
             "Source/a.h").1 = []) as Hlog by (by vm_compute).
  rewrite Hlog in Hrun'.
  split; [exact Hsub|]. split; [exact Hrun|]. exists r'. split; [exact Hrun'|].
  destruct (suppression_monotone sample_world ∅ (list_to_set ["*::C"])
              "Source/a.h" [] sample_result [] r' Hsub Hrun Hrun')
    as (_ & Hfound & _ & _ & _ & Hlen).
  split; [exact Hfound|]. split; [exact Hlen|].
  vm_compute in Hrun'. by injection Hrun' as <-.
Defined.

Lemma append_nonempty_r (a b : string) : b ≠ "" → a +:+ b ≠ "".
Proof. intros Hb. destruct a; [done | discriminate]. Qed.

Lemma ends_with_word_append (a b : string) :
  b ≠ "" → ends_with_word (a +:+ b) = ends_with_word b.
Proof.
  intros Hb. induction a as [|c a IH]; [done|]. simpl.
  destruct (a +:+ b) eqn:E; [|done].
  destruct a; simpl in E; [done | discriminate E].
Qed.

Lemma ends_with_word_all (s : string) :
  s ≠ "" → all_of Py.is_word s = true → ends_with_word s = true.
Proof.
  induction s as [|c s IH]; [done|]. intros _ H. simpl in *.
  apply andb_true_iff in H as [Hc Hs]. destruct s as [|d s]; [done|].
  by apply IH.
Qed.

Lemma found_names_word file content found :
  scan_properties file content = Ok found →
  Forall (λ p, property_name p ≠ ""
               ∧ all_of Py.is_word (property_name p) = true) found.
Proof.
  apply scan_properties_Forall.
  intros i j line next_line m prop Hi Ha Hj Hnext Hm Hp.
  apply make_property_inv in Hp as (_ & _ & _ & Hname & _).
  destruct (fguid_search_groups _ _ Hm) as [(name & H1 & Hne) _].
  destruct (fguid_search_classes _ _ Hm) as [Hw _].
  rewrite Hname, H1. simpl. split; [done | by apply Hw].
Qed.

(** X10.  An entry of the suppression set whose last character is no word
    character can only match as the path of a whole file: when every entry
    is such and the path of the file is no entry, nothing is suppressed in
    the file.  The entries of the template that
    [create_default_suppression_file] writes are such. *)
Theorem inert_entries w (supp : gset string) file log r :
  (∀ key, key ∈ supp → ends_with_word key = false) →
  file ∉ supp →
  validate_file w supp file = (log, Ok r) →
  suppressed_properties r = [].
Proof.
  intros Hinert Hfile Hrun.
  destruct (validate_file_filters w supp file)
    as (log' & r' & Hrun' & Hwf & _ & _ & Hs & _).
  assert (r' = r) as -> by congruence.
  rewrite Hs. apply filter_none.
  assert (Forall (λ p, property_name p ≠ ""
                       ∧ all_of Py.is_word (property_name p) = true)
                 (properties_found r)) as Hnames.
  { pose proof (validate_file_spec w supp file) as H.
    destruct (read_header w file) as [content|msg|msg].
    - destruct H as (found & Hfound & E). rewrite E in Hrun.
      injection Hrun as <- <-. by eapply found_names_word.
    - rewrite H in Hrun. injection Hrun as <- <-. constructor.
    - rewrite H in Hrun. injection Hrun as <- <-. constructor. }
  rewrite Forall_forall in *. intros prop Hin Hc.
  destruct (Hnames prop Hin) as [Hne Hword].
  apply (classify_suppressed supp file prop (Hwf prop Hin)) in Hc.
  apply is_suppressed_elim in Hc as (key & Hkey & Hk).
  pose proof (ends_with_word_all _ Hne Hword) as Hend.
  unfold patterns_to_check in Hkey.
  rewrite !elem_of_cons, elem_of_nil in Hkey.
  assert (∀ before, ends_with_word (before +:+ property_name prop) = true)
    as Hlast.
  { intros before. by rewrite ends_with_word_append. }
  destruct Hkey as [-> | [-> | [-> | [-> | []]]]].
  - apply Hinert in Hk. revert Hk.
    rewrite !ends_with_word_append by (repeat apply append_nonempty_r; done).
    congruence.
  - apply Hinert in Hk. revert Hk.
    rewrite !ends_with_word_append by (repeat apply append_nonempty_r; done).
    congruence.
  - apply Hinert in Hk. rewrite Hlast in Hk. done.
  - done.
Qed.

Lemma inert_entries_witness :
  (∀ key, key ∈ (list_to_set default_suppression_entries : gset string) →
          ends_with_word key = false)
  ∧ ¬ "Source/a.h" ∈ (list_to_set default_suppression_entries : gset string)
  ∧ ∃ r,
      validate_file sample_world (list_to_set default_suppression_entries)
                    "Source/a.h" = ([], Ok r)
      ∧ suppressed_properties r = [].
Proof.
  assert (∀ key, key ∈ (list_to_set default_suppression_entries : gset string) →
                 ends_with_word key = false) as Hinert.
  { intros key Hkey. apply elem_of_list_to_set in Hkey.
    unfold default_suppression_entries in Hkey.
    rewrite !elem_of_cons, elem_of_nil in Hkey.
    destruct Hkey as [-> | [-> | [-> | [-> | []]]]]; reflexivity. }
  assert ("Source/a.h" ∉ (list_to_set default_suppression_entries : gset string))
    as Hfile.
  { intros Hin. apply elem_of_list_to_set in Hin.
    unfold default_suppression_entries in Hin.
    rewrite !elem_of_cons, elem_of_nil in Hin.
    destruct Hin as [H | [H | [H | [H | []]]]]; discriminate H. }
  split; [exact Hinert|]. split; [exact Hfile|].
  destruct (validate_file_total sample_world
              (list_to_set default_suppression_entries) "Source/a.h")
    as [r Hrun].
  assert ((validate_file sample_world
             (list_to_set default_suppression_entries) "Source/a.h").1 = [])
    as Hlog by (by vm_compute).
  rewrite Hlog in Hrun. exists r. split; [exact Hrun|].
  exact (inert_entries sample_world _ "Source/a.h" [] r Hinert Hfile Hrun).
Defined.

(** ** Loading the suppression file, where it succeeds *)

(** X11.  [load_suppressions] gives the empty set and prints nothing when
    no path is given, when the path is the empty string and when nothing
    exists at the path; it gives the empty set and prints one warning,
    naming the path and the error, when the file cannot be opened and when
    its text is no JSON. *)
Theorem load_suppressions_recovery w (suppression_file : option string) :
  ((suppression_file = None ∨ suppression_file = Some ""
    ∨ ∃ path, suppression_file = Some path ∧ path_exists w path = false) →
   load_suppressions w suppression_file = ([], Ok ∅))
  ∧ (∀ path msg,
       suppression_file = Some path → path ≠ "" →
       path_exists w path = true →
       load_json w path = LoadIOError msg
       ∨ load_json w path = LoadJSONDecodeError msg →
       load_suppressions w suppression_file
       = ([Print ("Warning: Could not load suppression file " +:+ path
                  +:+ ": " +:+ msg)], Ok ∅)).
Proof.
  pose proof (load_suppressions_recovers w suppression_file) as H. split.
  - intros [-> | [-> | (path & -> & Hex)]]; [done | done |].
    cbv beta iota in H. rewrite Hex in H.
    by rewrite orb_true_r in H.
  - intros path msg -> Hne Hex Hload. cbv beta iota in H. rewrite Hex in H.
    destruct path as [|c path]; [done|]. cbn [Py.truthy negb orb] in H.
    by destruct Hload as [Hl | Hl]; rewrite Hl in H.
Qed.

Lemma load_suppressions_recovery_witness :
  path_exists sample_world "nowhere.json" = false
  ∧ load_suppressions sample_world (Some "nowhere.json") = ([], Ok ∅)
  ∧ load_json world_with_malformed_json "suppressions.json"
    = LoadJSONDecodeError "Expecting value: line 1 column 1 (char 0)"
  ∧ load_suppressions world_with_malformed_json (Some "suppressions.json")
    = ([Print ("Warning: Could not load suppression file suppressions.json: "
               +:+ "Expecting value: line 1 column 1 (char 0)")], Ok ∅).
Proof.
  split; [reflexivity|]. split.
  - apply (proj1 (load_suppressions_recovery sample_world (Some "nowhere.json"))).
    right. right. exists "nowhere.json". split; reflexivity.
  - split; [reflexivity|].
    apply (proj2 (load_suppressions_recovery world_with_malformed_json
                    (Some "suppressions.json"))
             "suppressions.json" "Expecting value: line 1 column 1 (char 0)");
      [reflexivity | discriminate | reflexivity | by right].
Defined.

Lemma omap_as_str (items : list json) (key : string) :
  key ∈ omap as_str items ↔ JStr key ∈ items.
Proof.
  rewrite list_elem_of_omap. split.
  - intros (v & Hv & Hs). by destruct v; simplify_eq/=.
  - intros Hin. by exists (JStr key).
Qed.

(** X12.  When the suppression file holds a JSON object, the loaded set is
    made of the strings among the members of the list under
    "suppressions", each taken as it is written: a string is in the set
    exactly when it is a member of the list; numbers, booleans and nulls
    in the list are passed over, and an object without that key gives the
    empty set. *)
Theorem load_suppressions_entries w path fields items :
  path ≠ "" →
  path_exists w path = true →
  load_json w path = LoadValue (JObj fields) →
  dict_get "suppressions" fields (JArr []) = JArr items →
  Forall scalar items →
  ∃ keys : gset string,
    load_suppressions w (Some path) = ([], Ok keys)
    ∧ (∀ key, key ∈ keys ↔ JStr key ∈ items)
    ∧ (items = [] → keys = ∅).
Proof.
  intros Hne Hex Hload Hget Hscalar.
  pose proof (load_suppressions_recovers w (Some path)) as H.
  cbv beta iota in H. rewrite Hex in H.
  destruct path as [|c path]; [done|]. cbn [Py.truthy negb orb] in H.
  rewrite Hload in H. rewrite H. cbn [json_get mbind res_bind].
  rewrite Hget. cbn [py_set].
  assert (omap unhashable items = []) as ->.
  { clear -Hscalar. induction Hscalar as [|v items Hv _ IH]; [done|].
    unfold scalar in Hv. csimpl. by rewrite Hv. }
  cbn [head]. eexists. split; [done|]. split.
  - intros key. by rewrite elem_of_list_to_set, omap_as_str.
  - by intros ->.
Qed.

Lemma load_suppressions_entries_witness :
  "suppressions.json" ≠ ""
  ∧ path_exists sample_world "suppressions.json" = true
  ∧ ∃ keys : gset string,
      load_suppressions sample_world (Some "suppressions.json") = ([], Ok keys)
      ∧ "FBar::A" ∈ keys ∧ "# a note" ∈ keys ∧ ¬ "FBar" ∈ keys.
Proof.
  split; [discriminate|]. split; [reflexivity|].
  destruct (load_suppressions_entries sample_world "suppressions.json"
              [("suppressions", JArr [JStr "# a note"; JStr "FBar::A"])]
              [JStr "# a note"; JStr "FBar::A"])
    as (keys & Hload & Hkeys & _);
    [discriminate | reflexivity | reflexivity | reflexivity
     | by repeat constructor |].
  exists keys. split; [exact Hload|]. rewrite !Hkeys.
  split; [apply list_elem_of_further, list_elem_of_here|].
  split; [apply list_elem_of_here|].
  rewrite !elem_of_cons, elem_of_nil. intros [H | [H | []]]; discriminate H.
Defined.

(** ** The directory walker, further *)

Lemma file_result_cases w supp f :
  match file_result w supp f with
  | Some r =>
      regular w f = true ∧ has_occurrences w f = true
      ∧ result_file_path r = f ∧ properties_found r ≠ []
      ∧ validate_file w supp f = ([], Ok r)
  | None => regular w f && has_occurrences w f = false
  end.
Proof.
  unfold file_result, has_occurrences.
  destruct (regular w f); [|done].
  pose proof (validate_file_spec w supp f) as H.
  destruct (read_header w f) as [content|msg|msg].
  - destruct H as (found & Hfound & ->). rewrite Hfound. simpl.
    destruct found as [|p ps]; [done|]. by split_and!.
  - by rewrite H.
  - by rewrite H.
Qed.

Lemma file_log_warning w supp f :
  file_log w supp f = option_list (file_warning w f).
Proof.
  unfold file_log, file_warning. destruct (regular w f); [|done].
  pose proof (validate_file_spec w supp f) as H.
  destruct (read_header w f) as [content|msg|msg].
  - by destruct H as (found & _ & ->).
  - by rewrite H.
  - by rewrite H.
Qed.

Lemma scan_results_of_files w supp (files : list string) :
  result_file_path <$> omap (file_result w supp) files
  = filter (λ f, regular w f = true ∧ has_occurrences w f = true) files
  ∧ Forall (λ r, properties_found r ≠ []
                 ∧ validate_file w supp (result_file_path r) = ([], Ok r))
           (omap (file_result w supp) files)
  ∧ flat_map (file_log w supp) files = omap (file_warning w) files.
Proof.
  induction files as [|f files (IH1 & IH2 & IH3)]; [by split_and!|].
  csimpl. rewrite filter_cons, file_log_warning, IH3.
  pose proof (file_result_cases w supp f) as H.
  destruct (file_result w supp f) as [r|].
  - destruct H as (Hf & Ho & Hpath & Hne & Hrun).
    rewrite decide_True by done. csimpl. rewrite IH1, Hpath.
    split_and!; [done | | by destruct (file_warning w f)].
    constructor; [|done]. by rewrite Hpath.
  - rewrite decide_False.
    + split_and!; [done | done | by destruct (file_warning w f)].
    + intros [Hf Ho]. by rewrite Hf, Ho in H.
Qed.

Lemma stat_error_middle w before f after msg :
  Forall (λ f, ∃ answer, is_file w f = IsFile answer) before →
  is_file w f = IsFileOSError msg →
  stat_error w (before ++ f :: after) = Some msg
  ∧ before_stat_error w (before ++ f :: after) = before.
Proof.
  intros Hbefore Hf.
  induction Hbefore as [|f' before [answer Hf'] _ [IH1 IH2]]; simpl.
  - by rewrite Hf.
  - by rewrite Hf', IH1, IH2.
Qed.

(** X13.  The results of [scan_directory].  When [is_file] answers for
    every enumerated path, the scan returns; its results are, in the order
    of the enumeration, the results of [validate_file] for the enumerated
    paths that are regular files, can be read and hold an occurrence, none
    of them with an empty found sequence; what it prints is one warning for
    each regular file that cannot be read, in that order.  When [is_file]
    raises at an enumerated path, as it does for a header in a directory
    that cannot be searched, the error escapes [scan_directory] after the
    warnings of the paths before it, and no result is returned.  The
    pattern of the enumeration is "**/*.h" when recursive and "*.h"
    otherwise. *)
Theorem scan_directory_results w supp dir (rec : bool) :
  (Forall (λ f, ∃ answer, is_file w f = IsFile answer)
          (glob w dir (if rec then "**/*.h" else "*.h")) →
   ∃ results,
     scan_directory w supp dir rec
     = (omap (file_warning w) (glob w dir (if rec then "**/*.h" else "*.h")),
        Ok results)
     ∧ result_file_path <$> results
       = filter (λ f, is_file w f = IsFile true ∧ has_occurrences w f = true)
                (glob w dir (if rec then "**/*.h" else "*.h"))
     ∧ Forall (λ r, properties_found r ≠ []
                    ∧ validate_file w supp (result_file_path r) = ([], Ok r))
              results)
  ∧ (∀ before f after msg,
       glob w dir (if rec then "**/*.h" else "*.h") = before ++ f :: after →
       Forall (λ f, ∃ answer, is_file w f = IsFile answer) before →
       is_file w f = IsFileOSError msg →
       scan_directory w supp dir rec
       = (omap (file_warning w) before, Raise (Exn IOError msg))).
Proof.
  rewrite scan_directory_spec. split.
  - intros Hanswers.
    rewrite (proj2 (stat_error_None w _) Hanswers).
    rewrite (before_stat_error_None w _ (proj2 (stat_error_None w _) Hanswers)).
    destruct (scan_results_of_files w supp
                (glob w dir (if rec then "**/*.h" else "*.h")))
      as (Hpaths & Hall & Hlog).
    eexists. rewrite Hlog. split; [done|]. split; [|done].
    rewrite Hpaths. apply list_filter_iff. intros f. unfold regular.
    destruct (is_file w f) as [[]|]; intuition congruence.
  - intros before f after msg -> Hbefore Hf.
    destruct (stat_error_middle w before f after msg Hbefore Hf) as [-> ->].
    by destruct (scan_results_of_files w supp before) as (_ & _ & ->).
Qed.

Lemma scan_directory_results_witness :
  (∃ results,
     scan_directory sample_world ∅ "Source" true = ([], Ok results)
     ∧ result_file_path <$> results = ["Source/a.h"; "Source/b.h"])
  ∧ scan_directory world_with_unsearchable_directory ∅ "Source" true
    = ([], Raise (Exn IOError "[Errno 13] Permission denied: 'Source/b.h'")).
Proof.
  split.
  - destruct (proj1 (scan_directory_results sample_world ∅ "Source" true))
      as (results & Hrun & Hpaths & _).
    { repeat constructor; by exists true. }
    exists results. split; [exact Hrun|]. rewrite Hpaths. by vm_compute.
  - apply (proj2 (scan_directory_results world_with_unsearchable_directory
                    ∅ "Source" true)
             ["Source/a.h"] "Source/b.h" []).
    + reflexivity.
    + repeat constructor. by exists true.
    + reflexivity.
Defined.

Lemma result_lengths w supp file log r :
  validate_file w supp file = (log, Ok r) →
  length (properties_found r)
  = length (valid_properties r) + length (invalid_properties r)
    + length (suppressed_properties r).
Proof.
  intros Hrun.
  destruct (validate_file_filters w supp file)
    as (log' & r' & Hrun' & _ & Hv & Hi & Hs & _).
  assert (r' = r) as -> by congruence.
  rewrite Hv, Hi, Hs.
  rewrite (Permutation_length (classify_partition supp (properties_found r)))
    at 1.
  rewrite !length_app. lia.
Qed.

(** X14.  The totals of a scan add up: over the results that
    [scan_directory] returns, the number of found occurrences is the sum
    of the numbers of valid, invalid and suppressed ones, which are the
    four numbers that the report shows; and [scan_directory] returns such
    results whenever [is_file] answers for every enumerated path. *)
Theorem totals_add_up w supp dir (rec : bool) :
  (Forall (λ f, ∃ answer, is_file w f = IsFile answer)
          (glob w dir (if rec then "**/*.h" else "*.h")) →
   ∃ log results, scan_directory w supp dir rec = (log, Ok results))
  ∧ ∀ log results,
      scan_directory w supp dir rec = (log, Ok results) →
      total properties_found results
      = total valid_properties results + total invalid_properties results
        + total suppressed_properties results.
Proof.
  rewrite scan_directory_spec. split.
  { intros Hanswers. rewrite (proj2 (stat_error_None w _) Hanswers). eauto. }
  intros log results. destruct (stat_error w _); [done|]. intros [= _ <-].
  destruct (scan_results_of_files w supp
              (glob w dir (if rec then "**/*.h" else "*.h")))
    as (_ & Hall & _).
  induction Hall as [|r results [_ Hr] _ IH]; [done|].
  unfold total in *. simpl. rewrite IH, (result_lengths _ _ _ _ _ Hr). lia.
Qed.

Lemma totals_add_up_witness :
  ∃ log results,
    scan_directory sample_world ∅ "Source" true = (log, Ok results)
    ∧ total properties_found results = 8
    ∧ total properties_found results
      = total valid_properties results + total invalid_properties results
        + total suppressed_properties results.
Proof.
  destruct (proj1 (totals_add_up sample_world ∅ "Source" true))
    as (log & results & Hrun).
  { repeat constructor; by exists true. }
  exists log, results. split; [exact Hrun|]. split.
  - vm_compute in Hrun. injection Hrun as _ <-. reflexivity.
  - exact (proj2 (totals_add_up sample_world ∅ "Source" true) log results Hrun).
Defined.

(** ** The report *)

Lemma total_zero field (results : list ValidationResult) :
  total field results = 0 ↔ ∀ r, r ∈ results → field r = [].
Proof.
  unfold total. induction results as [|r results IH]; simpl.
  - split; [|done]. intros _ r Hr. by apply elem_of_nil in Hr.
  - split.
    + intros H r' Hr'. apply elem_of_cons in Hr' as [-> | Hr'].
      * destruct (field r); [done | simpl in H; lia].
      * apply IH; [lia | done].
    + intros H. rewrite (H r) by apply list_elem_of_here. simpl.
      apply IH. intros r' Hr'. apply H. by apply list_elem_of_further.
Qed.

Lemma total_nonzero field (results : list ValidationResult) :
  total field results ≠ 0 → ∃ r, r ∈ results ∧ field r ≠ [].
Proof.
  unfold total. induction results as [|r results IH]; simpl; [done|].
  intros H. destruct (field r) as [|p ps] eqn:E.
  - destruct IH as (r' & Hr' & Hne); [simpl in H; lia|].
    exists r'. split; [by apply list_elem_of_further | done].
  - exists r. split; [apply list_elem_of_here | by rewrite E].
Qed.

Lemma total_positive field (results : list ValidationResult) r prop :
  r ∈ results → prop ∈ field r → (0 <? total field results) = true.
Proof.
  intros Hr Hp. apply Nat.ltb_lt.
  destruct (total field results) eqn:E; [|lia].
  rewrite (proj1 (total_zero field results) E r Hr) in Hp.
  by apply elem_of_nil in Hp.
Qed.

(** X15.  The verdict line of the report, its eleventh, reads
    "VALIDATION PASSED" exactly when no result holds an invalid occurrence,
    and "VALIDATION FAILED" exactly when some result holds one. *)
Theorem report_verdict (results : list ValidationResult) :
  (report_lines results !! 10 = Some "✅ VALIDATION PASSED"
   ↔ ∀ r, r ∈ results → invalid_properties r = [])
  ∧ (report_lines results !! 10 = Some "❌ VALIDATION FAILED"
     ↔ ∃ r, r ∈ results ∧ invalid_properties r ≠ []).
Proof.
  rewrite <- total_zero. unfold report_lines. cbv zeta.
  destruct (total invalid_properties results) as [|n] eqn:E.
  - simpl. split; [done|]. split; [done|]. intros (r & Hr & Hne).
    by rewrite (proj1 (total_zero _ _) E r Hr) in Hne.
  - simpl. split; [done|]. split; [|done]. intros _.
    apply total_nonzero. lia.
Qed.

(** X16.  The report itemizes every classified occurrence: the lines of
    the item of each invalid occurrence of each result, the line of each
    suppressed occurrence and the line of each valid occurrence are lines
    of the report. *)
Theorem every_occurrence_itemized (results : list ValidationResult) r prop :
  r ∈ results →
  (prop ∈ invalid_properties r →
   ∀ line, line ∈ invalid_item prop → line ∈ report_lines results)
  ∧ (prop ∈ suppressed_properties r →
     suppressed_item prop ∈ report_lines results)
  ∧ (prop ∈ valid_properties r → valid_item prop ∈ report_lines results).
Proof.
  intros Hr. unfold report_lines. cbv zeta. split; [|split].
  - intros Hp line Hline.
    rewrite (total_positive invalid_properties results r prop Hr Hp).
    apply elem_of_app. right. apply elem_of_app. left.
    do 4 apply list_elem_of_further.
    apply list_elem_of_In, in_flat_map. exists r. split; [by apply list_elem_of_In|].
    apply in_flat_map. exists prop. by split; apply list_elem_of_In.
  - intros Hp.
    rewrite (total_positive suppressed_properties results r prop Hr Hp).
    apply elem_of_app. right. apply elem_of_app. right. apply elem_of_app. left.
    do 2 apply list_elem_of_further. apply elem_of_app. left.
    apply list_elem_of_In, in_flat_map. exists r. split; [by apply list_elem_of_In|].
    apply in_map. by apply list_elem_of_In.
  - intros Hp.
    rewrite (total_positive valid_properties results r prop Hr Hp).
    do 3 (apply elem_of_app; right).
    do 2 apply list_elem_of_further. apply elem_of_app. left.
    apply list_elem_of_In, in_flat_map. exists r. split; [by apply list_elem_of_In|].
    apply in_map. by apply list_elem_of_In.
Qed.

Lemma every_occurrence_itemized_witness :
  sample_result ∈ [sample_result]
  ∧ sample_occurrence ∈ invalid_properties sample_result
  ∧ "File: Source/a.h:8" ∈ report_lines [sample_result]
  ∧ "Current initializer: FGuid(42)" ∈ report_lines [sample_result].
Proof.
  assert (sample_result ∈ [sample_result]) as Hr by apply list_elem_of_here.
  assert (sample_occurrence ∈ invalid_properties sample_result) as Hp
    by apply list_elem_of_here.
  split; [exact Hr|]. split; [exact Hp|].
  destruct (every_occurrence_itemized [sample_result] sample_result
              sample_occurrence Hr) as (Hinvalid & _ & _).
  split; apply (Hinvalid Hp).
  - apply list_elem_of_here.
  - do 4 apply list_elem_of_further. apply list_elem_of_here.
Defined.

(** ** What a run writes *)

Lemma run_events w args : (run w args).1 = (main w args).1.
Proof. unfold run. by destruct (main w args). Qed.

Lemma load_suppressions_prints w suppression_file :
  Forall (λ e, is_write e = false) (load_suppressions w suppression_file).1.
Proof.
  pose proof (load_suppressions_recovers w suppression_file) as H.
  destruct suppression_file as [path|]; [|rewrite H; constructor].
  destruct (negb (Py.truthy (Some path)) || negb (path_exists w path));
    [rewrite H; constructor|].
  destruct (load_json w path); rewrite H; repeat constructor.
Qed.

Lemma scan_log_prints w supp args :
  Forall (λ e, is_write e = false) (scan_log w supp args).
Proof.
  unfold scan_log.
  destruct (scan_results_of_files w supp
              (before_stat_error w
                 (glob w (directory args)
                       (if recursive args then "**/*.h" else "*.h"))))
    as (_ & _ & ->).
  apply Forall_forall. intros e He.
  apply list_elem_of_omap in He as (f & _ & Hf). unfold file_warning in Hf.
  destruct (regular w f); [|done].
  by destruct (read_header w f); simplify_eq.
Qed.

(** X17.  A run writes at most one file and no other: with
    [--create-suppression-file], the template at the path given; without
    it, and only when the root is a directory and [--output] is given, the
    report of the scan at the output path.  Nothing else that a run does
    writes a file. *)
Theorem run_writes w args e :
  e ∈ (run w args).1 →
  is_write e = true →
  (Py.truthy (create_suppression_file args) = true
   ∧ e = WriteFile (default "" (create_suppression_file args))
                   default_suppressions_text)
  ∨ (Py.truthy (create_suppression_file args) = false
     ∧ isdir w (directory args) = true
     ∧ Py.truthy (output args) = true
     ∧ ∃ lines,
         report_lines_of w args = Some lines
         ∧ e = WriteFile (default "" (output args)) (Py.join_lines lines)).
Proof.
  rewrite run_events, main_spec. unfold report_lines_of.
  destruct (Py.truthy (create_suppression_file args)).
  { destruct (write_text w _); simpl; intros He Hw.
    - left. split; [done|].
      apply elem_of_cons in He as [-> | He]; [done|].
      apply list_elem_of_singleton in He as ->. done.
    - by apply elem_of_nil in He. }
  destruct (isdir w (directory args)); simpl.
  2:{ intros He Hw. apply list_elem_of_singleton in He as ->. done. }
  pose proof (load_suppressions_prints w (suppression_file args)) as Hload.
  destruct (load_suppressions w (suppression_file args)) as [log [supp|err]];
    simpl in Hload.
  2:{ intros He Hw. rewrite Forall_forall in Hload.
      rewrite (Hload e He) in Hw. done. }
  pose proof (scan_log_prints w supp args) as Hscan.
  rewrite Forall_forall in Hload, Hscan.
  rewrite scan_directory_spec. fold (scan_results w supp args).
  fold (scan_error w args).
  destruct (scan_error w args) as [msg|].
  { intros He Hw. apply elem_of_app in He as [He | He].
    - rewrite (Hload e He) in Hw. done.
    - rewrite (Hscan e He) in Hw. done. }
  cbv zeta.
  assert (∀ tail, e ∈ log ++ scan_log w supp args ++ tail →
                  is_write e = true → e ∈ tail) as Htail.
  { intros tail He Hw. apply elem_of_app in He as [He | He].
    { rewrite (Hload e He) in Hw. done. }
    apply elem_of_app in He as [He | He]; [|done].
    rewrite (Hscan e He) in Hw. done. }
  destruct (Py.truthy (output args)).
  - destruct (write_text w _); simpl; intros He Hw; apply Htail in He;
      try done.
    + right. split_and!; try done. eexists. split; [done|].
      apply elem_of_cons in He as [-> | He]; [done|].
      apply list_elem_of_singleton in He as ->. done.
    + by apply elem_of_nil in He.
  - simpl. intros He Hw. apply Htail in He; [|done].
    apply list_elem_of_singleton in He as ->. done.
Qed.

Lemma run_writes_witness :
  ∃ report,
    WriteFile "report.txt" report
    ∈ (run sample_world
         {| directory := "Source"; recursive := true;
            suppression_file := None; create_suppression_file := None;
            output := Some "report.txt"; fail_on_invalid := false |}).1
    ∧ ∃ lines,
        report_lines_of sample_world
          {| directory := "Source"; recursive := true;
             suppression_file := None; create_suppression_file := None;
             output := Some "report.txt"; fail_on_invalid := false |}
        = Some lines
        ∧ report = Py.join_lines lines.
Proof.
  set (args := {| directory := "Source"; recursive := true;
                  suppression_file := None; create_suppression_file := None;
                  output := Some "report.txt"; fail_on_invalid := false |}).
  assert (∃ report, (run sample_world args).1
                    = [WriteFile "report.txt" report;
                       Print "Report written to: report.txt"]) as [report Hlog].
  { eexists. by vm_compute. }
  exists report.
  assert (WriteFile "report.txt" report ∈ (run sample_world args).1) as Hin.
  { rewrite Hlog. apply list_elem_of_here. }
  split; [exact Hin|].
  destruct (run_writes sample_world args _ Hin eq_refl)
    as [[Hcreate _] | (_ & _ & _ & lines & Hlines & Hwrite)].
  - discriminate Hcreate.
  - exists lines. split; [exact Hlines|]. by injection Hwrite.
Defined.

(** X18.  When [is_file] answers for every enumerated path and none of
    them is a regular file that can be read and holds an occurrence,
    nothing is listed: the scan counts no invalid occurrence and the
    report is the twelve lines of the banner, five totals of zero and
    "VALIDATION PASSED". *)
Theorem empty_scan_passes w args log supp :
  load_suppressions w (suppression_file args) = (log, Ok supp) →
  (∀ f, f ∈ glob w (directory args)
                   (if recursive args then "**/*.h" else "*.h") →
        ∃ answer, is_file w f = IsFile answer
                  ∧ answer && has_occurrences w f = false) →
  report_lines_of w args = Some empty_report_lines
  ∧ scan_invalid_count w args = Some 0.
Proof.
  intros Hload Hnone. unfold report_lines_of, scan_invalid_count.
  rewrite Hload, scan_directory_spec.
  assert (stat_error w (glob w (directory args)
                             (if recursive args then "**/*.h" else "*.h"))
          = None) as ->.
  { apply stat_error_None, Forall_forall. intros f Hf.
    destruct (Hnone f Hf) as (answer & Hanswer & _). eauto. }
  assert (omap (file_result w supp)
               (glob w (directory args)
                     (if recursive args then "**/*.h" else "*.h")) = [])
    as ->; [|done].
  induction (glob w (directory args) _) as [|f files IH]; [done|].
  csimpl. pose proof (file_result_cases w supp f) as H.
  destruct (file_result w supp f) as [r|].
  - destruct H as (Hf & Ho & _).
    destruct (Hnone f (list_elem_of_here _ _)) as (answer & Hanswer & Hempty).
    unfold regular in Hf. rewrite Hanswer in Hf. by rewrite Hf, Ho in Hempty.
  - apply IH. intros f' Hf'. apply Hnone. by apply list_elem_of_further.
Qed.

Lemma empty_scan_passes_witness :
  load_suppressions (sample_world_with ["Source/c.h"] (LoadValue (JObj [])))
                    (suppression_file sample_args) = ([], Ok ∅)
  ∧ report_lines_of (sample_world_with ["Source/c.h"] (LoadValue (JObj [])))
                    sample_args = Some empty_report_lines
  ∧ (run (sample_world_with ["Source/c.h"] (LoadValue (JObj []))) sample_args).2
    = 0.
Proof.
  assert (load_suppressions
            (sample_world_with ["Source/c.h"] (LoadValue (JObj [])))
            (suppression_file sample_args) = ([], Ok ∅)) as Hload
    by (by vm_compute).
  split; [exact Hload|]. split; [|by vm_compute].
  refine (proj1 (empty_scan_passes _ sample_args [] ∅ Hload _)).
  intros f Hf. apply list_elem_of_singleton in Hf as ->.
  exists true. by vm_compute.
Defined.
